(** * gandi-ddns: the reconciliation run of [main.py]

    A shallow embedding of [src/main.py] (declarative dynamic DNS against
    the Gandi LiveDNS API) and the properties of its reconciliation loop.

    - Python values that [json.loads] produces are the type [pyval];
      [None] is [PyNone], so that a missing live record and a JSON [null]
      are the same value, as they are in the program.
    - The outside world (the provider, the [ip] command, the public echo
      service, the notify script) is a state [World] with transition
      functions; the program is written in a small monad that threads the
      world, collects the observable events in order and propagates Python
      exceptions.
    - [GLOBAL_CONF.records] is mutated in place by [main]; the model
      returns the records as they stand when the run ends. *)

From Stdlib Require Import String Ascii List ZArith Bool Lia DecimalString.
Import ListNotations.
Open Scope string_scope.
Set Warnings "-register-all".

(** ** Python values *)

(** What [json.loads] returns.  Numbers are the integers; the program
    inspects a number only in [record_data.get("code") == 404]. *)
Inductive pyval : Type :=
| PyNone
| PyBool (b : bool)
| PyInt (n : Z)
| PyStr (s : string)
| PyList (l : list pyval)
| PyDict (kv : list (string * pyval)).

(** Truth value of an object, as [assert x], [if x] and [not x] take it. *)
Definition truthy (v : pyval) : bool :=
  match v with
  | PyNone => false
  | PyBool b => b
  | PyInt n => negb (n =? 0)%Z
  | PyStr s => negb (s =? "")
  | PyList l => match l with [] => false | _ => true end
  | PyDict kv => match kv with [] => false | _ => true end
  end.

Definition truthy_str (s : string) : bool := negb (s =? "").

Definition truthy_optstr (o : option string) : bool :=
  match o with None => false | Some s => truthy_str s end.

(** Entry of a dict; a Python dict holds a key once. *)
Fixpoint dict_lookup (kv : list (string * pyval)) (k : string) : option pyval :=
  match kv with
  | [] => None
  | (k', v) :: rest => if k' =? k then Some v else dict_lookup rest k
  end.

(** What [d.get(k)] gives on a dict. *)
Definition dict_get (kv : list (string * pyval)) (k : string) : pyval :=
  match dict_lookup kv k with Some v => v | None => PyNone end.

(** ** [repr] and [str] of the values the program formats *)

Definition hex_digit (n : N) : ascii :=
  match n with
  | 0 => "0" | 1 => "1" | 2 => "2" | 3 => "3" | 4 => "4" | 5 => "5"
  | 6 => "6" | 7 => "7" | 8 => "8" | 9 => "9" | 10 => "a" | 11 => "b"
  | 12 => "c" | 13 => "d" | 14 => "e" | _ => "f"
  end%N%char.

Definition backslash : ascii := "\"%char.
Definition squote : ascii := "'"%char.
Definition dquote : ascii := ascii_of_nat 34.

Fixpoint contains_char (c : ascii) (s : string) : bool :=
  match s with
  | EmptyString => false
  | String c' rest => (c' =? c)%char || contains_char c rest
  end.

(** The quote [repr] wraps a string in: a double quote only when the text
    has a single quote and no double quote. *)
Definition repr_quote (s : string) : ascii :=
  if contains_char squote s && negb (contains_char dquote s)
  then dquote else squote.

(** One character of a [repr]; [hi] tells whether bytes from 0x7f up are
    escaped (bytes objects) or kept (text, where they are the UTF-8 bytes of
    printable characters). *)
Definition repr_char (hi : bool) (q c : ascii) : string :=
  let n := N_of_ascii c in
  if ((c =? q) || (c =? backslash))%char then String backslash (String c "")
  else if (n =? 9)%N then String backslash "t"
  else if (n =? 10)%N then String backslash "n"
  else if (n =? 13)%N then String backslash "r"
  else if ((n <? 32) || (n =? 127) || (hi && (127 <? n)))%N
       then String backslash
              (String "x" (String (hex_digit (n / 16)) (String (hex_digit (n mod 16)) "")))
  else String c "".

Fixpoint repr_chars (hi : bool) (q : ascii) (s : string) : string :=
  match s with
  | EmptyString => ""
  | String c rest => repr_char hi q c ++ repr_chars hi q rest
  end.

Definition repr_str (s : string) : string :=
  let q := repr_quote s in
  String q (repr_chars false q s ++ String q "").

Definition repr_bytes (s : string) : string :=
  let q := repr_quote s in
  String "b" (String q (repr_chars true q s ++ String q "")).

Definition repr_int (n : Z) : string := NilZero.string_of_int (Z.to_int n).

Fixpoint join (sep : string) (l : list string) : string :=
  match l with
  | [] => ""
  | [x] => x
  | x :: rest => x ++ sep ++ join sep rest
  end.

Fixpoint py_repr (v : pyval) : string :=
  match v with
  | PyNone => "None"
  | PyBool true => "True"
  | PyBool false => "False"
  | PyInt n => repr_int n
  | PyStr s => repr_str s
  | PyList l => "[" ++ join ", " (map py_repr l) ++ "]"
  | PyDict kv =>
      "{" ++ join ", " (map (fun p => repr_str (fst p) ++ ": " ++ py_repr (snd p)) kv) ++ "}"
  end.

(** [str(v)], which an f-string field and [print] apply. *)
Definition py_str (v : pyval) : string :=
  match v with
  | PyStr s => s
  | _ => py_repr v
  end.

(** ** Bytes and text

    A Python [str] is kept as the bytes of its UTF-8 encoding, so that
    [bytes.decode()] keeps the bytes when they are UTF-8 and raises
    [UnicodeDecodeError] when they are not. *)

(** Where a UTF-8 decoder stands inside a character: [U0] between two
    characters, [U1], [U2], [U3] with that many continuation bytes to
    come, and the four states after a lead byte that narrows the next
    byte ([E0]: no overlong form, [ED]: no surrogate, [F0]: no overlong
    form, [F4]: nothing above U+10FFFF). *)
Inductive utf8_state : Type :=
| U0 | U1 | U2 | U3 | U_E0 | U_ED | U_F0 | U_F4.

Definition between (lo hi n : N) : bool := ((lo <=? n) && (n <=? hi))%N.

Definition utf8_step (st : utf8_state) (c : ascii) : option utf8_state :=
  let n := N_of_ascii c in
  match st with
  | U0 =>
      if (n <? 128)%N then Some U0
      else if between 194 223 n then Some U1
      else if (n =? 224)%N then Some U_E0
      else if between 225 236 n || between 238 239 n then Some U2
      else if (n =? 237)%N then Some U_ED
      else if (n =? 240)%N then Some U_F0
      else if between 241 243 n then Some U3
      else if (n =? 244)%N then Some U_F4
      else None
  | U1 => if between 128 191 n then Some U0 else None
  | U2 => if between 128 191 n then Some U1 else None
  | U3 => if between 128 191 n then Some U2 else None
  | U_E0 => if between 160 191 n then Some U1 else None
  | U_ED => if between 128 159 n then Some U1 else None
  | U_F0 => if between 144 191 n then Some U2 else None
  | U_F4 => if between 128 143 n then Some U2 else None
  end.

Fixpoint utf8_from (st : utf8_state) (b : string) : bool :=
  match b with
  | EmptyString => match st with U0 => true | _ => false end
  | String c rest =>
      match utf8_step st c with
      | Some st' => utf8_from st' rest
      | None => false
      end
  end.

(** [b.decode()]: the text, or [None] for [UnicodeDecodeError]. *)
Definition decode (b : string) : option string :=
  if utf8_from U0 b then Some b else None.

(** A command line with a NUL character cannot be handed to a shell:
    [subprocess] raises [ValueError] ("embedded null byte") before it
    starts anything. *)
Definition NUL : ascii := Ascii.zero.

Definition has_nul (s : string) : bool := contains_char NUL s.

(** ** The configuration (lines 64-83) *)

(** [class Record]: [val] is [None] until the run fills it in. *)
Record record : Type := mkRecord {
  type : string;
  name : string;
  val : option (list string)
}.

(** [class Config]; [records] is a dict, iterated in insertion order. *)
Record Config : Type := mkConfig {
  wan_device : string;
  gandi_api_key : option string;
  records : list (string * list record);
  notify_script : option string
}.

(** [record.val] as a Python value. *)
Definition pyval_of_val (v : option (list string)) : pyval :=
  match v with
  | None => PyNone
  | Some l => PyList (map PyStr l)
  end.

(** [repr(record)], as the dataclass generates it. *)
Definition repr_record (r : record) : string :=
  "Record(type=" ++ repr_str (type r) ++ ", name=" ++ repr_str (name r)
    ++ ", val=" ++ py_repr (pyval_of_val (val r)) ++ ")".

(** ** Requests, answers and events *)

(** What [request.Request(url, data, headers, method)] carries.  [data] is
    the value given to [json.dumps] and stands for its encoding. *)
Record request : Type := mkRequest {
  url : string;
  data : pyval;
  headers : list (string * string);
  method : string
}.

(** What [json.loads] makes of the text of a body: a value, or an
    exception whose text is [why] (for bytes that are not UTF-8, the
    exception of [decode]). *)
Inductive decoded : Type :=
| Decoded (j : pyval)
| Undecodable (why : string).

Record body : Type := mkBody {
  raw : string;
  json_loads : decoded
}.

(** How [request.urlopen] ends: a 2xx answer, an [HTTPError] carrying the
    status and the body, or any other exception (no route, bad URL). *)
Inductive http_outcome : Type :=
| Http2xx (b : body)
| HTTPError (code : Z) (b : body)
| UrlopenRaises.

(** The exceptions the run can end with. *)
Inductive exn : Type :=
| AssertionError
| KeyError (k : string)
| TypeError
| AttributeError
| JSONDecodeError
| URLError
| HTTPErrorRaised (code : Z)
| CalledProcessError
| ValueErrorRaised
| UnicodeDecodeError
| SystemExit (status : Z).

(** What an observer of the run sees, in order. *)
Inductive event : Type :=
| Stdout (s : string)          (* print(...) *)
| Stderr (s : string)         (* print(..., file=sys.stderr) *)
| Notify (msg : string)       (* a call send_notification(msg) *)
| Shell (cmd : string)        (* a command a shell is started with *)
| Send (r : request).         (* a request handed to urlopen *)

Inductive result (A : Type) : Type :=
| Ok (a : A)
| Raise (e : exn).
Arguments Ok {A} a.
Arguments Raise {A} e.

(** ** The host the program runs on *)

(** The state of everything outside the process and the calls that reach
    it.  [ENV_APIKEY] is the module constant read from the environment at
    import (line 47).  [request_accepted] is the check that
    [request.Request(url=...)] of the library makes when the request is
    built: it parses the URL and raises [ValueError] for one it cannot
    take, such as a URL without a scheme ("unknown url type"). *)
Record Env : Type := mkEnv {
  World : Type;
  request_accepted : string -> bool;
  urlopen : World -> request -> http_outcome * World;
  check_output : World -> string -> option string * World;
  subprocess_run : World -> string -> World;
  ENV_APIKEY : option string
}.

(** ** The monad of the run: world, events so far, exceptions *)

Definition M (E : Env) (A : Type) : Type :=
  World E -> result A * World E * list event.

Definition ret {E A} (a : A) : M E A := fun w => (Ok a, w, []).

Definition raise {E A} (e : exn) : M E A := fun w => (Raise e, w, []).

Definition bind {E A B} (m : M E A) (f : A -> M E B) : M E B :=
  fun w =>
    match m w with
    | (Ok a, w1, t1) => let '(r, w2, t2) := f a w1 in (r, w2, (t1 ++ t2)%list)
    | (Raise e, w1, t1) => (Raise e, w1, t1)
    end.

Notation "x <- m ;; k" := (bind m (fun x => k))
  (at level 61, m at next level, right associativity).
Notation "m ;;; k" := (bind m (fun _ => k))
  (at level 61, right associativity).

Definition emit {E} (ev : event) : M E unit := fun w => (Ok tt, w, [ev]).

Definition print {E} (s : string) : M E unit := emit (Stdout s).

(** [assert b], with assertions enabled (the interpreter runs without
    [-O]). *)
Definition assert {E} (b : bool) : M E unit :=
  if b then ret tt else raise AssertionError.

(** [d[k]] for a value [d]. *)
Definition subscript {E} (d : pyval) (k : string) : M E pyval :=
  match d with
  | PyDict kv =>
      match dict_lookup kv k with
      | Some v => ret v
      | None => raise (KeyError k)
      end
  | _ => raise TypeError
  end.

(** [d.get(k)] for a value [d]: only a dict has the method. *)
Definition py_get {E} (d : pyval) (k : string) : M E pyval :=
  match d with
  | PyDict kv => ret (dict_get kv k)
  | _ => raise AttributeError
  end.

(** [v == s] for a string [s]. *)
Definition py_eq_str (v : pyval) (s : string) : bool :=
  match v with
  | PyStr s' => s' =? s
  | _ => false
  end.

(** [v == n] for an integer [n]; [True] and [False] count as 1 and 0. *)
Definition py_eq_int (v : pyval) (n : Z) : bool :=
  match v with
  | PyInt n' => (n' =? n)%Z
  | PyBool b => ((if b then 1 else 0) =? n)%Z
  | _ => false
  end.

(** [v == l] for a list of strings [l]: the same length and equal
    elements at every position. *)
Fixpoint py_list_eq_strs (vs : list pyval) (l : list string) : bool :=
  match vs, l with
  | [], [] => true
  | v :: vs', s :: l' => py_eq_str v s && py_list_eq_strs vs' l'
  | _, _ => false
  end.

(** [rec_val == record.val]. *)
Definition py_eq_val (v : pyval) (desired : option (list string)) : bool :=
  match v, desired with
  | PyNone, None => true
  | PyList vs, Some l => py_list_eq_strs vs l
  | _, _ => false
  end.

Definition nl : string := String (ascii_of_nat 10) "".
Definition dq : string := String dquote "".

Definition HTTP_IP_SOURCE : string := "https://ifconfig.me".

(** ** [str.strip] (ASCII) *)

(** [str.isspace] on one ASCII character. *)
Definition is_space (c : ascii) : bool :=
  let n := N_of_ascii c in
  ((n =? 32) || ((9 <=? n) && (n <=? 13)) || ((28 <=? n) && (n <=? 31)))%N.

Fixpoint lstrip (s : string) : string :=
  match s with
  | EmptyString => ""
  | String c rest => if is_space c then lstrip rest else s
  end.

Fixpoint rstrip (s : string) : string :=
  match s with
  | EmptyString => ""
  | String c rest =>
      match rstrip rest with
      | EmptyString => if is_space c then "" else String c ""
      | r => String c r
      end
  end.

(** [s.strip()]. *)
Definition strip (s : string) : string := rstrip (lstrip s).

(** ** The pattern of line 173

    [re.search(r"inet ((\d{1,3}\.){3}[^/]+)", got)], on ASCII text.  After
    one to three digits the pattern wants a dot, so taking the digits
    greedily loses no match; the last part takes every character up to the
    next slash, line ends included. *)

Definition is_digit (c : ascii) : bool :=
  let n := N_of_ascii c in ((48 <=? n) && (n <=? 57))%N.

(** Up to [k] leading digits of [s], and the rest. *)
Fixpoint take_digits (k : nat) (s : string) : string * string :=
  match k, s with
  | S k', String c rest =>
      if is_digit c
      then let '(d, r) := take_digits k' rest in (String c d, r)
      else ("", s)
  | _, _ => ("", s)
  end.

(** [\d{1,3}\.] at the head of [s]. *)
Definition match_octet_dot (s : string) : option (string * string) :=
  match take_digits 3 s with
  | (EmptyString, _) => None
  | (d, String c rest) => if (c =? ".")%char then Some (d ++ ".", rest) else None
  | (_, EmptyString) => None
  end.

(** [[^/]*] at the head of [s]. *)
Fixpoint take_until_slash (s : string) : string :=
  match s with
  | EmptyString => ""
  | String c rest => if (c =? "/")%char then "" else String c (take_until_slash rest)
  end.

Fixpoint strip_prefix (p s : string) : option string :=
  match p, s with
  | EmptyString, _ => Some s
  | String a p', String b s' => if (a =? b)%char then strip_prefix p' s' else None
  | String _ _, EmptyString => None
  end.

(** The whole pattern at the head of [s]; the result is group 1. *)
Definition match_inet (s : string) : option string :=
  match strip_prefix "inet " s with
  | None => None
  | Some s1 =>
      match match_octet_dot s1 with
      | None => None
      | Some (a, s2) =>
          match match_octet_dot s2 with
          | None => None
          | Some (b, s3) =>
              match match_octet_dot s3 with
              | None => None
              | Some (c, s4) =>
                  match take_until_slash s4 with
                  | EmptyString => None
                  | t => Some (a ++ b ++ c ++ t)
                  end
              end
          end
      end
  end.

(** The leftmost match, or [None]. *)
Fixpoint re_search_inet (s : string) : option string :=
  match match_inet s with
  | Some g => Some g
  | None =>
      match s with
      | EmptyString => None
      | String _ rest => re_search_inet rest
      end
  end.

(** ** The type of a URL, as [request.Request] looks for it

    When a request is built the library unwraps the URL
    ([<URL:type://host/path>] becomes [type://host/path]), cuts the
    fragment at the last [#] and wants a type in front: one character or
    more, none of them a slash or a colon, and then a colon.  Without it
    the constructor raises [ValueError] ("unknown url type").  The
    example hosts take this for the whole of [request_accepted]: their
    URLs have a plain host name, which passes the further checks the
    library makes on the network location. *)

Fixpoint last_char (s : string) : option ascii :=
  match s with
  | EmptyString => None
  | String c EmptyString => Some c
  | String _ rest => last_char rest
  end.

Fixpoint drop_last (s : string) : string :=
  match s with
  | EmptyString => ""
  | String _ EmptyString => ""
  | String c rest => String c (drop_last rest)
  end.

(** [urllib.parse.unwrap]. *)
Definition unwrap (url : string) : string :=
  let u := strip url in
  let u1 :=
    match u with
    | String c rest =>
        match last_char u with
        | Some l => if ((c =? "<") && (l =? ">"))%char then strip (drop_last rest) else u
        | None => u
        end
    | EmptyString => u
    end in
  match strip_prefix "URL:" u1 with
  | Some rest => strip rest
  | None => u1
  end.

(** [s.rpartition(c)[0]] when [c] occurs in [s]. *)
Fixpoint before_last (c : ascii) (s : string) : option string :=
  match s with
  | EmptyString => None
  | String a rest =>
      match before_last c rest with
      | Some p => Some (String a p)
      | None => if (a =? c)%char then Some "" else None
      end
  end.

(** The first component of [_splittag]. *)
Definition splittag (url : string) : string :=
  match before_last "#" url with
  | Some path => path
  | None => url
  end.

(** Whether [([^/:]+):] matches at the head of [s]; [seen] tells whether a
    character of the type was read. *)
Fixpoint has_type (seen : bool) (s : string) : bool :=
  match s with
  | EmptyString => false
  | String c rest =>
      if (c =? ":")%char then seen
      else if (c =? "/")%char then false
      else has_type true rest
  end.

Definition url_type_known (url : string) : bool :=
  has_type false (splittag (unwrap url)).

Section Program.
Variable E : Env.
Variable conf : Config.   (* GLOBAL_CONF, as loaded *)

(** [request.urlopen(req)]: the request is seen, the world answers. *)
Definition do_urlopen (req : request) : M E http_outcome :=
  fun w => let '(o, w') := urlopen E w req in (Ok o, w', [Send req]).

(** Line 136: [ENV_APIKEY or GLOBAL_CONF.gandi_api_key]. *)
Definition api_key : option string :=
  if truthy_optstr (ENV_APIKEY E) then ENV_APIKEY E else gandi_api_key conf.

(** Lines 138-141. *)
Definition req_headers : list (string * string) :=
  [("Content-Type", "application/json");
   ("X-Api-Key", match api_key with Some k => k | None => "" end)].

(** Line 145: [request.Request(url=url, ...)] raises [ValueError] for a
    URL it cannot take; nothing has been sent then. *)
Definition new_request (url : string) : M E unit :=
  if request_accepted E url then ret tt else raise ValueErrorRaised.

(** Lines 135-158.  [data] is [None] or the dict of the PUT; lines 143-144
    encode it, and the request keeps the value that is encoded.  The
    request is built outside the [try], and only an [HTTPError] is caught:
    another failure of [urlopen], or a 2xx body that does not decode (as
    UTF-8 in line 147, as JSON in line 158), leaves the function as an
    exception.  For the body of an error, [json_loads] stands for
    [json.loads(data.decode())] with the text of the exception of either
    step. *)
Definition gandi_req (url : string) (data : pyval) (method : string) : M E pyval :=
  assert (truthy_optstr api_key) ;;;
  new_request url ;;;
  o <- do_urlopen (mkRequest url data req_headers method) ;;
  match o with
  | Http2xx b =>
      match decode (raw b) with
      | None => raise UnicodeDecodeError
      | Some _ =>
          match json_loads b with
          | Decoded j => ret j
          | Undecodable _ => raise JSONDecodeError
          end
      end
  | HTTPError code b =>
      print ("failed request to " ++ url ++ " (" ++ repr_int code ++ "):"
               ++ nl ++ repr_bytes (raw b)) ;;;
      match json_loads b with
      | Decoded j => ret j
      | Undecodable why => print why ;;; ret PyNone
      end
  | UrlopenRaises => raise URLError
  end.

(** [subprocess.run(cmd, shell=True)] (line 163): a command line with a
    NUL character is refused with [ValueError] before a shell is started;
    the exit status of the command is not looked at. *)
Definition run_shell (cmd : string) : M E unit :=
  if has_nul cmd then raise ValueErrorRaised
  else fun w => (Ok tt, subprocess_run E w cmd, [Shell cmd]).

(** Lines 161-165.  The call is an event of its own; the script runs only
    when one is configured. *)
Definition send_notification (msg : string) : M E unit :=
  emit (Notify msg) ;;;
  match notify_script conf with
  | Some script =>
      if truthy_str script
      then run_shell (script ++ " " ++ dq ++ msg ++ dq)
      else ret tt
  | None => ret tt
  end.

(** Lines 90-92. *)
Definition die {A} (msg : string) : M E A :=
  emit (Stderr msg) ;;; raise (SystemExit 1).

(** [subprocess.check_output(cmd, shell=True)] (lines 170-171): the bytes
    the command prints, [CalledProcessError] when it fails, and
    [ValueError] before anything is started for a command line with a NUL
    character. *)
Definition shell_output (cmd : string) : M E string :=
  if has_nul cmd then raise ValueErrorRaised
  else fun w =>
         match check_output E w cmd with
         | (Some out, w') => (Ok out, w', [Shell cmd])
         | (None, w') => (Raise CalledProcessError, w', [Shell cmd])
         end.

(** [b.decode()] as a step of the run. *)
Definition decoded_text (b : string) : M E string :=
  match decode b with
  | Some text => ret text
  | None => raise UnicodeDecodeError
  end.

(** Lines 168-180. *)
Definition get_local_ip : M E string :=
  assert (truthy_str (wan_device conf)) ;;;
  out <- shell_output ("ip addr show dev " ++ wan_device conf) ;;
  got <- decoded_text out ;;
  match re_search_inet got with
  | None => raise AttributeError            (* None.groups() *)
  | Some local_ip =>
      o <- do_urlopen (mkRequest HTTP_IP_SOURCE PyNone [] "GET") ;;
      match o with
      | Http2xx b =>
          net_ip <- decoded_text (raw b) ;;
          (if negb (local_ip =? net_ip)
           then
             let mismatch := "IP mismatch: " ++ local_ip ++ " vs. " ++ net_ip in
             print mismatch ;;; send_notification mismatch
           else ret tt) ;;;
          ret local_ip
      | HTTPError code _ => raise (HTTPErrorRaised code)
      | UrlopenRaises => raise URLError
      end
  end.

(** Line 184. *)
Definition get_domain_data (domain : string) : M E pyval :=
  gandi_req ("https://dns.api.gandi.net/api/v5/domains/" ++ domain) PyNone "GET".

(** Lines 228-233: the record as it stands before it is printed. *)
Definition resolve (local_ip domain : string) (r : record) : record :=
  let r1 :=
    if negb (truthy (pyval_of_val (val r)))
    then mkRecord (type r) (name r) (Some [local_ip])
    else r in
  if type r1 =? "PTR"
  then mkRecord (type r1) (local_ip ++ ".in-addr.arpa.") (Some [domain ++ "."])
  else r1.

(** The address of a record under the zone (lines 238 and 256). *)
Definition record_url (zone_href : pyval) (r : record) : string :=
  py_str zone_href ++ "/" ++ name r ++ "/" ++ type r.

(** The body of the PUT (lines 257-262). *)
Definition put_data (r : record) : pyval :=
  PyDict [("rrset_name", PyStr (name r));
          ("rrset_type", PyStr (type r));
          ("rrset_ttl", PyInt 1200);
          ("rrset_values", pyval_of_val (val r))].

Definition fail_message (r : record) (record_data : pyval) : string :=
  "FAIL: unexpected response for " ++ repr_record r ++ ", can't update: "
    ++ py_str record_data.

Definition update_message (domain : string) (r : record) (rec_val : pyval) : string :=
  "updating " ++ domain ++ " " ++ repr_record r ++ " from " ++ py_str rec_val
    ++ " to " ++ py_str (pyval_of_val (val r)).

(** Lines 241-251: what the response says of the live record.  [Some v]
    is [rec_val] for the lines that follow; [None] is the [continue] of
    line 251. *)
Definition read_live (record : record) (record_data : pyval) : M E (option pyval) :=
  rrset_name <- py_get record_data "rrset_name" ;;
  if py_eq_str rrset_name (name record)
  then rec_val <- subscript record_data "rrset_values" ;;
       ret (Some rec_val)
  else code <- py_get record_data "code" ;;
       if py_eq_int code 404
       then ret (Some PyNone)
       else print (fail_message record record_data) ;;; ret None.

(** Lines 253-268. *)
Definition write_if_changed (domain : string) (zone_href : pyval)
    (record : record) (rec_val : pyval) : M E unit :=
  if negb (py_eq_val rec_val (val record))
  then ack <- gandi_req (record_url zone_href record) (put_data record) "PUT" ;;
       print (py_str ack) ;;;
       send_notification (update_message domain record rec_val)
  else ret tt.

(** Lines 228-268, the body of the loop over the records of a domain.
    The result is the record as the iteration leaves it. *)
Definition main_record (local_ip domain : string) (zone_href : pyval)
    (r0 : record) : M E record :=
  let record := resolve local_ip domain r0 in
  print (repr_record record) ;;;
  record_data <- gandi_req (record_url zone_href record) PyNone "GET" ;;
  assert (truthy record_data) ;;;
  live <- read_live record record_data ;;
  match live with
  | None => ret record
  | Some rec_val =>
      write_if_changed domain zone_href record rec_val ;;;
      ret record
  end.

(** Line 227: [for record in records]. *)
Fixpoint main_records (local_ip domain : string) (zone_href : pyval)
    (rs : list record) : M E (list record) :=
  match rs with
  | [] => ret []
  | r :: rest =>
      r' <- main_record local_ip domain zone_href r ;;
      rest' <- main_records local_ip domain zone_href rest ;;
      ret (r' :: rest')
  end.

(** Lines 222-225: [for domain, records in GLOBAL_CONF.records.items()]. *)
Fixpoint main_domains (local_ip : string) (ds : list (string * list record))
    : M E (list (string * list record)) :=
  match ds with
  | [] => ret []
  | (domain, rs) :: rest =>
      domain_data <- get_domain_data domain ;;
      assert (truthy domain_data) ;;;
      zone_href <- subscript domain_data "zone_records_href" ;;
      rs' <- main_records local_ip domain zone_href rs ;;
      rest' <- main_domains local_ip rest ;;
      ret ((domain, rs') :: rest')
  end.

(** Lines 216-268 of [main], from the loaded configuration on; the lines
    before them parse the command line and find the file.  The result is
    [GLOBAL_CONF.records] at the end of the run. *)
Definition main : M E (list (string * list record)) :=
  (if negb (truthy_str (wan_device conf))
   then die "config default.wan_device must be specified"
   else ret tt) ;;;
  local_ip <- get_local_ip ;;
  print ("Local IP: " ++ local_ip) ;;;
  main_domains local_ip (records conf).

End Program.

(** ** Reading a trace *)

(** The PUT requests of a trace, in order. *)
Fixpoint puts (t : list event) : list request :=
  match t with
  | [] => []
  | Send r :: t' => if method r =? "PUT" then r :: puts t' else puts t'
  | _ :: t' => puts t'
  end.

(** The messages handed to [send_notification], in order. *)
Fixpoint notifies (t : list event) : list string :=
  match t with
  | [] => []
  | Notify m :: t' => m :: notifies t'
  | _ :: t' => notifies t'
  end.

(** The requests of a trace, in order. *)
Fixpoint sends (t : list event) : list request :=
  match t with
  | [] => []
  | Send r :: t' => r :: sends t'
  | _ :: t' => sends t'
  end.

(** What a call of [gandi_req] makes of the answer [o]. *)
Definition reply (o : http_outcome) : result pyval :=
  match o with
  | Http2xx b =>
      match decode (raw b) with
      | None => Raise UnicodeDecodeError
      | Some _ =>
          match json_loads b with
          | Decoded j => Ok j
          | Undecodable _ => Raise JSONDecodeError
          end
      end
  | HTTPError _ b =>
      match json_loads b with
      | Decoded j => Ok j
      | Undecodable _ => Ok PyNone
      end
  | UrlopenRaises => Raise URLError
  end.

(** What the same call prints. *)
Definition reply_log (u : string) (o : http_outcome) : list event :=
  match o with
  | HTTPError code b =>
      Stdout ("failed request to " ++ u ++ " (" ++ repr_int code ++ "):"
               ++ nl ++ repr_bytes (raw b))
      :: match json_loads b with
         | Decoded _ => []
         | Undecodable why => [Stdout why]
         end
  | _ => []
  end.

(** Whether a call of [gandi_req] that got the answer [o] returns. *)
Definition answered (o : http_outcome) : bool :=
  match o with
  | Http2xx b =>
      match decode (raw b), json_loads b with
      | Some _, Decoded _ => true
      | _, _ => false
      end
  | HTTPError _ _ => true
  | UrlopenRaises => false
  end.

(** The live values that lines 241-251 read off a dict: [Some v] when the
    record exists with values [v], [Some PyNone] when the provider says it
    does not exist, [None] when the lines give up on the record or the
    dict names the record without [rrset_values]. *)
Definition live_values (kv : list (string * pyval)) (record_name : string)
    : option pyval :=
  if py_eq_str (dict_get kv "rrset_name") record_name
  then dict_lookup kv "rrset_values"
  else if py_eq_int (dict_get kv "code") 404 then Some PyNone else None.

(** [GLOBAL_CONF.records] with every record resolved against [local_ip]. *)
Definition resolved_records (local_ip : string)
    (ds : list (string * list record)) : list (string * list record) :=
  map (fun d => (fst d, map (resolve local_ip (fst d)) (snd d))) ds.

(** The run of the loops from a record on: the rest of the records of
    the domain, then the remaining domains.  [done] are the records of the
    domain already behind. *)
Definition run_from (E : Env) (conf : Config) (local_ip domain : string)
    (zone_href : pyval) (done rs : list record)
    (ds : list (string * list record)) : M E (list (string * list record)) :=
  rs' <- main_records E conf local_ip domain zone_href rs ;;
  rest' <- main_domains E conf local_ip ds ;;
  ret ((domain, (done ++ rs')%list) :: rest').

(** [t] put in front of the events of a run. *)
Definition after_events {E A} (t : list event)
    (x : result A * World E * list event) : result A * World E * list event :=
  let '(r, w, t') := x in (r, w, (t ++ t')%list).

(** The command line of a notification (line 164), when a script is
    configured. *)
Definition notify_command (conf : Config) (msg : string) : option string :=
  match notify_script conf with
  | Some script =>
      if truthy_str script then Some (script ++ " " ++ dq ++ msg ++ dq) else None
  | None => None
  end.

(** What [send_notification] starts a shell with (lines 162-165). *)
Definition notify_shell (conf : Config) (msg : string) : list event :=
  match notify_command conf msg with
  | Some cmd => if has_nul cmd then [] else [Shell cmd]
  | None => []
  end.

(** How a call of [send_notification] ends. *)
Definition notify_result (conf : Config) (msg : string) : result unit :=
  match notify_command conf msg with
  | Some cmd => if has_nul cmd then Raise ValueErrorRaised else Ok tt
  | None => Ok tt
  end.

(** The events and the result of a run. *)
Definition trace_of {E A} (x : result A * World E * list event) : list event :=
  snd x.

Definition result_of {E A} (x : result A * World E * list event) : result A :=
  fst (fst x).

(** The requests of lines 238 and 255-264. *)
Definition get_request (E : Env) (conf : Config) (z : pyval) (r : record) : request :=
  mkRequest (record_url z r) PyNone (req_headers E conf) "GET".

Definition put_request (E : Env) (conf : Config) (z : pyval) (r : record) : request :=
  mkRequest (record_url z r) (put_data r) (req_headers E conf) "PUT".

(** Whether line 253 finds a difference, for a live record read off [kv]. *)
Definition write_due (kv : list (string * pyval)) (r : record) : bool :=
  match live_values kv (name r) with
  | Some v => negb (py_eq_val v (val r))
  | None => false
  end.

(** ** The reverse-mapping name as the specification words it *)

(** The pieces of [s] between the occurrences of [c]. *)
Fixpoint split_on (c : ascii) (s : string) : list string :=
  match s with
  | EmptyString => [""]
  | String a rest =>
      if (a =? c)%char then "" :: split_on c rest
      else match split_on c rest with
           | [] => [String a ""]
           | x :: xs => String a x :: xs
           end
  end.

(** Follows the specification: the address with its octets reversed, under
    [in-addr.arpa]. *)
Definition spec_reverse_name (ip : string) : string :=
  join "." (rev (split_on "." ip)) ++ ".in-addr.arpa.".

(** ** The address of the interface as the specification words it *)

(** Follows the specification, for which the local address is "the IPv4
    address bound to" the interface: four groups of one to three digits
    with dots between them, at the head of [s] after [inet ]. *)
Definition spec_inet_address (s : string) : option string :=
  match strip_prefix "inet " s with
  | None => None
  | Some s1 =>
      match match_octet_dot s1 with
      | None => None
      | Some (a, s2) =>
          match match_octet_dot s2 with
          | None => None
          | Some (b, s3) =>
              match match_octet_dot s3 with
              | None => None
              | Some (c, s4) =>
                  match take_digits 3 s4 with
                  | (EmptyString, _) => None
                  | (d, _) => Some (a ++ b ++ c ++ d)
                  end
              end
          end
      end
  end.

(** The first address the output shows. *)
Fixpoint spec_local_address (s : string) : option string :=
  match spec_inet_address s with
  | Some a => Some a
  | None =>
      match s with
      | EmptyString => None
      | String _ rest => spec_local_address rest
      end
  end.

(** ** Example hosts *)

Module Demo.

(** A host whose provider answers from a table keyed by method and URL
    (anything else finds no route), whose [ip] command prints [ip_out] and
    whose echo service is in the table too. *)
Fixpoint answer (table : list (string * string * http_outcome)) (r : request)
    : http_outcome :=
  match table with
  | [] => UrlopenRaises
  | (m, u, o) :: rest =>
      if (m =? method r) && (u =? url r) then o else answer rest r
  end.

Definition host (table : list (string * string * http_outcome))
    (ip_out : option string) : Env :=
  mkEnv unit url_type_known (fun w r => (answer table r, w))
        (fun w _ => (ip_out, w)) (fun w _ => w) None.

Definition zone : string := "https://dns.api.gandi.net/api/v5/zones/7f3a/records".
Definition domain_url : string := "https://dns.api.gandi.net/api/v5/domains/example.com".

(** A body that decodes to [j]; its text is not spelled out. *)
Definition json (j : pyval) : body := mkBody "(json)" (Decoded j).
Definition html : body :=
  mkBody "<html>502 Bad Gateway</html>"
         (Undecodable "Expecting value: line 1 column 1 (char 0)").

Definition domain_info : http_outcome :=
  Http2xx (json (PyDict [("fqdn", PyStr "example.com");
                         ("zone_records_href", PyStr zone)])).

Definition not_found : http_outcome :=
  HTTPError 404 (json (PyDict [("code", PyInt 404);
                               ("message", PyStr "Can't find the DNS record");
                               ("object", PyStr "dns-record");
                               ("cause", PyStr "Not Found")])).

Definition forbidden : http_outcome :=
  HTTPError 403 (json (PyDict [("code", PyInt 403);
                               ("message", PyStr "Access to the resource is denied");
                               ("object", PyStr "HTTPForbidden");
                               ("cause", PyStr "Forbidden")])).

Definition created : http_outcome :=
  Http2xx (json (PyDict [("message", PyStr "DNS Record Created")])).

Definition rrset (n t : string) (vs : list string) : http_outcome :=
  Http2xx (json (PyDict [("rrset_name", PyStr n); ("rrset_type", PyStr t);
                         ("rrset_ttl", PyInt 1200);
                         ("rrset_values", PyList (map PyStr vs))])).

Definition ip_addr_show : string :=
  "2: enp2s0: <BROADCAST,MULTICAST,UP,LOWER_UP> mtu 1500 qdisc fq_codel" ++ nl
  ++ "    inet 1.2.3.4/24 brd 1.2.3.255 scope global dynamic enp2s0" ++ nl.

(** What the command prints for a point-to-point interface, and for the
    same interface when the address of the other end is not shown. *)
Definition ip_addr_show_peer : string :=
  "3: ppp0: <POINTOPOINT,MULTICAST,NOARP,UP,LOWER_UP> mtu 1492 qdisc fq_codel" ++ nl
  ++ "    link/ppp" ++ nl
  ++ "    inet 10.0.0.5 peer 10.0.0.1/32 scope global ppp0" ++ nl.

Definition ip_addr_show_ppp : string :=
  "3: ppp0: <POINTOPOINT,MULTICAST,NOARP,UP,LOWER_UP> mtu 1492 qdisc fq_codel" ++ nl
  ++ "    link/ppp" ++ nl
  ++ "    inet 10.0.0.5/32 scope global ppp0" ++ nl.

Definition echo (ip : string) : string * string * http_outcome :=
  ("GET", HTTP_IP_SOURCE, Http2xx (mkBody ip (Undecodable "Expecting value"))).

Definition rec_at : record := mkRecord "A" "@" None.
Definition rec_mail : record := mkRecord "A" "mail" None.
Definition rec_mx : record :=
  mkRecord "MX" "@" (Some ["10 mx1.example.net."; "20 mx2.example.net."]).
Definition rec_ptr : record := mkRecord "PTR" "host" (Some ["old.example.org."]).

Definition config (rs : list record) : Config :=
  mkConfig "enp2s0" (Some "s3cr3t") [("example.com", rs)]
           (Some "/usr/local/bin/pushover").

Definition ppp_config : Config :=
  mkConfig "ppp0" (Some "s3cr3t") [("example.com", [rec_at])]
           (Some "/usr/local/bin/pushover").

(** A provider that answers [at_get] and [at_put] for the record [A @],
    has [mail] at 1.2.3.4 and the two MX values in the other order; the
    echo service reports [public_ip]. *)
Definition provider (at_get at_put : http_outcome) (public_ip : string)
    : list (string * string * http_outcome) :=
  [("GET", domain_url, domain_info);
   echo public_ip;
   ("GET", zone ++ "/@/A", at_get);
   ("PUT", zone ++ "/@/A", at_put);
   ("GET", zone ++ "/mail/A", rrset "mail" "A" ["1.2.3.4"]);
   ("GET", zone ++ "/@/MX", rrset "@" "MX" ["20 mx2.example.net."; "10 mx1.example.net."]);
   ("PUT", zone ++ "/@/MX", created)].

Definition world (at_get at_put : http_outcome) (public_ip : string) : Env :=
  host (provider at_get at_put public_ip) (Some ip_addr_show).

Definition unauthorized : http_outcome :=
  HTTPError 401 (json (PyDict [("code", PyInt 401);
                               ("message", PyStr "The server could not verify that you authorized to access the document you requested.");
                               ("object", PyStr "HTTPUnauthorized");
                               ("cause", PyStr "Unauthorized")])).

Definition bad_gateway : http_outcome := HTTPError 502 html.

Definition empty_object : http_outcome :=
  HTTPError 500 (mkBody "{}" (Decoded (PyDict []))).

End Demo.

(** * The rest of the program *)

(** ** [print_records] (lines 187-188) *)

(** [pformat] is [pprint.pformat]. *)
Definition print_records (E : Env) (conf : Config) (pformat : pyval -> string)
    (domain : string) : M E unit :=
  domain_data <- get_domain_data E conf domain ;;
  zone_records_href <- subscript domain_data "zone_records_href" ;;
  records <- gandi_req E conf (py_str zone_records_href) PyNone "GET" ;;
  print (pformat records).

(** ** More readings of a trace *)

(** The commands handed to the shell, in order. *)
Fixpoint shells (t : list event) : list string :=
  match t with
  | [] => []
  | Shell c :: t' => c :: shells t'
  | _ :: t' => shells t'
  end.

(** The request of line 174. *)
Definition echo_request : request := mkRequest HTTP_IP_SOURCE PyNone [] "GET".

(** The events a run of [main] can show. *)
Inductive run_event (E : Env) (conf : Config) : event -> Prop :=
| run_stdout (s : string) : run_event E conf (Stdout s)
| run_stderr (s : string) : run_event E conf (Stderr s)
| run_notify (msg : string) : run_event E conf (Notify msg)
| run_ip_command :
    run_event E conf (Shell ("ip addr show dev " ++ wan_device conf))
| run_notify_command (script msg : string) :
    notify_script conf = Some script ->
    truthy_str script = true ->
    run_event E conf (Shell (script ++ " " ++ dq ++ msg ++ dq))
| run_echo : run_event E conf (Send echo_request)
| run_get (u : string) :
    run_event E conf (Send (mkRequest u PyNone (req_headers E conf) "GET"))
| run_put (local_ip domain : string) (rs : list record) (r0 : record) (z : pyval) :
    In (domain, rs) (records conf) ->
    In r0 rs ->
    run_event E conf (Send (put_request E conf z (resolve local_ip domain r0))).

(** Lines 223-225: the zone of a domain, as the lookup gives it. *)
Definition zone_of (E : Env) (conf : Config) (domain : string) : M E pyval :=
  domain_data <- get_domain_data E conf domain ;;
  assert (truthy domain_data) ;;;
  subscript domain_data "zone_records_href".

(** The zones a run of the loops reads, in the order of the domains: for
    every domain the run reaches, the value of [zone_records_href] its
    lookup gave at that point of the run.  The list stops at the domain
    where the run ends. *)
Fixpoint zones_read (E : Env) (conf : Config) (local_ip : string)
    (ds : list (string * list record)) (w : World E) : list (string * pyval) :=
  match ds with
  | [] => []
  | (domain, rs) :: rest =>
      match zone_of E conf domain w with
      | (Ok z, w1, _) =>
          (domain, z)
          :: match main_records E conf local_ip domain z rs w1 with
             | (Ok _, w2, _) => zones_read E conf local_ip rest w2
             | (Raise _, _, _) => []
             end
      | (Raise _, _, _) => []
      end
  end.

(** The number of records of a configuration. *)
Definition count_records (ds : list (string * list record)) : nat :=
  list_sum (map (fun d => length (snd d)) ds).

(** ** Text helpers of the configuration loader (ASCII) *)

Definition upper_char (c : ascii) : ascii :=
  let n := N_of_ascii c in
  if ((97 <=? n) && (n <=? 122))%N then ascii_of_N (n - 32) else c.

Definition lower_char (c : ascii) : ascii :=
  let n := N_of_ascii c in
  if ((65 <=? n) && (n <=? 90))%N then ascii_of_N (n + 32) else c.

Fixpoint map_string (f : ascii -> ascii) (s : string) : string :=
  match s with
  | EmptyString => ""
  | String c rest => String (f c) (map_string f rest)
  end.

(** [s.upper()] and [s.lower()]. *)
Definition upper (s : string) : string := map_string upper_char s.
Definition lower (s : string) : string := map_string lower_char s.

(** ** [csv.reader] on one line, default dialect

    The states and the transitions are those of the reader of CPython
    3.11 for the default dialect: the comma separates, the double quote
    quotes and is doubled inside quotes, and the reader is not strict.
    Text is ASCII here, as for [strip], [upper] and [lower]. *)

Inductive csv_state : Type :=
| START_RECORD | START_FIELD | IN_FIELD | IN_QUOTED_FIELD
| QUOTE_IN_QUOTED_FIELD | EAT_CRNL.

Definition is_newline (c : ascii) : bool :=
  let n := N_of_ascii c in ((n =? 10) || (n =? 13))%N.

Definition is_quote (c : ascii) : bool := (N_of_ascii c =? 34)%N.
Definition is_comma (c : ascii) : bool := (N_of_ascii c =? 44)%N.

Definition add_char (field : string) (c : ascii) : string := field ++ String c "".

(** The characters of the line, one after the other; [None] is
    [csv.Error].  [fields] are the fields saved so far and [field] the one
    being read. *)
Fixpoint csv_chars (st : csv_state) (fields : list string) (field : string)
    (s : string) : option (csv_state * list string * string) :=
  match s with
  | EmptyString => Some (st, fields, field)
  | String c rest =>
      match st with
      | START_RECORD | START_FIELD =>
          if is_newline c then
            match st with
            | START_RECORD => csv_chars EAT_CRNL fields field rest
            | _ => csv_chars EAT_CRNL (fields ++ [field]) "" rest
            end
          else if is_quote c then csv_chars IN_QUOTED_FIELD fields field rest
          else if is_comma c then csv_chars START_FIELD (fields ++ [field]) "" rest
          else csv_chars IN_FIELD fields (add_char field c) rest
      | IN_FIELD =>
          if is_newline c then csv_chars EAT_CRNL (fields ++ [field]) "" rest
          else if is_comma c then csv_chars START_FIELD (fields ++ [field]) "" rest
          else csv_chars IN_FIELD fields (add_char field c) rest
      | IN_QUOTED_FIELD =>
          if is_quote c then csv_chars QUOTE_IN_QUOTED_FIELD fields field rest
          else csv_chars IN_QUOTED_FIELD fields (add_char field c) rest
      | QUOTE_IN_QUOTED_FIELD =>
          if is_quote c then csv_chars IN_QUOTED_FIELD fields (add_char field c) rest
          else if is_comma c then csv_chars START_FIELD (fields ++ [field]) "" rest
          else if is_newline c then csv_chars EAT_CRNL (fields ++ [field]) "" rest
          else csv_chars IN_FIELD fields (add_char field c) rest
      | EAT_CRNL =>
          if is_newline c then csv_chars EAT_CRNL fields field rest
          else None
      end
  end.

(** The end of the line, then the end of the input. *)
Definition csv_end (st : csv_state) (fields : list string) (field : string)
    : list string :=
  match st with
  | START_RECORD | EAT_CRNL => fields
  | _ => (fields ++ [field])%list
  end.

(** [list(csv.reader([line]))[0]]. *)
Definition csv_row (line : string) : option (list string) :=
  match csv_chars START_RECORD [] "" line with
  | Some (st, fields, field) => Some (csv_end st fields field)
  | None => None
  end.

(** Lines 95-97. *)
Definition split_csv_line (line : string) : option (list string) :=
  match csv_row line with
  | Some row => Some (map strip row)
  | None => None
  end.

(** ** The configuration file (lines 100-132) *)

(** What [configparser] makes of a file: the pairs of [cp.items()] in
    order, each section with the pairs of [section.items()]; a key without
    a value has [None]. *)
Definition ini : Type := list (string * list (string * option string)).

(** The files the loader can see: whether a path exists, and what
    [open] and [cp.read_file] make of it ([None] when one of them
    raises). *)
Record Disk : Type := mkDisk {
  path_exists : string -> bool;
  parse_file : string -> option ini
}.

Inductive load_exn : Type :=
| ValueError
| NoSectionError (section : string)
| NoOptionError (option_ section : string)
| CsvError
| ReadError.

(** How loading ends: with a value, in [die(msg)], or in an exception. *)
Inductive loaded (A : Type) : Type :=
| Loaded (a : A)
| Died (msg : string)
| LoadRaised (e : load_exn).
Arguments Loaded {A} a.
Arguments Died {A} msg.
Arguments LoadRaised {A} e.

Definition load_bind {A B} (x : loaded A) (f : A -> loaded B) : loaded B :=
  match x with
  | Loaded a => f a
  | Died msg => Died msg
  | LoadRaised e => LoadRaised e
  end.

Fixpoint ini_section (cp : ini) (section : string)
    : option (list (string * option string)) :=
  match cp with
  | [] => None
  | (n, items) :: rest => if n =? section then Some items else ini_section rest section
  end.

Fixpoint item_lookup (items : list (string * option string)) (k : string)
    : option (option string) :=
  match items with
  | [] => None
  | (k', v) :: rest => if k' =? k then Some v else item_lookup rest k
  end.

(** [cp.get(section, option)]. *)
Definition cp_get (cp : ini) (section option_ : string) : loaded (option string) :=
  match ini_section cp section with
  | None => LoadRaised (NoSectionError section)
  | Some items =>
      match item_lookup items option_ with
      | None => LoadRaised (NoOptionError option_ section)
      | Some v => Loaded v
      end
  end.

(** [cp.get(section, option, fallback=None)]. *)
Definition cp_get_fallback (cp : ini) (section option_ : string) : option string :=
  match cp_get cp section option_ with
  | Loaded v => v
  | _ => None
  end.

(** [d[k] = v] on a dict kept in insertion order. *)
Fixpoint dict_set {V} (d : list (string * V)) (k : string) (v : V)
    : list (string * V) :=
  match d with
  | [] => [(k, v)]
  | (k', v') :: rest =>
      if k' =? k then (k', v) :: rest else (k', v') :: dict_set rest k v
  end.

(** Lines 126-130: the record of one key of a section. *)
Definition parse_record (reckey : string) (val : option string) : loaded record :=
  match split_csv_line reckey with
  | None => LoadRaised CsvError
  | Some [rectype; recname] =>
      if truthy_optstr val
      then match split_csv_line (match val with Some v => v | None => "" end) with
           | Some vals => Loaded (mkRecord (upper rectype) recname (Some vals))
           | None => LoadRaised CsvError
           end
      else Loaded (mkRecord (upper rectype) recname None)
  | Some _ => LoadRaised ValueError
  end.

(** Lines 125-130: the records of a section, in the order of its keys. *)
Fixpoint section_records (items : list (string * option string))
    : loaded (list record) :=
  match items with
  | [] => Loaded []
  | (reckey, val) :: rest =>
      load_bind (parse_record reckey val) (fun r =>
      load_bind (section_records rest) (fun rs =>
      Loaded (r :: rs)))
  end.

(** Lines 119-130.  Line 123 empties the list of the domain and line 130
    fills it; the list is seen only when the loop is over. *)
Fixpoint load_sections (cp : ini) (recs : list (string * list record))
    : loaded (list (string * list record)) :=
  match cp with
  | [] => Loaded recs
  | (n, items) :: rest =>
      let name := lower n in
      if name =? "default" then load_sections rest recs
      else load_bind (section_records items) (fun rs =>
           load_sections rest (dict_set recs name rs))
  end.

(** Lines 110-132, from the parsed file on.  [Config.wan_device] is a
    string: a key without a value, which the parser gives as [None], is
    kept as the empty string; both are falsy, and the run reads the name of
    the device only after testing it (lines 216 and 169). *)
Definition config_of_ini (cp : ini) : loaded Config :=
  load_bind (cp_get cp "default" "wan_device") (fun wan =>
  let notify := cp_get_fallback cp "default" "notify_script" in
  let key := cp_get_fallback cp "default" "gandi_api_key" in
  load_bind (load_sections cp []) (fun recs =>
  Loaded (mkConfig (match wan with Some s => s | None => "" end) key recs notify))).

(** Lines 100-132.  A file handle stands for what [cp.read_file] makes
    of it. *)
Definition get_config (D : Disk) (file_handle : option (option ini))
    (location : option string) : loaded Config :=
  match file_handle, location with
  | None, None => LoadRaised ValueError
  | _, _ =>
      load_bind
        (match location with
         | Some p =>
             if path_exists D p then Loaded (parse_file D p)
             else Died ("config file not readable: " ++ p)
         | None =>
             match file_handle with
             | Some fh => Loaded fh
             | None => LoadRaised ValueError
             end
         end)
        (fun fh =>
           match fh with
           | Some cp => config_of_ini cp
           | None => LoadRaised ReadError
           end)
  end.

(** Lines 51-61: [CONFIG_SEARCH_PATH], from the value of
    [GANDI_DDNS_CONFIG] and the path of the file under the home
    directory. *)
Definition CONFIG_SEARCH_PATH (env_config : option string) (home_ini : string)
    : list string :=
  ((if truthy_optstr env_config
    then match env_config with Some p => [p] | None => [] end
    else [])
   ++ [home_ini; "/etc/gandi-ddns/config.ini"])%list.

(** Line 87: [Config("")]. *)
Definition empty_config : Config := mkConfig "" None [] None.

(** Lines 205-209: the loop over the search path; it has no [break]. *)
Fixpoint search_config (D : Disk) (paths : list string) (current : Config)
    (found : bool) : loaded (Config * bool) :=
  match paths with
  | [] => Loaded (current, found)
  | confpath :: rest =>
      if path_exists D confpath
      then load_bind (get_config D None (Some confpath)) (fun c =>
           search_config D rest c true)
      else search_config D rest current found
  end.

(** Lines 202-214: [GLOBAL_CONF] as [main] settles it. *)
Definition load_global_conf (D : Disk) (paths : list string)
    (args_conf : option string) : loaded Config :=
  if truthy_optstr args_conf
  then get_config D None args_conf
  else load_bind (search_config D paths empty_config false) (fun cf =>
       if snd cf then Loaded (fst cf)
       else Died ("no config file found in " ++ join ", " paths)).

(** Lines 191-268: [main] whole, from the value of [args.conf] on. *)
Definition main_cli (D : Disk) (E : Env) (paths : list string)
    (args_conf : option string) (w : World E)
    : loaded (result (list (string * list record)) * World E * list event) :=
  load_bind (load_global_conf D paths args_conf) (fun conf =>
  Loaded (main E conf w)).

(** ** Notions for the statements about the loader *)

(** Whether every character of [s] passes [p]. *)
Fixpoint all_chars (p : ascii -> bool) (s : string) : bool :=
  match s with
  | EmptyString => true
  | String c rest => p c && all_chars p rest
  end.

(** A character that is neither a double quote nor a line end. *)
Definition plain_char (c : ascii) : bool := negb (is_quote c) && negb (is_newline c).

(** A record as the loader leaves it. *)
Definition normal_record (r : record) : Prop :=
  upper (type r) = type r
  /\ strip (name r) = name r
  /\ forall l, val r = Some l -> Forall (fun v => strip v = v) l.

(** The sections that become domains. *)
Definition domain_sections (cp : ini) : ini :=
  filter (fun s => negb (lower (fst s) =? "default")) cp.

(** ** Example configuration files *)

Module DemoConfig.

(** The file of the docstring (lines 5-25), as the parser gives it. *)
Definition docstring_ini : ini :=
  [("DEFAULT", []);
   ("default", [("gandi_api_key", Some "$GANDI_API_KEY");
                ("wan_device", Some "enp2s0");
                ("notify_script", Some "/usr/local/bin/pushover  # takes a single arg")]);
   ("foobar.org", [("a, @", None);
                   ("a, mail", None);
                   ("cname, bmon", Some "some-host.lan.");
                   ("mx, @", Some "10 one-val.com., 20 other-val.com.")]);
   ("hmmmm.com", [("a, @", None)])].

(** A smaller file for another place of the search path. *)
Definition etc_ini : ini :=
  [("DEFAULT", []);
   ("default", [("wan_device", Some "eth0")]);
   ("example.com", [("ptr, host", None)])].

Definition home_path : string := "/home/ddns/.config/gandi-ddns.ini".
Definition etc_path : string := "/etc/gandi-ddns/config.ini".

(** A disk with the two files. *)
Definition both : Disk :=
  mkDisk (fun p => (p =? home_path) || (p =? etc_path))
         (fun p => if p =? home_path then Some docstring_ini
                   else if p =? etc_path then Some etc_ini else None).

(** A disk with no configuration file. *)
Definition bare : Disk := mkDisk (fun _ => false) (fun _ => None).

(** A disk where the file under the home directory cannot be parsed. *)
Definition broken_home : Disk :=
  mkDisk (fun p => (p =? home_path) || (p =? etc_path))
         (fun p => if p =? etc_path then Some etc_ini else None).

(** A disk whose only file gives the device no name. *)
Definition nameless : Disk :=
  mkDisk (fun p => p =? etc_path)
         (fun _ => Some [("DEFAULT", []); ("default", [("wan_device", None)])]).

(** A file that names a domain twice, in different case, and what it
    loads as. *)
Definition twice_ini : ini :=
  [("DEFAULT", []);
   ("default", [("wan_device", Some "eth0")]);
   ("Foo.org", [("a, @", None)]);
   ("example.com", [("a, @", None)]);
   ("foo.ORG", [("mx, @", Some "10 a., 20 b.")]);
   ("bar.net", [("a, www", None)])].

Definition twice_config : Config :=
  mkConfig "eth0" None
    [("foo.org", [mkRecord "MX" "@" (Some ["10 a."; "20 b."])]);
     ("example.com", [mkRecord "A" "@" None]);
     ("bar.net", [mkRecord "A" "www" None])]
    None.

(** What the file of the docstring loads as. *)
Definition docstring_config : Config :=
  mkConfig "enp2s0" (Some "$GANDI_API_KEY")
    [("foobar.org", [mkRecord "A" "@" None;
                     mkRecord "A" "mail" None;
                     mkRecord "CNAME" "bmon" (Some ["some-host.lan."]);
                     mkRecord "MX" "@" (Some ["10 one-val.com."; "20 other-val.com."])]);
     ("hmmmm.com", [mkRecord "A" "@" None])]
    (Some "/usr/local/bin/pushover  # takes a single arg").

(** A host whose environment holds an API key. *)
Definition keyed_host : Env :=
  mkEnv unit url_type_known (fun w r => (Demo.not_found, w))
        (fun w _ => (None, w)) (fun w _ => w) (Some "key-of-the-environment").

(** The configuration of [Demo] without a notify script, and without a
    key. *)
Definition silent_config : Config :=
  mkConfig "enp2s0" (Some "s3cr3t") [("example.com", [Demo.rec_at])] None.

Definition keyless_config : Config :=
  mkConfig "enp2s0" None [("example.com", [Demo.rec_at])] None.

End DemoConfig.

(** * Properties *)

(** ** The definitions on small inputs *)

Example py_repr_dict :
  py_repr (PyDict [("code", PyInt 404); ("message", PyStr "it's gone"); ("l", PyList [PyNone; PyBool true])])
  = String "{" ("'code': 404, 'message': " ++ String dquote ("it's gone" ++ String dquote ", 'l': [None, True]}")).
Proof. reflexivity. Qed.

Example repr_record_unset :
  repr_record (mkRecord "A" "@" None) = "Record(type='A', name='@', val=None)".
Proof. reflexivity. Qed.

Example repr_record_mx :
  repr_record (mkRecord "MX" "@" (Some ["10 a.net."; "20 b.net."]))
  = "Record(type='MX', name='@', val=['10 a.net.', '20 b.net.'])".
Proof. reflexivity. Qed.

Example re_search_inet_typical :
  re_search_inet ("2: enp2s0: <BROADCAST,MULTICAST,UP,LOWER_UP> mtu 1500" ++ nl
                  ++ "    link/ether 52:54:00:12:34:56 brd ff:ff:ff:ff:ff:ff" ++ nl
                  ++ "    inet 203.0.113.7/24 brd 203.0.113.255 scope global enp2s0" ++ nl
                  ++ "    inet6 fe80::5054:ff:fe12:3456/64 scope link")
  = Some "203.0.113.7".
Proof. reflexivity. Qed.

Example re_search_inet_none : re_search_inet "Device does not exist." = None.
Proof. reflexivity. Qed.

Example spec_reverse_name_5678 :
  spec_reverse_name "5.6.7.8" = "8.7.6.5.in-addr.arpa.".
Proof. reflexivity. Qed.

Example repr_int_samples :
  repr_int 404 = "404" /\ repr_int 0 = "0" /\ repr_int (-5) = "-5".
Proof. repeat split. Qed.

Example repr_bytes_html :
  repr_bytes ("<p>it's down</p>" ++ nl)
  = String "b" (dq ++ "<p>it's down</p>\n" ++ dq).
Proof. reflexivity. Qed.

Example re_search_inet_peer :
  re_search_inet "    inet 10.0.0.5 peer 10.0.0.1/32 scope global ppp0"
  = Some "10.0.0.5 peer 10.0.0.1".
Proof. reflexivity. Qed.

Example decode_samples :
  decode "1.2.3.4" = Some "1.2.3.4"
  /\ decode (String (ascii_of_nat 255) "") = None
  /\ decode (String (ascii_of_nat 195) (String (ascii_of_nat 169) "")) <> None
  /\ decode (String (ascii_of_nat 237) (String (ascii_of_nat 160) (String (ascii_of_nat 128) "")))
     = None.
Proof. repeat split; try reflexivity. discriminate. Qed.

Example url_type_known_samples :
  url_type_known "https://dns.api.gandi.net/api/v5/domains/example.com" = true
  /\ url_type_known "<URL:https://example.com/>" = true
  /\ url_type_known "/@/A" = false
  /\ url_type_known "None/@/A" = false
  /\ url_type_known "zone#https://example.com" = false.
Proof. repeat split. Qed.

Example spec_local_address_samples :
  spec_local_address Demo.ip_addr_show = Some "1.2.3.4"
  /\ spec_local_address Demo.ip_addr_show_peer = Some "10.0.0.5"
  /\ spec_local_address "Device does not exist." = None.
Proof. repeat split. Qed.

(** A zone address without a scheme: the request is never built and
    nothing is sent. *)
Example refused_url_sends_nothing :
  gandi_req (Demo.world Demo.not_found Demo.created "1.2.3.4")
    (Demo.config [Demo.rec_at]) "/@/A" PyNone "GET" tt
  = (Raise ValueErrorRaised, tt, []).
Proof. reflexivity. Qed.

(** A message with a NUL character: the call is made, no shell is
    started. *)
Example nul_in_message_stops_notification :
  send_notification (Demo.world Demo.not_found Demo.created "1.2.3.4")
    (Demo.config [Demo.rec_at]) (String NUL "") tt
  = (Raise ValueErrorRaised, tt, [Notify (String NUL "")]).
Proof. reflexivity. Qed.

(** The echo service answers with bytes that are not UTF-8. *)
Example undecodable_echo_is_fatal :
  get_local_ip (Demo.world Demo.not_found Demo.created (String (ascii_of_nat 255) ""))
    (Demo.config [Demo.rec_at]) tt
  = (Raise UnicodeDecodeError, tt,
     [Shell "ip addr show dev enp2s0"; Send echo_request]).
Proof. reflexivity. Qed.

(** ** Traces *)

Lemma puts_app (t1 t2 : list event) : puts (t1 ++ t2) = (puts t1 ++ puts t2)%list.
Proof.
  induction t1 as [|e t1 IH]; simpl; [reflexivity|].
  destruct e; auto.
  destruct (method r =? "PUT"); simpl; now rewrite IH.
Qed.

Lemma notifies_app (t1 t2 : list event) :
  notifies (t1 ++ t2) = (notifies t1 ++ notifies t2)%list.
Proof.
  induction t1 as [|e t1 IH]; simpl; [reflexivity|].
  destruct e; simpl; now rewrite ?IH.
Qed.

Lemma sends_app (t1 t2 : list event) :
  sends (t1 ++ t2) = (sends t1 ++ sends t2)%list.
Proof.
  induction t1 as [|e t1 IH]; simpl; [reflexivity|].
  destruct e; simpl; now rewrite ?IH.
Qed.

Lemma reply_log_quiet (u : string) (o : http_outcome) :
  puts (reply_log u o) = [] /\ notifies (reply_log u o) = []
  /\ sends (reply_log u o) = [].
Proof.
  destruct o as [b|c b|]; simpl; auto.
  destruct (json_loads b); simpl; auto.
Qed.

Lemma answered_reply (o : http_outcome) :
  answered o = true <-> exists v, reply o = Ok v.
Proof.
  destruct o as [b|c b|]; simpl.
  - destruct (decode (raw b)); [destruct (json_loads b)|].
    + split; eauto.
    + split; [discriminate | intros [v H]; discriminate].
    + split; [discriminate | intros [v H]; discriminate].
  - destruct (json_loads b); split; eauto.
  - split; [discriminate | intros [v H]; discriminate].
Qed.

Lemma contains_char_app (c : ascii) (a b : string) :
  contains_char c (a ++ b) = contains_char c a || contains_char c b.
Proof.
  induction a as [|x a IH]; cbn; [reflexivity|].
  now rewrite IH, orb_assoc.
Qed.

Lemma has_nul_app (a b : string) : has_nul (a ++ b) = has_nul a || has_nul b.
Proof. apply contains_char_app. Qed.

Lemma decode_some (b text : string) : decode b = Some text -> text = b.
Proof. unfold decode. destruct (utf8_from U0 b); [now intros [= <-] | discriminate]. Qed.

(** ** Python equality against a list of strings *)

Lemma py_eq_str_spec (v : pyval) (s : string) :
  py_eq_str v s = true <-> v = PyStr s.
Proof.
  destruct v; simpl; try (split; [discriminate | intros H; discriminate H]).
  rewrite String.eqb_eq. split; [now intros -> | now intros [= ->]].
Qed.

Lemma py_list_eq_strs_spec (vs : list pyval) (l : list string) :
  py_list_eq_strs vs l = true <-> vs = map PyStr l.
Proof.
  revert l; induction vs as [|v vs IH]; intros [|s l]; simpl;
    try (split; [discriminate | intros H; discriminate H]).
  - split; reflexivity.
  - rewrite andb_true_iff, py_eq_str_spec, IH.
    split; [intros [-> ->]; reflexivity | intros [= -> ->]; auto].
Qed.

Lemma py_eq_val_spec (v : pyval) (l : list string) :
  py_eq_val v (Some l) = true <-> v = PyList (map PyStr l).
Proof.
  destruct v; simpl; try (split; [discriminate | intros H; discriminate H]).
  rewrite py_list_eq_strs_spec. split; [now intros -> | now intros [= ->]].
Qed.

Lemma map_PyStr_inj (l1 l2 : list string) :
  map PyStr l1 = map PyStr l2 -> l1 = l2.
Proof.
  revert l2; induction l1 as [|a l1 IH]; intros [|b l2]; simpl; try discriminate; auto.
  intros [= -> H]. f_equal. auto.
Qed.

(** ** The resolution step *)

Lemma resolve_val_nonempty (local_ip domain : string) (r : record) :
  exists v vs, val (resolve local_ip domain r) = Some (v :: vs).
Proof.
  unfold resolve.
  destruct r as [t n [[|v vs]|]]; simpl;
    destruct (t =? "PTR"); simpl; eauto.
Qed.

(** ** Runs *)

Section Run.
Variable E : Env.
Variable conf : Config.

Lemma bind_run {A B} (m : M E A) (f : A -> M E B) w a w1 t1 :
  m w = (Ok a, w1, t1) -> bind m f w = after_events t1 (f a w1).
Proof.
  intros H. unfold bind, after_events. rewrite H.
  destruct (f a w1) as [[r w2] t2]. reflexivity.
Qed.

Lemma bind_raise {A B} (m : M E A) (f : A -> M E B) w e w1 t1 :
  m w = (Raise e, w1, t1) -> bind m f w = (Raise e, w1, t1).
Proof. intros H. unfold bind. now rewrite H. Qed.

Lemma bind_ok {A B} (m : M E A) (f : A -> M E B) w b w' t :
  bind m f w = (Ok b, w', t) ->
  exists a w1 t1 t2,
    m w = (Ok a, w1, t1) /\ f a w1 = (Ok b, w', t2) /\ t = (t1 ++ t2)%list.
Proof.
  unfold bind. destruct (m w) as [[[a|e] w1] t1]; [|discriminate].
  destruct (f a w1) as [[r w2] t2] eqn:Hf. intros [= -> -> <-].
  exists a, w1, t1, t2. auto.
Qed.

Lemma after_events_nil {A} (x : result A * World E * list event) :
  after_events [] x = x.
Proof. now destruct x as [[r w] t]. Qed.

Lemma trace_after_events {A} (t : list event) (x : result A * World E * list event) :
  trace_of (after_events t x) = (t ++ trace_of x)%list.
Proof. now destruct x as [[r w] t']. Qed.

Lemma result_after_events {A} (t : list event) (x : result A * World E * list event) :
  result_of (after_events t x) = result_of x.
Proof. now destruct x as [[r w] t']. Qed.

Lemma trace_bind_const {A B} (m : M E A) (b : B) (w : World E) :
  trace_of (bind m (fun _ => ret b) w) = trace_of (m w).
Proof.
  unfold bind, ret, trace_of. destruct (m w) as [[[a|e] w1] t1]; cbn; [|reflexivity].
  now rewrite app_nil_r.
Qed.

Lemma bind_ret_l {A B} (a : A) (f : A -> M E B) w : bind (ret a) f w = f a w.
Proof.
  unfold bind, ret. now destruct (f a w) as [[r w2] t2].
Qed.

Lemma bind_assoc {A B C} (m : M E A) (f : A -> M E B) (g : B -> M E C) w :
  bind (bind m f) g w = bind m (fun a => bind (f a) g) w.
Proof.
  unfold bind. destruct (m w) as [[[a|e] w1] t1]; [|reflexivity].
  destruct (f a w1) as [[[b|e] w2] t2]; [|reflexivity].
  destruct (g b w2) as [[r w3] t3]. now rewrite app_assoc.
Qed.

Lemma bind_ext {A B} (m : M E A) (f g : A -> M E B) w :
  (forall a w', f a w' = g a w') -> bind m f w = bind m g w.
Proof.
  intros H. unfold bind. destruct (m w) as [[[a|e] w1] t1]; [|reflexivity].
  now rewrite H.
Qed.

(** *** [gandi_req] *)

Lemma gandi_req_run (u : string) (d : pyval) (m : string) (w : World E) :
  truthy_optstr (api_key E conf) = true ->
  request_accepted E u = true ->
  let req := mkRequest u d (req_headers E conf) m in
  gandi_req E conf u d m w
  = (reply (fst (urlopen E w req)), snd (urlopen E w req),
     Send req :: reply_log u (fst (urlopen E w req))).
Proof.
  intros Hk Ha req. unfold gandi_req, bind, assert, new_request. rewrite Hk, Ha.
  unfold ret at 1 2. unfold do_urlopen. fold req.
  destruct (urlopen E w req) as [o w'].
  destruct o as [b|c b|]; unfold reply, reply_log, fst, snd.
  - destruct (decode (raw b)); [destruct (json_loads b)|]; reflexivity.
  - unfold print, emit. destruct (json_loads b); reflexivity.
  - reflexivity.
Qed.

Lemma gandi_req_no_key (u : string) (d : pyval) (m : string) (w : World E) :
  truthy_optstr (api_key E conf) = false ->
  gandi_req E conf u d m w = (Raise AssertionError, w, []).
Proof.
  intros Hk. unfold gandi_req, bind, assert. now rewrite Hk.
Qed.

(** A URL the constructor of the request refuses: [ValueError], and
    nothing is sent. *)
Lemma gandi_req_refused (u : string) (d : pyval) (m : string) (w : World E) :
  truthy_optstr (api_key E conf) = true ->
  request_accepted E u = false ->
  gandi_req E conf u d m w = (Raise ValueErrorRaised, w, []).
Proof.
  intros Hk Ha. unfold gandi_req, bind, assert, new_request. now rewrite Hk, Ha.
Qed.

Lemma gandi_req_ok_key (u : string) (d : pyval) (m : string) (w w' : World E)
    (v : pyval) (t : list event) :
  gandi_req E conf u d m w = (Ok v, w', t) ->
  truthy_optstr (api_key E conf) = true.
Proof.
  destruct (truthy_optstr (api_key E conf)) eqn:Hk; [reflexivity|].
  rewrite gandi_req_no_key by assumption. discriminate.
Qed.

Lemma gandi_req_ok_url (u : string) (d : pyval) (m : string) (w w' : World E)
    (v : pyval) (t : list event) :
  gandi_req E conf u d m w = (Ok v, w', t) ->
  request_accepted E u = true.
Proof.
  intros H. pose proof (gandi_req_ok_key _ _ _ _ _ _ _ H) as Hk.
  destruct (request_accepted E u) eqn:Ha; [reflexivity|].
  rewrite gandi_req_refused in H by assumption. discriminate.
Qed.

(** The three ways a call can go: no key, a refused URL, or one request
    and what the answer makes of it. *)
Lemma gandi_req_cases (u : string) (d : pyval) (m : string) (w : World E) :
  let req := mkRequest u d (req_headers E conf) m in
  gandi_req E conf u d m w = (Raise AssertionError, w, [])
  \/ gandi_req E conf u d m w = (Raise ValueErrorRaised, w, [])
  \/ (truthy_optstr (api_key E conf) = true
      /\ request_accepted E u = true
      /\ gandi_req E conf u d m w
         = (reply (fst (urlopen E w req)), snd (urlopen E w req),
            Send req :: reply_log u (fst (urlopen E w req)))).
Proof.
  intros req.
  destruct (truthy_optstr (api_key E conf)) eqn:Hk;
    [|left; now apply gandi_req_no_key].
  destruct (request_accepted E u) eqn:Ha;
    [|right; left; now apply gandi_req_refused].
  right; right. split; [reflexivity|]. split; [reflexivity|].
  now apply gandi_req_run.
Qed.

(** A call that returned sent its request first and sent nothing else. *)
Lemma gandi_req_ok_trace (u : string) (d : pyval) (m : string) (w w' : World E)
    (v : pyval) (t : list event) :
  gandi_req E conf u d m w = (Ok v, w', t) ->
  let req := mkRequest u d (req_headers E conf) m in
  urlopen E w req = (fst (urlopen E w req), w')
  /\ reply (fst (urlopen E w req)) = Ok v
  /\ t = Send req :: reply_log u (fst (urlopen E w req)).
Proof.
  intros H req. pose proof (gandi_req_ok_key _ _ _ _ _ _ _ H) as Hk.
  pose proof (gandi_req_ok_url _ _ _ _ _ _ _ H) as Ha.
  rewrite (gandi_req_run u d m w Hk Ha) in H. fold req in H.
  injection H as H1 H2 H3. subst w' t. repeat split; auto.
  now destruct (urlopen E w req).
Qed.

Lemma get_trace_quiet (u : string) (w w1 : World E) (v : pyval) (t1 : list event) :
  gandi_req E conf u PyNone "GET" w = (Ok v, w1, t1) ->
  puts t1 = [] /\ notifies t1 = [].
Proof.
  intros Hg. destruct (gandi_req_ok_trace _ _ _ _ _ _ _ Hg) as (_ & _ & ->).
  destruct (reply_log_quiet u
    (fst (urlopen E w (mkRequest u PyNone (req_headers E conf) "GET")))) as (Hp & Hn & _).
  cbn. now rewrite Hp, Hn.
Qed.

(** An HTTP error never leaves [gandi_req] as an exception. *)
Lemma gandi_req_http_error (u : string) (d : pyval) (m : string) (w w' : World E)
    (c : Z) (b : body) :
  truthy_optstr (api_key E conf) = true ->
  request_accepted E u = true ->
  urlopen E w (mkRequest u d (req_headers E conf) m) = (HTTPError c b, w') ->
  exists v t, gandi_req E conf u d m w = (Ok v, w', t).
Proof.
  intros Hk Ha Hu. rewrite (gandi_req_run u d m w Hk Ha). rewrite Hu.
  unfold fst, snd, reply. destruct (json_loads b); eauto.
Qed.

(** A call whose request is built returns exactly when the request is
    answered, by a 2xx with a JSON body or by an HTTP error. *)
Lemma gandi_req_returns_iff_answered (u : string) (d : pyval) (m : string)
    (w : World E) :
  truthy_optstr (api_key E conf) = true ->
  request_accepted E u = true ->
  (exists v, result_of (gandi_req E conf u d m w) = Ok v)
  <-> answered (fst (urlopen E w (mkRequest u d (req_headers E conf) m))) = true.
Proof.
  intros Hk Ha. rewrite (gandi_req_run u d m w Hk Ha). unfold result_of. cbn [fst].
  symmetry. apply answered_reply.
Qed.

(** *** [send_notification] *)

(** A call is its own event; it ends as [notify_result] says, after the
    command of [notify_shell]. *)
Lemma send_notification_run (msg : string) (w : World E) :
  exists w',
    send_notification E conf msg w
    = (notify_result conf msg, w', Notify msg :: notify_shell conf msg).
Proof.
  unfold send_notification, notify_shell, notify_result, notify_command,
    bind, emit, run_shell.
  destruct (notify_script conf) as [script|].
  - destruct (truthy_str script); [|simpl; eauto].
    destruct (has_nul (script ++ " " ++ dq ++ msg ++ dq)); simpl; eauto.
  - simpl; eauto.
Qed.

Lemma notify_shell_quiet (msg : string) :
  puts (notify_shell conf msg) = [] /\ notifies (notify_shell conf msg) = []
  /\ sends (notify_shell conf msg) = [].
Proof.
  unfold notify_shell. destruct (notify_command conf msg) as [cmd|]; auto.
  destruct (has_nul cmd); auto.
Qed.

Lemma notify_result_cases (msg : string) :
  notify_result conf msg = Ok tt \/ notify_result conf msg = Raise ValueErrorRaised.
Proof.
  unfold notify_result. destruct (notify_command conf msg) as [cmd|]; auto.
  destruct (has_nul cmd); auto.
Qed.

(** *** Lines 241-251 *)

Lemma read_live_dict (r : record) (kv : list (string * pyval)) (w : World E) :
  read_live E r (PyDict kv) w
  = if py_eq_str (dict_get kv "rrset_name") (name r)
    then match dict_lookup kv "rrset_values" with
         | Some v => (Ok (Some v), w, [])
         | None => (Raise (KeyError "rrset_values"), w, [])
         end
    else if py_eq_int (dict_get kv "code") 404
         then (Ok (Some PyNone), w, [])
         else (Ok None, w, [Stdout (fail_message r (PyDict kv))]).
Proof.
  unfold read_live, bind, py_get, subscript, ret.
  destruct (py_eq_str (dict_get kv "rrset_name") (name r)).
  - destruct (dict_lookup kv "rrset_values"); reflexivity.
  - destruct (py_eq_int (dict_get kv "code") 404); reflexivity.
Qed.

Lemma live_values_truthy (kv : list (string * pyval)) (n : string) (v : pyval) :
  live_values kv n = Some v -> truthy (PyDict kv) = true.
Proof. destruct kv; [discriminate | reflexivity]. Qed.

Lemma read_live_classified (r : record) (kv : list (string * pyval))
    (v : pyval) (w : World E) :
  live_values kv (name r) = Some v ->
  read_live E r (PyDict kv) w = (Ok (Some v), w, []).
Proof.
  intros H. rewrite read_live_dict. unfold live_values in H.
  destruct (py_eq_str (dict_get kv "rrset_name") (name r)).
  - now rewrite H.
  - destruct (py_eq_int (dict_get kv "code") 404); [|discriminate].
    now injection H as <-.
Qed.

Lemma read_live_some (r : record) (rd : pyval) (v : pyval) (w : World E) :
  result_of (read_live E r rd w) = Ok (Some v) ->
  exists kv, rd = PyDict kv /\ live_values kv (name r) = Some v.
Proof.
  destruct rd as [|b|n|s|l|kv]; try discriminate.
  rewrite read_live_dict. unfold live_values. intros H. exists kv. split; [reflexivity|].
  destruct (py_eq_str (dict_get kv "rrset_name") (name r)).
  - destruct (dict_lookup kv "rrset_values"); [|discriminate].
    now injection H as <-.
  - destruct (py_eq_int (dict_get kv "code") 404); [|discriminate].
    now injection H as <-.
Qed.

(** *** Lines 253-268 *)

Lemma write_if_changed_same (d : string) (z : pyval) (r : record) (v : pyval)
    (w : World E) :
  py_eq_val v (val r) = true ->
  write_if_changed E conf d z r v w = (Ok tt, w, []).
Proof. intros H. unfold write_if_changed. now rewrite H. Qed.

Lemma write_if_changed_differ (d : string) (z : pyval) (r : record) (v : pyval)
    (w : World E) :
  truthy_optstr (api_key E conf) = true ->
  request_accepted E (record_url z r) = true ->
  py_eq_val v (val r) = false ->
  let req := mkRequest (record_url z r) (put_data r) (req_headers E conf) "PUT" in
  exists res w' t,
    write_if_changed E conf d z r v w = (res, w', Send req :: t)
    /\ puts t = [] /\ sends t = []
    /\ (answered (fst (urlopen E w req)) = true ->
        res = notify_result conf (update_message d r v)
        /\ notifies t = [update_message d r v])
    /\ (answered (fst (urlopen E w req)) = false ->
        (exists e, res = Raise e) /\ notifies t = []).
Proof.
  intros Hk Hu Hv req. unfold write_if_changed. rewrite Hv. cbn [negb].
  unfold bind at 1. rewrite (gandi_req_run _ _ _ w Hk Hu). fold req.
  destruct (reply_log_quiet (record_url z r) (fst (urlopen E w req)))
    as (Hp & Hn & Hs).
  pose proof (answered_reply (fst (urlopen E w req))) as Ha.
  destruct (reply (fst (urlopen E w req))) as [ack|e] eqn:Hr.
  - unfold bind, print, emit.
    destruct (send_notification_run (update_message d r v) (snd (urlopen E w req)))
      as (w' & ->).
    destruct (notify_shell_quiet (update_message d r v)) as (Hp' & Hn' & Hs').
    exists (notify_result conf (update_message d r v)), w',
      (reply_log (record_url z r) (fst (urlopen E w req))
         ++ Stdout (py_str ack) :: Notify (update_message d r v)
         :: notify_shell conf (update_message d r v))%list.
    split; [now destruct (notify_result conf (update_message d r v))|].
    rewrite puts_app, sends_app, notifies_app, Hp, Hs, Hn. simpl.
    rewrite Hp', Hs', Hn'.
    split; [reflexivity|]. split; [reflexivity|]. split.
    + intros _. split; reflexivity.
    + intros Hf. assert (answered (fst (urlopen E w req)) = true)
        by (apply Ha; eauto). congruence.
  - exists (Raise e), (snd (urlopen E w req)),
      (reply_log (record_url z r) (fst (urlopen E w req))).
    split; [reflexivity|].
    split; [assumption|]. split; [assumption|]. split.
    + intros Ht. apply Ha in Ht as [v' Hv']. discriminate.
    + intros _. split; [eauto | assumption].
Qed.

(** *** The body of the loop, from the response of the GET on *)

Lemma main_record_got (lip d : string) (z : pyval) (r0 : record)
    (w w1 : World E) (rd : pyval) (t1 : list event) :
  let r := resolve lip d r0 in
  gandi_req E conf (record_url z r) PyNone "GET" w = (Ok rd, w1, t1) ->
  main_record E conf lip d z r0 w
  = after_events (Stdout (repr_record r) :: t1)
      ((assert (truthy rd) ;;;
        live <- read_live E r rd ;;
        match live with
        | None => ret r
        | Some rec_val => write_if_changed E conf d z r rec_val ;;; ret r
        end) w1).
Proof.
  intros r H. unfold main_record. fold r.
  unfold bind at 1. unfold print, emit.
  rewrite (bind_run _ _ _ _ _ _ H).
  unfold after_events.
  match goal with |- context [bind ?m ?f w1] => destruct (bind m f w1) as [[res w2] t2] end.
  reflexivity.
Qed.

Lemma main_record_classified (lip d : string) (z : pyval) (r0 : record)
    (w w1 : World E) (kv : list (string * pyval)) (t1 : list event) (v : pyval) :
  let r := resolve lip d r0 in
  gandi_req E conf (record_url z r) PyNone "GET" w = (Ok (PyDict kv), w1, t1) ->
  live_values kv (name r) = Some v ->
  main_record E conf lip d z r0 w
  = after_events (Stdout (repr_record r) :: t1)
      ((write_if_changed E conf d z r v ;;; ret r) w1).
Proof.
  intros r H Hl. rewrite (main_record_got _ _ _ _ _ _ _ _ H). fold r.
  f_equal. unfold bind at 1, assert.
  rewrite (live_values_truthy _ _ _ Hl). unfold ret at 1.
  rewrite (bind_run _ _ _ _ _ _ (read_live_classified r kv v w1 Hl)).
  rewrite after_events_nil.
  now destruct ((write_if_changed E conf d z r v ;;; ret r) w1) as [[res w2] t2].
Qed.

Lemma main_record_skipped (lip d : string) (z : pyval) (r0 : record)
    (w w1 : World E) (kv : list (string * pyval)) (t1 : list event) :
  let r := resolve lip d r0 in
  gandi_req E conf (record_url z r) PyNone "GET" w = (Ok (PyDict kv), w1, t1) ->
  kv <> [] ->
  py_eq_str (dict_get kv "rrset_name") (name r) = false ->
  py_eq_int (dict_get kv "code") 404 = false ->
  main_record E conf lip d z r0 w
  = (Ok r, w1, Stdout (repr_record r) :: (t1 ++ [Stdout (fail_message r (PyDict kv))])%list).
Proof.
  intros r H Hkv Hn Hc. rewrite (main_record_got _ _ _ _ _ _ _ _ H). fold r.
  unfold bind at 1, assert.
  assert (Ht : truthy (PyDict kv) = true) by (destruct kv; [congruence | reflexivity]).
  rewrite Ht. unfold ret at 1.
  unfold bind. rewrite read_live_dict, Hn, Hc. unfold ret. simpl.
  reflexivity.
Qed.

(** *** The loops *)

(** The loops from the first record of a domain on are [run_from]. *)
Lemma main_domains_run_from (lip d : string) (rs : list record)
    (ds : list (string * list record)) (w : World E) :
  main_domains E conf lip ((d, rs) :: ds) w
  = (domain_data <- get_domain_data E conf d ;;
     assert (truthy domain_data) ;;;
     zone_href <- subscript domain_data "zone_records_href" ;;
     run_from E conf lip d zone_href [] rs ds) w.
Proof. reflexivity. Qed.

Lemma run_from_step (lip d : string) (z : pyval) (r0 r' : record)
    (done rest : list record) (ds : list (string * list record))
    (w w' : World E) (t : list event) :
  main_record E conf lip d z r0 w = (Ok r', w', t) ->
  run_from E conf lip d z done (r0 :: rest) ds w
  = after_events t (run_from E conf lip d z (done ++ [r']) rest ds w').
Proof.
  intros H. unfold run_from. cbn [main_records].
  rewrite bind_assoc, (bind_run _ _ _ _ _ _ H). f_equal.
  rewrite bind_assoc. apply bind_ext. intros rs' w2.
  rewrite bind_ret_l. apply bind_ext. intros rest' w3.
  now rewrite <- app_assoc.
Qed.

Lemma run_from_raise (lip d : string) (z : pyval) (r0 : record) (e : exn)
    (done rest : list record) (ds : list (string * list record))
    (w w' : World E) (t : list event) :
  main_record E conf lip d z r0 w = (Raise e, w', t) ->
  run_from E conf lip d z done (r0 :: rest) ds w = (Raise e, w', t).
Proof.
  intros H. unfold run_from. cbn [main_records].
  unfold bind at 1 2. now rewrite H.
Qed.

(** A response that is falsy ([None] after an error body that does not
    decode, an empty object, an empty list, ...) fails the assertion of
    line 239 and ends the run there. *)
Lemma falsy_response_ends_run (lip d : string) (z : pyval) (r0 : record)
    (w w1 : World E) (rd : pyval) (t1 : list event)
    (done rest : list record) (ds : list (string * list record)) :
  let r := resolve lip d r0 in
  gandi_req E conf (record_url z r) PyNone "GET" w = (Ok rd, w1, t1) ->
  truthy rd = false ->
  main_record E conf lip d z r0 w
  = (Raise AssertionError, w1, Stdout (repr_record r) :: t1)
  /\ run_from E conf lip d z done (r0 :: rest) ds w
     = (Raise AssertionError, w1, Stdout (repr_record r) :: t1).
Proof.
  intros r Hg Ht.
  assert (Hm : main_record E conf lip d z r0 w
               = (Raise AssertionError, w1, Stdout (repr_record r) :: t1)).
  { rewrite (main_record_got _ _ _ _ _ _ _ _ Hg). fold r.
    unfold bind at 1, assert. rewrite Ht. unfold raise. cbn [after_events].
    now rewrite app_nil_r. }
  split; [exact Hm|]. now apply run_from_raise.
Qed.

(** *** What a run that ends normally leaves in the records *)

Lemma main_record_ok (lip d : string) (z : pyval) (r0 r' : record)
    (w w' : World E) (t : list event) :
  main_record E conf lip d z r0 w = (Ok r', w', t) ->
  r' = resolve lip d r0.
Proof.
  intros H. unfold main_record in H.
  apply bind_ok in H as (? & ? & ? & ? & _ & H & _).
  apply bind_ok in H as (rd & ? & ? & ? & _ & H & _).
  apply bind_ok in H as (? & ? & ? & ? & _ & H & _).
  apply bind_ok in H as (live & ? & ? & ? & _ & H & _).
  destruct live as [rec_val|].
  - apply bind_ok in H as (? & ? & ? & ? & _ & H & _).
    unfold ret in H. now injection H as <-.
  - unfold ret in H. now injection H as <-.
Qed.

Lemma main_records_ok (lip d : string) (z : pyval) (rs rs' : list record)
    (w w' : World E) (t : list event) :
  main_records E conf lip d z rs w = (Ok rs', w', t) ->
  rs' = map (resolve lip d) rs.
Proof.
  revert rs' w w' t. induction rs as [|r rs IH]; intros rs' w w' t H.
  - unfold main_records, ret in H. now injection H as <-.
  - cbn [main_records] in H.
    apply bind_ok in H as (r1 & w1 & t1 & t2 & Hr & H & _).
    apply bind_ok in H as (rs1 & w2 & t3 & t4 & Hrs & H & _).
    unfold ret in H. injection H as <-.
    apply main_record_ok in Hr. apply IH in Hrs. now subst.
Qed.

Lemma main_domains_ok (lip : string) (ds ds' : list (string * list record))
    (w w' : World E) (t : list event) :
  main_domains E conf lip ds w = (Ok ds', w', t) ->
  ds' = resolved_records lip ds.
Proof.
  revert ds' w w' t. induction ds as [|[d rs] ds IH]; intros ds' w w' t H.
  - unfold main_domains, ret in H. now injection H as <-.
  - cbn [main_domains] in H.
    apply bind_ok in H as (dd & ? & ? & ? & _ & H & _).
    apply bind_ok in H as (? & ? & ? & ? & _ & H & _).
    apply bind_ok in H as (z & ? & ? & ? & _ & H & _).
    apply bind_ok in H as (rs1 & ? & ? & ? & Hrs & H & _).
    apply bind_ok in H as (ds1 & ? & ? & ? & Hds & H & _).
    unfold ret in H. injection H as <-.
    apply main_records_ok in Hrs. apply IH in Hds. subst. reflexivity.
Qed.

(** *** Lines 168-180 *)

Lemma shell_output_run (cmd out : string) (w w1 : World E) :
  has_nul cmd = false ->
  check_output E w cmd = (Some out, w1) ->
  shell_output E cmd w = (Ok out, w1, [Shell cmd]).
Proof. intros Hn Hc. unfold shell_output. now rewrite Hn, Hc. Qed.

Lemma ip_command_has_nul :
  has_nul ("ip addr show dev " ++ wan_device conf) = has_nul (wan_device conf).
Proof. now rewrite has_nul_app. Qed.

(** The lines up to the request to the echo service, when the command
    prints text that shows an address. *)
Lemma get_local_ip_from_echo (w w1 : World E) (out got lip : string) :
  truthy_str (wan_device conf) = true ->
  has_nul (wan_device conf) = false ->
  check_output E w ("ip addr show dev " ++ wan_device conf) = (Some out, w1) ->
  decode out = Some got ->
  re_search_inet got = Some lip ->
  get_local_ip E conf w
  = after_events [Shell ("ip addr show dev " ++ wan_device conf)]
      ((o <- do_urlopen E (mkRequest HTTP_IP_SOURCE PyNone [] "GET") ;;
        match o with
        | Http2xx b =>
            net_ip <- decoded_text E (raw b) ;;
            (if negb (lip =? net_ip)
             then print ("IP mismatch: " ++ lip ++ " vs. " ++ net_ip) ;;;
                  send_notification E conf ("IP mismatch: " ++ lip ++ " vs. " ++ net_ip)
             else ret tt) ;;;
            ret lip
        | HTTPError code _ => raise (HTTPErrorRaised code)
        | UrlopenRaises => raise URLError
        end) w1).
Proof.
  intros Hd Hn Hc Hdec Hre. unfold get_local_ip.
  unfold assert. rewrite Hd, bind_ret_l.
  rewrite <- ip_command_has_nul in Hn.
  rewrite (bind_run _ _ _ _ _ _ (shell_output_run _ _ _ _ Hn Hc)).
  f_equal. unfold decoded_text at 1. rewrite Hdec, bind_ret_l, Hre.
  reflexivity.
Qed.

Lemma get_local_ip_run (w w1 w2 : World E) (out got lip net_ip : string) (b : body) :
  truthy_str (wan_device conf) = true ->
  has_nul (wan_device conf) = false ->
  check_output E w ("ip addr show dev " ++ wan_device conf) = (Some out, w1) ->
  decode out = Some got ->
  re_search_inet got = Some lip ->
  urlopen E w1 (mkRequest HTTP_IP_SOURCE PyNone [] "GET") = (Http2xx b, w2) ->
  decode (raw b) = Some net_ip ->
  let mismatch := "IP mismatch: " ++ lip ++ " vs. " ++ net_ip in
  exists w3,
    get_local_ip E conf w
    = ((if lip =? net_ip then Ok lip
        else match notify_result conf mismatch with
             | Ok _ => Ok lip
             | Raise e => Raise e
             end),
       w3,
       Shell ("ip addr show dev " ++ wan_device conf)
       :: Send (mkRequest HTTP_IP_SOURCE PyNone [] "GET")
       :: (if lip =? net_ip then []
           else Stdout mismatch :: Notify mismatch :: notify_shell conf mismatch)).
Proof.
  intros Hd Hn Hc Hdec Hre Hu Hb mismatch.
  rewrite (get_local_ip_from_echo w w1 out got lip Hd Hn Hc Hdec Hre).
  assert (Hu' : do_urlopen E (mkRequest HTTP_IP_SOURCE PyNone [] "GET") w1
                = (Ok (Http2xx b), w2, [Send (mkRequest HTTP_IP_SOURCE PyNone [] "GET")])).
  { unfold do_urlopen. now rewrite Hu. }
  rewrite (bind_run _ _ _ _ _ _ Hu').
  unfold decoded_text. rewrite Hb, bind_ret_l. fold mismatch.
  destruct (lip =? net_ip) eqn:Heq; cbn [negb].
  - rewrite bind_ret_l. unfold ret. exists w2. reflexivity.
  - unfold bind at 1 2, print, emit.
    destruct (send_notification_run mismatch w2) as (w3 & ->).
    exists w3. destruct (notify_result conf mismatch) as [[]|e]; unfold ret; cbn;
      now rewrite ?app_nil_r.
Qed.

Lemma main_after_local_ip (w w3 : World E) (lip : string) (t : list event) :
  truthy_str (wan_device conf) = true ->
  get_local_ip E conf w = (Ok lip, w3, t) ->
  main E conf w
  = after_events (t ++ [Stdout ("Local IP: " ++ lip)])
      (main_domains E conf lip (records conf) w3).
Proof.
  intros Hd H. unfold main. rewrite Hd. cbn [negb].
  rewrite bind_ret_l, (bind_run _ _ _ _ _ _ H).
  unfold bind, print, emit.
  destruct (main_domains E conf lip (records conf) w3) as [[r w4] t4].
  cbn. now rewrite <- app_assoc.
Qed.

End Run.

(** ** The body of the loop, whatever the host answers *)

(** One iteration sends at most one PUT, the one for the resolved record;
    it notifies at most once, and only after that PUT; when it ends
    normally the record is the resolved one. *)
Lemma main_record_shape (E : Env) (conf : Config) (lip d : string) (z : pyval)
    (r0 : record) (w : World E) :
  let r := resolve lip d r0 in
  exists res w' t,
    main_record E conf lip d z r0 w = (res, w', t)
    /\ (res = Ok r \/ exists e, res = Raise e)
    /\ (puts t = [] /\ notifies t = []
        \/ puts t = [put_request E conf z r]
           /\ (notifies t = [] \/ exists v, notifies t = [update_message d r v])).
Proof.
  intros r.
  destruct (truthy_optstr (api_key E conf)) eqn:Hk.
  2: { unfold main_record. fold r. unfold bind at 1, print, emit.
       rewrite (bind_raise _ _ _ _ _ _ _ (gandi_req_no_key E conf _ _ _ w Hk)).
       eexists _, _, _. split; [reflexivity|]. split; [eauto|]. left. split; reflexivity. }
  destruct (request_accepted E (record_url z r)) eqn:Hu.
  2: { unfold main_record. fold r. unfold bind at 1, print, emit.
       rewrite (bind_raise _ _ _ _ _ _ _ (gandi_req_refused E conf _ _ _ w Hk Hu)).
       eexists _, _, _. split; [reflexivity|]. split; [eauto|]. left. split; reflexivity. }
  pose proof (gandi_req_run E conf (record_url z r) PyNone "GET" w Hk Hu) as Hg.
  cbv zeta in Hg.
  set (greq := mkRequest (record_url z r) PyNone (req_headers E conf) "GET") in *.
  destruct (reply_log_quiet (record_url z r) (fst (urlopen E w greq))) as (Lp & Ln & Ls).
  set (t1 := reply_log (record_url z r) (fst (urlopen E w greq))) in *.
  set (w1 := snd (urlopen E w greq)) in *.
  destruct (reply (fst (urlopen E w greq))) as [rd|e].
  2: { unfold main_record. fold r. unfold bind at 1, print, emit.
       rewrite (bind_raise _ _ _ _ _ _ _ Hg).
       eexists _, _, _. split; [reflexivity|]. split; [eauto|]. left.
       cbn. rewrite Lp, Ln. split; reflexivity. }
  rewrite (main_record_got E conf lip d z r0 w w1 rd _ Hg). fold r.
  assert (Q : puts (Stdout (repr_record r) :: Send greq :: t1) = []
              /\ notifies (Stdout (repr_record r) :: Send greq :: t1) = []).
  { cbn. rewrite Lp, Ln. split; reflexivity. }
  destruct Q as [Qp Qn].
  set (t0 := Stdout (repr_record r) :: Send greq :: t1) in *.
  destruct (truthy rd) eqn:Ht.
  2: { unfold bind at 1, assert, raise. cbn [after_events].
       eexists _, _, _. split; [reflexivity|]. split; [eauto|]. left.
       rewrite app_nil_r. auto. }
  change (assert true) with (@ret E unit tt). rewrite bind_ret_l.
  assert (Hraise : forall e,
    exists (res : result record) (w' : World E) (t : list event),
      after_events t0 (Raise e, w1, []) = (res, w', t)
      /\ (res = Ok r \/ exists e, res = Raise e)
      /\ (puts t = [] /\ notifies t = []
          \/ puts t = [put_request E conf z r]
             /\ (notifies t = [] \/ exists v, notifies t = [update_message d r v]))).
  { intros e. cbn [after_events]. eexists _, _, _. split; [reflexivity|].
    split; [eauto|]. left. rewrite app_nil_r. auto. }
  assert (Hwrite : forall v,
    exists (res : result record) (w' : World E) (t : list event),
      after_events t0 ((write_if_changed E conf d z r v ;;; ret r) w1) = (res, w', t)
      /\ (res = Ok r \/ exists e, res = Raise e)
      /\ (puts t = [] /\ notifies t = []
          \/ puts t = [put_request E conf z r]
             /\ (notifies t = [] \/ exists v, notifies t = [update_message d r v]))).
  { intros v. destruct (py_eq_val v (val r)) eqn:Hv.
    - rewrite (bind_run _ _ _ _ _ _ _ (write_if_changed_same E conf d z r v w1 Hv)).
      unfold ret. cbn [after_events]. eexists _, _, _. split; [reflexivity|].
      split; [auto|]. left. rewrite !app_nil_r. auto.
    - destruct (write_if_changed_differ E conf d z r v w1 Hk Hu Hv)
        as (res & w2 & t2 & Hw & Hp & Hs & Hyes & Hno).
      destruct (answered (fst (urlopen E w1
                 (mkRequest (record_url z r) (put_data r) (req_headers E conf) "PUT")))).
      + destruct (Hyes eq_refl) as [-> Hn].
        destruct (notify_result_cases conf (update_message d r v)) as [Hres|Hres];
          rewrite Hres in Hw.
        * rewrite (bind_run _ _ _ _ _ _ _ Hw). unfold ret. cbn [after_events].
          eexists _, _, _. split; [reflexivity|]. split; [auto|]. right.
          rewrite app_nil_r, puts_app, notifies_app, Qp, Qn. cbn. rewrite Hp, Hn.
          split; [reflexivity|]. right. exists v. reflexivity.
        * rewrite (bind_raise _ _ _ _ _ _ _ Hw). cbn [after_events].
          eexists _, _, _. split; [reflexivity|]. split; [eauto|]. right.
          rewrite puts_app, notifies_app, Qp, Qn. cbn. rewrite Hp, Hn.
          split; [reflexivity|]. right. exists v. reflexivity.
      + destruct (Hno eq_refl) as [[e ->] Hn].
        rewrite (bind_raise _ _ _ _ _ _ _ Hw). cbn [after_events].
        eexists _, _, _. split; [reflexivity|]. split; [eauto|]. right.
        rewrite puts_app, notifies_app, Qp, Qn. cbn. rewrite Hp, Hn. auto. }
  destruct rd as [|b|n|s|l|kv];
    try (rewrite (bind_raise _ _ _ _ AttributeError w1 [] eq_refl); apply Hraise).
  unfold bind at 1. rewrite read_live_dict.
    destruct (py_eq_str (dict_get kv "rrset_name") (name r)).
    + destruct (dict_lookup kv "rrset_values") as [v|]; [|apply Hraise].
      specialize (Hwrite v).
      destruct ((write_if_changed E conf d z r v ;;; ret r) w1) as [[res w2] t2].
      exact Hwrite.
    + destruct (py_eq_int (dict_get kv "code") 404).
      * specialize (Hwrite PyNone).
        destruct ((write_if_changed E conf d z r PyNone ;;; ret r) w1) as [[res w2] t2].
        exact Hwrite.
      * unfold ret. cbn [after_events]. eexists _, _, _. split; [reflexivity|].
        split; [auto|]. left. rewrite app_nil_r, puts_app, notifies_app, Qp, Qn. auto.
Qed.

(** ** Whole runs on example hosts *)

(** The record [A @] has no value, the interface has 1.2.3.4 and the
    provider does not know the record: one PUT with the address and a ttl
    of 1200, one notification. *)
Example run_creates_absent_record :
  let x := main (Demo.world Demo.not_found Demo.created "1.2.3.4")
             (Demo.config [Demo.rec_at]) tt in
  result_of x = Ok [("example.com", [mkRecord "A" "@" (Some ["1.2.3.4"])])]
  /\ map data (puts (trace_of x))
     = [PyDict [("rrset_name", PyStr "@"); ("rrset_type", PyStr "A");
                ("rrset_ttl", PyInt 1200);
                ("rrset_values", PyList [PyStr "1.2.3.4"])]]
  /\ notifies (trace_of x)
     = ["updating example.com Record(type='A', name='@', val=['1.2.3.4']) from None to ['1.2.3.4']"].
Proof. vm_compute. repeat split. Qed.

(** The live record has the address already: no PUT, no notification. *)
Example run_leaves_matching_record :
  let x := main (Demo.world (Demo.rrset "@" "A" ["1.2.3.4"]) Demo.created "1.2.3.4")
             (Demo.config [Demo.rec_at; Demo.rec_mail]) tt in
  result_of x
  = Ok [("example.com", [mkRecord "A" "@" (Some ["1.2.3.4"]);
                         mkRecord "A" "mail" (Some ["1.2.3.4"])])]
  /\ puts (trace_of x) = []
  /\ notifies (trace_of x) = [].
Proof. vm_compute. repeat split. Qed.

(** The read of the first record is answered 401: the record is skipped,
    the second record is read, the run ends normally. *)
Example run_skips_unexpected_response :
  let x := main (Demo.world Demo.unauthorized Demo.created "1.2.3.4")
             (Demo.config [Demo.rec_at; Demo.rec_mail]) tt in
  result_of x
  = Ok [("example.com", [mkRecord "A" "@" (Some ["1.2.3.4"]);
                         mkRecord "A" "mail" (Some ["1.2.3.4"])])]
  /\ map url (sends (trace_of x))
     = [HTTP_IP_SOURCE; Demo.domain_url; Demo.zone ++ "/@/A"; Demo.zone ++ "/mail/A"]
  /\ puts (trace_of x) = [].
Proof. vm_compute. repeat split. Qed.

(** * The claims *)

(** ** Resolution (lines 228-233) *)

(** C7.  A record that is not a PTR record and whose values are unset has,
    after the resolution step, the one-element list [[local_ip]] as its
    values. *)
Theorem unset_values_become_local_ip (local_ip domain : string) (r : record) :
  type r <> "PTR" ->
  val r = None ->
  val (resolve local_ip domain r) = Some [local_ip].
Proof.
  intros Ht Hv. unfold resolve. rewrite Hv. cbn [pyval_of_val truthy negb type].
  apply String.eqb_neq in Ht. now rewrite Ht.
Qed.

(** C9.  For a PTR record the override of lines 231-233 is unconditional:
    whatever name and values the record came with, the resolved record has
    the name built from [local_ip] and the single value built from the
    domain. *)
Theorem ptr_override_unconditional (local_ip domain : string) (r : record) :
  type r = "PTR" ->
  resolve local_ip domain r
  = mkRecord "PTR" (local_ip ++ ".in-addr.arpa.") (Some [domain ++ "."]).
Proof.
  intros Ht. unfold resolve.
  destruct r as [t n v]; cbn [type name val] in *. subst t.
  now destruct (negb (truthy (pyval_of_val v))).
Qed.

(** C10.  A record that is not a PTR record and whose values are the empty
    list is resolved exactly as if they were unset: the values become
    [[local_ip]].  No resolved record has an empty value list, and every
    PUT of an iteration carries the resolved record. *)
Theorem empty_values_treated_as_unset (E : Env) (conf : Config)
    (local_ip domain : string) (z : pyval) (t n : string) (w : World E) :
  t <> "PTR" ->
  resolve local_ip domain (mkRecord t n (Some []))
  = resolve local_ip domain (mkRecord t n None)
  /\ val (resolve local_ip domain (mkRecord t n (Some []))) = Some [local_ip]
  /\ Forall (fun p => data p = put_data (mkRecord t n (Some [local_ip])))
       (puts (trace_of (main_record E conf local_ip domain z (mkRecord t n (Some [])) w))).
Proof.
  intros Ht. apply String.eqb_neq in Ht.
  assert (Hr : resolve local_ip domain (mkRecord t n (Some []))
               = mkRecord t n (Some [local_ip])).
  { unfold resolve. cbn. now rewrite Ht. }
  split; [unfold resolve; cbn; now rewrite Ht|].
  split; [now rewrite Hr|].
  destruct (main_record_shape E conf local_ip domain z (mkRecord t n (Some [])) w)
    as (res & w' & tr & Hm & _ & Hp).
  rewrite Hm. unfold trace_of. cbn [snd]. destruct Hp as [[-> _]|[-> _]].
  - constructor.
  - constructor; [|constructor]. unfold put_request. cbn [data]. now rewrite Hr.
Qed.

(** C8.  After the resolution step the values of a record are a non-empty
    list of strings; the record an iteration ends with still has them, and
    so has every PUT the iteration sends. *)
Theorem values_nonempty_after_resolution (E : Env) (conf : Config)
    (local_ip domain : string) (z : pyval) (r0 : record) (w : World E) :
  exists (v : string) (vs : list string),
    val (resolve local_ip domain r0) = Some (v :: vs)
    /\ match result_of (main_record E conf local_ip domain z r0 w) with
       | Ok r' => val r' = Some (v :: vs)
       | Raise _ => True
       end
    /\ Forall (fun p => dict_get match data p with PyDict kv => kv | _ => [] end
                          "rrset_values"
                        = PyList (map PyStr (v :: vs)))
         (puts (trace_of (main_record E conf local_ip domain z r0 w))).
Proof.
  destruct (resolve_val_nonempty local_ip domain r0) as (v & vs & Hv).
  exists v, vs. split; [assumption|].
  destruct (main_record_shape E conf local_ip domain z r0 w)
    as (res & w' & tr & Hm & Hres & Hp).
  rewrite Hm. unfold trace_of, result_of. cbn [fst snd]. split.
  - destruct Hres as [->|[e ->]]; auto.
  - destruct Hp as [[-> _]|[-> _]]; constructor; [|constructor].
    unfold put_request, put_data. cbn [data]. rewrite Hv. reflexivity.
Qed.

(** C1.  At local address 5.6.7.8 and domain example.com a PTR record gets
    the name [5.6.7.8.in-addr.arpa.]: the octets are in the order of the
    address, where the reverse-mapping name has them reversed.  The values
    are [[example.com.]]. *)
Theorem ptr_name_keeps_octet_order :
  let r := resolve "5.6.7.8" "example.com" (mkRecord "PTR" "host" None) in
  name r = "5.6.7.8.in-addr.arpa."
  /\ spec_reverse_name "5.6.7.8" = "8.7.6.5.in-addr.arpa."
  /\ name r <> spec_reverse_name "5.6.7.8"
  /\ val r = Some ["example.com."].
Proof.
  cbv zeta. repeat split; try reflexivity. vm_compute. discriminate.
Qed.

(** ** Compare and write (lines 253-268) *)

(** C3.  For a record whose live values were read off the response (the
    record exists with values [rec_val], or the provider says not found and
    [rec_val] is [None]): no PUT is sent when [rec_val] is the desired
    list, element for element and in the same order; otherwise, the absent
    record included, exactly one PUT is sent, to the address of the record,
    with the desired name, type, values and a ttl of 1200. *)
Theorem put_iff_live_values_differ (E : Env) (conf : Config)
    (local_ip domain : string) (z : pyval) (r0 : record) (w w1 : World E)
    (record_data : pyval) (t1 : list event) (rec_val : pyval) :
  let r := resolve local_ip domain r0 in
  let t := trace_of (main_record E conf local_ip domain z r0 w) in
  gandi_req E conf (record_url z r) PyNone "GET" w = (Ok record_data, w1, t1) ->
  result_of (read_live E r record_data w1) = Ok (Some rec_val) ->
  exists desired,
    val r = Some desired
    /\ (rec_val = PyList (map PyStr desired) -> puts t = [])
    /\ (rec_val <> PyList (map PyStr desired) ->
        puts t
        = [mkRequest (record_url z r)
             (PyDict [("rrset_name", PyStr (name r));
                      ("rrset_type", PyStr (type r));
                      ("rrset_ttl", PyInt 1200);
                      ("rrset_values", PyList (map PyStr desired))])
             (req_headers E conf) "PUT"])
    /\ (forall live, rec_val = PyList (map PyStr live) ->
        (puts t = [] <-> live = desired))
    /\ (rec_val = PyNone -> puts t <> []).
Proof.
  intros r t Hg Hread. subst t.
  destruct (read_live_some E r record_data rec_val w1 Hread) as (kv & -> & Hl).
  destruct (resolve_val_nonempty local_ip domain r0) as (v & vs & Hv). fold r in Hv.
  pose proof (gandi_req_ok_key _ _ _ _ _ _ _ _ _ Hg) as Hk.
  pose proof (gandi_req_ok_url _ _ _ _ _ _ _ _ _ Hg) as Hu.
  destruct (get_trace_quiet _ _ _ _ _ _ _ Hg) as [Hp1 _].
  rewrite (main_record_classified E conf _ _ _ _ _ _ _ _ _ Hg Hl). fold r.
  rewrite trace_after_events, trace_bind_const, puts_app.
  cbn [puts]. rewrite Hp1. cbn [app].
  exists (v :: vs). split; [assumption|].
  assert (Hspec : py_eq_val rec_val (val r) = true
                  <-> rec_val = PyList (map PyStr (v :: vs))).
  { rewrite Hv. apply py_eq_val_spec. }
  destruct (py_eq_val rec_val (val r)) eqn:Heq.
  - rewrite (write_if_changed_same E conf domain z r rec_val w1 Heq).
    unfold trace_of. cbn [snd puts].
    assert (Hrv : rec_val = PyList (map PyStr (v :: vs))) by now apply Hspec.
    split; [reflexivity|]. split; [intros H; now elim H|]. split.
    + intros live ->. split; [intros _|reflexivity].
      apply map_PyStr_inj. congruence.
    + intros ->. discriminate.
  - destruct (write_if_changed_differ E conf domain z r rec_val w1 Hk Hu Heq)
      as (res & w2 & t2 & Hw & Hp & _ & _ & _).
    rewrite Hw. unfold trace_of. cbn [snd]. cbn [puts method].
    change ("PUT" =? "PUT") with true. cbv iota. rewrite Hp.
    assert (Hne : rec_val <> PyList (map PyStr (v :: vs))).
    { intros H. apply Hspec in H. discriminate. }
    split; [intros H; now elim Hne|]. split.
    + intros _. unfold put_data. now rewrite Hv.
    + split.
      * intros live ->. split; [discriminate|]. intros ->. now elim Hne.
      * intros _. discriminate.
Qed.

(** C4 (as amended).  For a record whose live values were read off the
    response, the iteration notifies exactly when it sends the PUT and the
    call of the PUT returns, be it with the acknowledgement of the
    provider or with the payload of an HTTP error; there is one
    notification then, and its text names the domain, the record, the old
    values and the new values.  It does not notify when no PUT is sent or
    when the PUT ends in an exception. *)
Theorem notification_iff_put_call_returns (E : Env) (conf : Config)
    (local_ip domain : string) (z : pyval) (r0 : record) (w w1 : World E)
    (record_data : pyval) (t1 : list event) (rec_val : pyval) :
  let r := resolve local_ip domain r0 in
  let t := trace_of (main_record E conf local_ip domain z r0 w) in
  gandi_req E conf (record_url z r) PyNone "GET" w = (Ok record_data, w1, t1) ->
  result_of (read_live E r record_data w1) = Ok (Some rec_val) ->
  puts t = (if py_eq_val rec_val (val r) then [] else [put_request E conf z r])
  /\ notifies t
     = (if negb (py_eq_val rec_val (val r))
           && answered (fst (urlopen E w1 (put_request E conf z r)))
        then ["updating " ++ domain ++ " " ++ repr_record r ++ " from "
                ++ py_str rec_val ++ " to " ++ py_str (pyval_of_val (val r))]
        else []).
Proof.
  intros r t Hg Hread. subst t.
  destruct (read_live_some E r record_data rec_val w1 Hread) as (kv & -> & Hl).
  pose proof (gandi_req_ok_key _ _ _ _ _ _ _ _ _ Hg) as Hk.
  pose proof (gandi_req_ok_url _ _ _ _ _ _ _ _ _ Hg) as Hu.
  destruct (get_trace_quiet _ _ _ _ _ _ _ Hg) as [Hp1 Hn1].
  rewrite (main_record_classified E conf _ _ _ _ _ _ _ _ _ Hg Hl). fold r.
  rewrite trace_after_events, trace_bind_const, puts_app, notifies_app.
  cbn [puts notifies]. rewrite Hp1, Hn1. cbn [app]. unfold trace_of.
  destruct (py_eq_val rec_val (val r)) eqn:Heq; cbn [negb andb].
  - rewrite (write_if_changed_same E conf domain z r rec_val w1 Heq).
    split; reflexivity.
  - destruct (write_if_changed_differ E conf domain z r rec_val w1 Hk Hu Heq)
      as (res & w2 & t2 & Hw & Hp & _ & Hyes & Hno).
    rewrite Hw. cbn [snd]. cbn [puts notifies method].
    change ("PUT" =? "PUT") with true. cbv iota. rewrite Hp. split; [reflexivity|].
    unfold put_request.
    destruct (answered _).
    + now destruct (Hyes eq_refl) as [_ ->].
    + now destruct (Hno eq_refl) as [_ ->].
Qed.

(** ** The paths that absorb an unexpected response *)

(** For a record whose response is a non-empty JSON object that neither
    names the record nor carries the code 404, the iteration prints the
    failure with the record and the response, sends no PUT, notifies
    nobody and ends normally; the run goes on with the next record. *)
Lemma unexpected_response_skipped (E : Env) (conf : Config)
    (local_ip domain : string) (z : pyval) (r0 : record) (w w1 : World E)
    (kv : list (string * pyval)) (t1 : list event) :
  let r := resolve local_ip domain r0 in
  let t := (Stdout (repr_record r) :: t1
              ++ [Stdout ("FAIL: unexpected response for " ++ repr_record r
                           ++ ", can't update: " ++ py_repr (PyDict kv))])%list in
  gandi_req E conf (record_url z r) PyNone "GET" w = (Ok (PyDict kv), w1, t1) ->
  kv <> [] ->
  py_eq_str (dict_get kv "rrset_name") (name r) = false ->
  py_eq_int (dict_get kv "code") 404 = false ->
  main_record E conf local_ip domain z r0 w = (Ok r, w1, t)
  /\ puts t = []
  /\ notifies t = []
  /\ forall done rest ds,
       run_from E conf local_ip domain z done (r0 :: rest) ds w
       = after_events t (run_from E conf local_ip domain z (done ++ [r]) rest ds w1).
Proof.
  intros r t Hg Hkv Hn Hc.
  pose proof (main_record_skipped E conf _ _ _ _ _ _ _ _ Hg Hkv Hn Hc) as Hm.
  fold r in Hm. change (main_record E conf local_ip domain z r0 w = (Ok r, w1, t)) in Hm.
  destruct (get_trace_quiet _ _ _ _ _ _ _ Hg) as [Hp1 Hn1].
  split; [exact Hm|]. subst t.
  split; [cbn [puts]; rewrite puts_app, Hp1; reflexivity|].
  split; [cbn [notifies]; rewrite notifies_app, Hn1; reflexivity|].
  intros done rest ds. now apply run_from_step.
Qed.

(** When the read of a record is answered, by a 2xx or by an HTTP error,
    with a non-empty JSON object (one that carries [rrset_values] if it
    names the record), and the write, if one is due, is answered too, by
    a 2xx or by an HTTP error with any body, and the command of the
    notification can be started, then no exception leaves the
    iteration: it ends normally and the run goes on with the remaining
    records and domains. *)
Lemma http_errors_absorbed_per_record (E : Env) (conf : Config)
    (local_ip domain : string) (z : pyval) (r0 : record) (w w1 : World E)
    (o : http_outcome) (kv : list (string * pyval)) :
  let r := resolve local_ip domain r0 in
  truthy_optstr (api_key E conf) = true ->
  request_accepted E (record_url z r) = true ->
  urlopen E w (get_request E conf z r) = (o, w1) ->
  reply o = Ok (PyDict kv) ->
  kv <> [] ->
  (py_eq_str (dict_get kv "rrset_name") (name r) = true ->
   dict_lookup kv "rrset_values" <> None) ->
  (write_due kv r = true ->
   answered (fst (urlopen E w1 (put_request E conf z r))) = true) ->
  (forall rec_val,
     live_values kv (name r) = Some rec_val ->
     notify_result conf (update_message domain r rec_val) = Ok tt) ->
  exists w' t,
    main_record E conf local_ip domain z r0 w = (Ok r, w', t)
    /\ forall done rest ds,
         run_from E conf local_ip domain z done (r0 :: rest) ds w
         = after_events t (run_from E conf local_ip domain z (done ++ [r]) rest ds w').
Proof.
  intros r Hk Ha Hu Hr Hkv Hvals Hput Hnote.
  assert (Hg : gandi_req E conf (record_url z r) PyNone "GET" w
               = (Ok (PyDict kv), w1, Send (get_request E conf z r) :: reply_log (record_url z r) o)).
  { rewrite (gandi_req_run E conf _ _ _ w Hk Ha). cbv zeta.
    fold (get_request E conf z r). rewrite Hu. cbn [fst snd]. now rewrite Hr. }
  assert (Hend : exists w' t, main_record E conf local_ip domain z r0 w = (Ok r, w', t)).
  { destruct (live_values kv (name r)) as [v|] eqn:Hl.
    - rewrite (main_record_classified E conf _ _ _ _ _ _ _ _ _ Hg Hl). fold r.
      destruct (py_eq_val v (val r)) eqn:Heq.
      + rewrite (bind_run _ _ _ _ _ _ _ (write_if_changed_same E conf domain z r v w1 Heq)).
        unfold ret. cbn [after_events]. eauto.
      + destruct (write_if_changed_differ E conf domain z r v w1 Hk Ha Heq)
          as (res & w2 & t2 & Hw & _ & _ & Hyes & _).
        assert (Han : answered (fst (urlopen E w1 (put_request E conf z r))) = true).
        { apply Hput. unfold write_due. rewrite Hl, Heq. reflexivity. }
        destruct (Hyes Han) as [-> _]. rewrite (Hnote v eq_refl) in Hw.
        rewrite (bind_run _ _ _ _ _ _ _ Hw). unfold ret. cbn [after_events]. eauto.
    - unfold live_values in Hl.
      destruct (py_eq_str (dict_get kv "rrset_name") (name r)) eqn:Hn.
      + now elim (Hvals eq_refl).
      + destruct (py_eq_int (dict_get kv "code") 404) eqn:Hc; [discriminate|].
        rewrite (main_record_skipped E conf _ _ _ _ _ _ _ _ Hg Hkv Hn Hc). eauto. }
  destruct Hend as (w' & t & Hm). exists w', t. split; [exact Hm|].
  intros done rest ds. now apply run_from_step.
Qed.

(** ** The claims on example hosts *)

Lemma unset_values_become_local_ip_witness :
  type Demo.rec_at <> "PTR"
  /\ val Demo.rec_at = None
  /\ val (resolve "1.2.3.4" "example.com" Demo.rec_at) = Some ["1.2.3.4"].
Proof.
  assert (H1 : type Demo.rec_at <> "PTR") by discriminate.
  assert (H2 : val Demo.rec_at = None) by reflexivity.
  exact (conj H1 (conj H2
    (unset_values_become_local_ip "1.2.3.4" "example.com" Demo.rec_at H1 H2))).
Defined.

Lemma ptr_override_unconditional_witness :
  type Demo.rec_ptr = "PTR"
  /\ val Demo.rec_ptr = Some ["old.example.org."]
  /\ resolve "5.6.7.8" "example.com" Demo.rec_ptr
     = mkRecord "PTR" "5.6.7.8.in-addr.arpa." (Some ["example.com."]).
Proof.
  split; [reflexivity|]. split; [reflexivity|].
  exact (ptr_override_unconditional "5.6.7.8" "example.com" Demo.rec_ptr eq_refl).
Defined.

Lemma empty_values_treated_as_unset_witness :
  "A" <> "PTR"
  /\ val (resolve "1.2.3.4" "example.com" (mkRecord "A" "@" (Some []))) = Some ["1.2.3.4"].
Proof.
  assert (H : "A" <> "PTR") by discriminate.
  split; [exact H|].
  exact (proj1 (proj2
    (empty_values_treated_as_unset (Demo.world Demo.not_found Demo.created "1.2.3.4")
       (Demo.config [Demo.rec_at]) "1.2.3.4" "example.com" (PyStr Demo.zone)
       "A" "@" tt H))).
Defined.

(** The two MX values are live in the other order: the record is written. *)
Lemma put_iff_live_values_differ_witness :
  puts (trace_of (main_record (Demo.world Demo.not_found Demo.created "1.2.3.4")
                    (Demo.config [Demo.rec_mx]) "1.2.3.4" "example.com"
                    (PyStr Demo.zone) Demo.rec_mx tt))
  = [put_request (Demo.world Demo.not_found Demo.created "1.2.3.4")
       (Demo.config [Demo.rec_mx]) (PyStr Demo.zone) Demo.rec_mx].
Proof.
  destruct (put_iff_live_values_differ
              (Demo.world Demo.not_found Demo.created "1.2.3.4")
              (Demo.config [Demo.rec_mx]) "1.2.3.4" "example.com"
              (PyStr Demo.zone) Demo.rec_mx tt tt _ _
              (PyList [PyStr "20 mx2.example.net."; PyStr "10 mx1.example.net."])
              eq_refl eq_refl)
    as (desired & Hv & _ & Hdiff & _).
  injection Hv as <-. apply Hdiff. discriminate.
Defined.

(** The record is absent and the provider accepts the PUT: one
    notification. *)
Lemma notification_iff_put_call_returns_witness :
  notifies (trace_of (main_record (Demo.world Demo.not_found Demo.created "1.2.3.4")
                        (Demo.config [Demo.rec_at]) "1.2.3.4" "example.com"
                        (PyStr Demo.zone) Demo.rec_at tt))
  = ["updating example.com Record(type='A', name='@', val=['1.2.3.4']) from None to ['1.2.3.4']"].
Proof.
  exact (proj2 (notification_iff_put_call_returns
                  (Demo.world Demo.not_found Demo.created "1.2.3.4")
                  (Demo.config [Demo.rec_at]) "1.2.3.4" "example.com"
                  (PyStr Demo.zone) Demo.rec_at tt tt _ _ PyNone eq_refl eq_refl)).
Defined.

(** ** Where the code departs from the claims *)

(** C2.  The read of the first record is answered 502 with a body that
    is not JSON: [gandi_req] returns [None], the assertion of line 239
    fails, the run ends with [AssertionError] and the second record is
    never read.  The same read answered 401 with a JSON body is absorbed:
    the failure is printed and the run goes on to the second record. *)
Theorem undecodable_read_error_aborts_run :
  let broken := main (Demo.world Demo.bad_gateway Demo.created "1.2.3.4")
                  (Demo.config [Demo.rec_at; Demo.rec_mail]) tt in
  let absorbed := main (Demo.world Demo.unauthorized Demo.created "1.2.3.4")
                    (Demo.config [Demo.rec_at; Demo.rec_mail]) tt in
  fst (urlopen (Demo.world Demo.bad_gateway Demo.created "1.2.3.4") tt
         (get_request (Demo.world Demo.bad_gateway Demo.created "1.2.3.4")
            (Demo.config [Demo.rec_at; Demo.rec_mail]) (PyStr Demo.zone)
            (resolve "1.2.3.4" "example.com" Demo.rec_at)))
  = HTTPError 502 Demo.html
  /\ reply (HTTPError 502 Demo.html) = Ok PyNone
  /\ result_of broken = Raise AssertionError
  /\ map url (sends (trace_of broken))
     = [HTTP_IP_SOURCE; Demo.domain_url; Demo.zone ++ "/@/A"]
  /\ result_of absorbed
     = Ok [("example.com", [mkRecord "A" "@" (Some ["1.2.3.4"]);
                            mkRecord "A" "mail" (Some ["1.2.3.4"])])]
  /\ map url (sends (trace_of absorbed))
     = [HTTP_IP_SOURCE; Demo.domain_url; Demo.zone ++ "/@/A"; Demo.zone ++ "/mail/A"].
Proof. vm_compute. repeat split. Qed.

(** C4.  The record is absent and the PUT is answered 403: the write
    failed, and the notification is sent all the same. *)
Lemma notification_sent_after_rejected_put :
  fst (urlopen (Demo.world Demo.not_found Demo.forbidden "1.2.3.4") tt
         (put_request (Demo.world Demo.not_found Demo.forbidden "1.2.3.4")
            (Demo.config [Demo.rec_at]) (PyStr Demo.zone)
            (resolve "1.2.3.4" "example.com" Demo.rec_at)))
  = Demo.forbidden
  /\ notifies (trace_of (main (Demo.world Demo.not_found Demo.forbidden "1.2.3.4")
                           (Demo.config [Demo.rec_at]) tt))
     = ["updating example.com Record(type='A', name='@', val=['1.2.3.4']) from None to ['1.2.3.4']"].
Proof. vm_compute. repeat split. Qed.

(** C5.  The read of the first record is answered with the empty JSON
    object, which neither names the record nor carries the code 404: the
    assertion of line 239 fails, the record is not skipped, the run ends
    with [AssertionError] and the second record is never read.  The same
    read answered with a non-empty object that neither names the record
    nor carries the code 404 is skipped as the claim says: the failure is
    printed, no PUT is sent and the second record is read. *)
Theorem empty_object_response_aborts_run :
  let broken := main (Demo.world Demo.empty_object Demo.created "1.2.3.4")
                  (Demo.config [Demo.rec_at; Demo.rec_mail]) tt in
  let skipped := main (Demo.world Demo.unauthorized Demo.created "1.2.3.4")
                   (Demo.config [Demo.rec_at; Demo.rec_mail]) tt in
  reply Demo.empty_object = Ok (PyDict [])
  /\ py_eq_str (dict_get [] "rrset_name") "@" = false
  /\ py_eq_int (dict_get [] "code") 404 = false
  /\ result_of broken = Raise AssertionError
  /\ map url (sends (trace_of broken))
     = [HTTP_IP_SOURCE; Demo.domain_url; Demo.zone ++ "/@/A"]
  /\ result_of skipped
     = Ok [("example.com", [mkRecord "A" "@" (Some ["1.2.3.4"]);
                            mkRecord "A" "mail" (Some ["1.2.3.4"])])]
  /\ puts (trace_of skipped) = []
  /\ map url (sends (trace_of skipped))
     = [HTTP_IP_SOURCE; Demo.domain_url; Demo.zone ++ "/@/A"; Demo.zone ++ "/mail/A"].
Proof. vm_compute. repeat split. Qed.

(** C6.  On a point-to-point interface [ip addr show] prints the address
    of the interface, then [peer] and the address of the other end, and
    only then the slash.  The address of the interface is 10.0.0.5 and
    the echo service reports 10.0.0.5 too, yet line 173 captures the text
    up to the slash, [10.0.0.5 peer 10.0.0.1]: the two are compared as
    different, a mismatch is printed and notified, and the captured text,
    not the address of the interface, is what the record is filled with
    and what the PUT carries.  With the slash right after the address
    the same host is not notified of a mismatch and the record gets the
    address. *)
Theorem peer_text_captured_as_local_ip :
  let provider := Demo.provider Demo.not_found Demo.created "10.0.0.5" in
  let x := main (Demo.host provider (Some Demo.ip_addr_show_peer)) Demo.ppp_config tt in
  let y := main (Demo.host provider (Some Demo.ip_addr_show_ppp)) Demo.ppp_config tt in
  spec_local_address Demo.ip_addr_show_peer = Some "10.0.0.5"
  /\ re_search_inet Demo.ip_addr_show_peer = Some "10.0.0.5 peer 10.0.0.1"
  /\ notifies (trace_of x)
     = ["IP mismatch: 10.0.0.5 peer 10.0.0.1 vs. 10.0.0.5";
        "updating example.com Record(type='A', name='@', val=['10.0.0.5 peer 10.0.0.1']) from None to ['10.0.0.5 peer 10.0.0.1']"]
  /\ map data (puts (trace_of x))
     = [PyDict [("rrset_name", PyStr "@"); ("rrset_type", PyStr "A");
                ("rrset_ttl", PyInt 1200);
                ("rrset_values", PyList [PyStr "10.0.0.5 peer 10.0.0.1"])]]
  /\ result_of x
     = Ok [("example.com", [mkRecord "A" "@" (Some ["10.0.0.5 peer 10.0.0.1"])])]
  /\ spec_local_address Demo.ip_addr_show_ppp = Some "10.0.0.5"
  /\ re_search_inet Demo.ip_addr_show_ppp = Some "10.0.0.5"
  /\ notifies (trace_of y)
     = ["updating example.com Record(type='A', name='@', val=['10.0.0.5']) from None to ['10.0.0.5']"]
  /\ result_of y = Ok [("example.com", [mkRecord "A" "@" (Some ["10.0.0.5"])])].
Proof. vm_compute. repeat split. Qed.

(** * More of the program *)

(** ** Every event of a run *)

Section Events.
Variable E : Env.
Variable conf : Config.

Lemma trace_of_bind {A B} (m : M E A) (f : A -> M E B) (w : World E) :
  trace_of (bind m f w)
  = match m w with
    | (Ok a, w1, t1) => (t1 ++ trace_of (f a w1))%list
    | (Raise _, _, t1) => t1
    end.
Proof.
  unfold bind, trace_of. destruct (m w) as [[[a|e] w1] t1]; [|reflexivity].
  now destruct (f a w1) as [[r w2] t2].
Qed.

Lemma Forall_trace_bind {A B} (P : event -> Prop) (m : M E A) (f : A -> M E B)
    (w : World E) :
  Forall P (trace_of (m w)) ->
  (forall a w1, Forall P (trace_of (f a w1))) ->
  Forall P (trace_of (bind m f w)).
Proof.
  intros Hm Hf. rewrite trace_of_bind. unfold trace_of in Hm.
  destruct (m w) as [[[a|e] w1] t1]; cbn [snd] in Hm; [|assumption].
  apply Forall_app. split; [assumption | apply Hf].
Qed.

Lemma Forall_trace_ret {A} (P : event -> Prop) (a : A) (w : World E) :
  Forall P (trace_of (@ret E A a w)).
Proof. constructor. Qed.

Lemma Forall_trace_raise {A} (P : event -> Prop) (e : exn) (w : World E) :
  Forall P (trace_of (@raise E A e w)).
Proof. constructor. Qed.

Lemma Forall_trace_assert (P : event -> Prop) (b : bool) (w : World E) :
  Forall P (trace_of (@assert E b w)).
Proof. destruct b; constructor. Qed.

Lemma Forall_trace_print (P : event -> Prop) (s : string) (w : World E) :
  P (Stdout s) -> Forall P (trace_of (@print E s w)).
Proof. intros H. repeat constructor. exact H. Qed.

Lemma gandi_req_events (P : event -> Prop) (u : string) (d : pyval) (m : string)
    (w : World E) :
  (forall s, P (Stdout s)) ->
  P (Send (mkRequest u d (req_headers E conf) m)) ->
  Forall P (trace_of (gandi_req E conf u d m w)).
Proof.
  intros Hs Hr.
  destruct (gandi_req_cases E conf u d m w) as [-> | [-> | (_ & _ & ->)]];
    try constructor; [exact Hr|].
  destruct (fst (urlopen E w (mkRequest u d (req_headers E conf) m))) as [b|c b|];
    cbn [reply_log]; try constructor; auto.
  destruct (json_loads b); repeat constructor; auto.
Qed.

Lemma send_notification_events (msg : string) (w : World E) :
  Forall (run_event E conf) (trace_of (send_notification E conf msg w)).
Proof.
  destruct (send_notification_run E conf msg w) as (w' & ->).
  unfold trace_of. cbn [snd]. constructor; [constructor|].
  unfold notify_shell, notify_command.
  destruct (notify_script conf) as [script|] eqn:Hs; [|constructor].
  destruct (truthy_str script) eqn:Ht; [|constructor].
  destruct (has_nul (script ++ " " ++ dq ++ msg ++ dq)); [constructor|].
  constructor; [|constructor]. now apply run_notify_command.
Qed.

Lemma get_local_ip_events (w : World E) :
  Forall (run_event E conf) (trace_of (get_local_ip E conf w)).
Proof.
  unfold get_local_ip.
  apply Forall_trace_bind; [apply Forall_trace_assert|]. intros _ w0.
  apply Forall_trace_bind.
  { unfold trace_of, shell_output.
    destruct (has_nul ("ip addr show dev " ++ wan_device conf)); [constructor|].
    destruct (check_output E w0 ("ip addr show dev " ++ wan_device conf)) as [[out|] w1];
      cbn [snd]; repeat constructor. }
  intros out w1.
  apply Forall_trace_bind; [unfold decoded_text; destruct (decode out); constructor|].
  intros got w1'. destruct (re_search_inet got) as [lip|]; [|constructor].
  apply Forall_trace_bind.
  { unfold do_urlopen, trace_of.
    destruct (urlopen E w1' (mkRequest HTTP_IP_SOURCE PyNone [] "GET")) as [o w2].
    cbn [snd]. repeat constructor. }
  intros o w2. destruct o as [b|c b|]; try constructor.
  apply Forall_trace_bind; [unfold decoded_text; destruct (decode (raw b)); constructor|].
  intros net_ip w2'.
  apply Forall_trace_bind; [|intros; constructor].
  destruct (negb (lip =? net_ip)); [|constructor].
  apply Forall_trace_bind; [apply Forall_trace_print; constructor|].
  intros _ w3. apply send_notification_events.
Qed.

Lemma read_live_events (r : record) (rd : pyval) (w : World E) :
  Forall (run_event E conf) (trace_of (read_live E r rd w)).
Proof.
  destruct rd as [|b|n|s|l|kv]; try constructor.
  rewrite read_live_dict.
  destruct (py_eq_str (dict_get kv "rrset_name") (name r)).
  - destruct (dict_lookup kv "rrset_values"); constructor.
  - destruct (py_eq_int (dict_get kv "code") 404); repeat constructor.
Qed.

Lemma main_record_events (lip d : string) (rs : list record) (z : pyval)
    (r0 : record) (w : World E) :
  In (d, rs) (records conf) -> In r0 rs ->
  Forall (run_event E conf) (trace_of (main_record E conf lip d z r0 w)).
Proof.
  intros Hd Hr. unfold main_record.
  apply Forall_trace_bind; [apply Forall_trace_print; constructor|]. intros _ w0.
  apply Forall_trace_bind; [apply gandi_req_events; constructor|]. intros rd w1.
  apply Forall_trace_bind; [apply Forall_trace_assert|]. intros _ w2.
  apply Forall_trace_bind; [apply read_live_events|]. intros [rec_val|] w3;
    [|constructor].
  apply Forall_trace_bind; [|intros; constructor].
  unfold write_if_changed.
  destruct (negb (py_eq_val rec_val (val (resolve lip d r0)))); [|constructor].
  apply Forall_trace_bind.
  { apply gandi_req_events; [constructor|].
    exact (run_put E conf lip d rs r0 z Hd Hr). }
  intros ack w4.
  apply Forall_trace_bind; [apply Forall_trace_print; constructor|].
  intros _ w5. apply send_notification_events.
Qed.

Lemma main_records_events (lip d : string) (all : list record) (z : pyval)
    (rs : list record) (w : World E) :
  In (d, all) (records conf) -> incl rs all ->
  Forall (run_event E conf) (trace_of (main_records E conf lip d z rs w)).
Proof.
  intros Hd. revert w. induction rs as [|r rs IH]; intros w Hin; [constructor|].
  cbn [main_records].
  apply Forall_trace_bind.
  { apply (main_record_events lip d all); [assumption | apply Hin; now left]. }
  intros r' w1.
  apply Forall_trace_bind; [|intros; constructor].
  apply IH. intros x Hx. apply Hin. now right.
Qed.

Lemma main_domains_events (lip : string) (ds : list (string * list record))
    (w : World E) :
  incl ds (records conf) ->
  Forall (run_event E conf) (trace_of (main_domains E conf lip ds w)).
Proof.
  revert w. induction ds as [|[d rs] ds IH]; intros w Hin; [constructor|].
  cbn [main_domains].
  apply Forall_trace_bind; [apply gandi_req_events; constructor|]. intros dd w1.
  apply Forall_trace_bind; [apply Forall_trace_assert|]. intros _ w2.
  apply Forall_trace_bind.
  { unfold subscript. destruct dd as [| | | | |kv]; try constructor.
    destruct (dict_lookup kv "zone_records_href"); constructor. }
  intros z w3.
  apply Forall_trace_bind.
  { apply (main_records_events lip d rs); [apply Hin; now left | apply incl_refl]. }
  intros rs' w4.
  apply Forall_trace_bind; [|intros; constructor].
  apply IH. intros x Hx. apply Hin. now right.
Qed.

Lemma main_events (w : World E) :
  Forall (run_event E conf) (trace_of (main E conf w)).
Proof.
  unfold main.
  apply Forall_trace_bind.
  { destruct (negb (truthy_str (wan_device conf))); [|constructor].
    unfold die. apply Forall_trace_bind; [repeat constructor | intros; constructor]. }
  intros _ w0.
  apply Forall_trace_bind; [apply get_local_ip_events|]. intros lip w1.
  apply Forall_trace_bind; [apply Forall_trace_print; constructor|]. intros _ w2.
  apply main_domains_events. apply incl_refl.
Qed.

End Events.

Lemma Forall_sends (P : event -> Prop) (Q : request -> Prop) (t : list event) :
  (forall r, P (Send r) -> Q r) -> Forall P t -> Forall Q (sends t).
Proof.
  intros H. induction 1 as [|e t He Ht IH]; [constructor|].
  destruct e; cbn [sends]; auto.
Qed.

Lemma Forall_puts (P : event -> Prop) (Q : request -> Prop) (t : list event) :
  (forall r, P (Send r) -> method r = "PUT" -> Q r) -> Forall P t -> Forall Q (puts t).
Proof.
  intros H. induction 1 as [|e t He Ht IH]; [constructor|].
  destruct e; cbn [puts]; auto.
  destruct (method r =? "PUT") eqn:Hm; auto.
  constructor; auto. apply H; auto. now apply String.eqb_eq.
Qed.

Lemma Forall_shells (P : event -> Prop) (Q : string -> Prop) (t : list event) :
  (forall c, P (Shell c) -> Q c) -> Forall P t -> Forall Q (shells t).
Proof.
  intros H. induction 1 as [|e t He Ht IH]; [constructor|].
  destruct e; cbn [shells]; auto.
Qed.

(** X1.  A run only ever reads and writes: every request it sends has the
    method GET or PUT. *)
Theorem run_sends_only_get_and_put (E : Env) (conf : Config) (w : World E) :
  Forall (fun r => method r = "GET" \/ method r = "PUT")
    (sends (trace_of (main E conf w))).
Proof.
  apply (Forall_sends (run_event E conf)); [|apply main_events].
  intros r H. inversion H; subst; cbn; auto.
Qed.

(** X3.  Every request of a run other than the one to the echo service
    carries the JSON content type and the API key, the key of the
    environment when there is one and the key of the file otherwise. *)
Theorem run_requests_carry_api_key (E : Env) (conf : Config) (w : World E) :
  Forall (fun r =>
            r = echo_request
            \/ headers r
               = [("Content-Type", "application/json");
                  ("X-Api-Key",
                   match (if truthy_optstr (ENV_APIKEY E)
                          then ENV_APIKEY E else gandi_api_key conf) with
                   | Some k => k
                   | None => ""
                   end)])
    (sends (trace_of (main E conf w))).
Proof.
  apply (Forall_sends (run_event E conf)); [|apply main_events].
  intros r H. inversion H; subst; cbn; auto.
Qed.

(** X4.  When no notify script is configured, the only command a run hands
    to the shell is the query of the interface. *)
Theorem run_without_script_runs_only_ip (E : Env) (conf : Config) (w : World E) :
  truthy_optstr (notify_script conf) = false ->
  Forall (fun c => c = "ip addr show dev " ++ wan_device conf)
    (shells (trace_of (main E conf w))).
Proof.
  intros Hn. apply (Forall_shells (run_event E conf)); [|apply main_events].
  intros c H. inversion H as [| | | |script msg Hs Ht| | |]; subst; [reflexivity|].
  unfold truthy_optstr in Hn. rewrite Hs in Hn. congruence.
Qed.

(** ** The requests of one record and of a whole run *)

Lemma write_if_changed_requests (E : Env) (conf : Config) (d : string) (z : pyval)
    (r : record) (v : pyval) (w : World E) :
  sends (trace_of (write_if_changed E conf d z r v w))
  = puts (trace_of (write_if_changed E conf d z r v w))
  /\ (puts (trace_of (write_if_changed E conf d z r v w)) = []
      \/ puts (trace_of (write_if_changed E conf d z r v w)) = [put_request E conf z r]).
Proof.
  destruct (py_eq_val v (val r)) eqn:Hv.
  - rewrite (write_if_changed_same E conf d z r v w Hv). cbn. auto.
  - destruct (gandi_req_cases E conf (record_url z r) (put_data r) "PUT" w)
      as [Hg | [Hg | (Hk & Hu & _)]].
    + unfold write_if_changed. rewrite Hv. cbn [negb].
      rewrite (bind_raise _ _ _ _ _ _ _ Hg). cbn. auto.
    + unfold write_if_changed. rewrite Hv. cbn [negb].
      rewrite (bind_raise _ _ _ _ _ _ _ Hg). cbn. auto.
    + destruct (write_if_changed_differ E conf d z r v w Hk Hu Hv)
        as (res & w' & t & -> & Hp & Hs & _).
      unfold trace_of. cbn [snd]. cbn [sends puts method].
      change ("PUT" =? "PUT") with true. cbv iota. rewrite Hp, Hs.
      split; [reflexivity | right; reflexivity].
Qed.

Lemma quiet_bind (E : Env) {A B} (R : list event -> Prop) (m : M E A)
    (f : A -> M E B) (w : World E) :
  (forall t t', sends t = [] -> puts t = [] -> R t' -> R (t ++ t')%list) ->
  sends (trace_of (m w)) = [] ->
  puts (trace_of (m w)) = [] ->
  R [] ->
  (forall a w', R (trace_of (f a w'))) ->
  R (trace_of (bind m f w)).
Proof.
  intros HR Hs Hp H0 Hf. rewrite trace_of_bind. unfold trace_of in Hs, Hp.
  destruct (m w) as [[[a|e] w1] t1]; cbn [snd] in Hs, Hp.
  - apply HR; auto.
  - rewrite <- (app_nil_r t1). apply HR; auto.
Qed.

Lemma main_record_requests (E : Env) (conf : Config) (lip d : string) (z : pyval)
    (r0 : record) (w : World E) :
  let r := resolve lip d r0 in
  let x := main_record E conf lip d z r0 w in
  (sends (trace_of x) = [] /\ exists e, result_of x = Raise e)
  \/ (sends (trace_of x) = get_request E conf z r :: puts (trace_of x)
      /\ (puts (trace_of x) = [] \/ puts (trace_of x) = [put_request E conf z r])).
Proof.
  intros r x. subst x.
  destruct (truthy_optstr (api_key E conf)) eqn:Hk.
  2: { left.
       assert (Hm : main_record E conf lip d z r0 w
                    = (Raise AssertionError, w, [Stdout (repr_record r)])).
       { unfold main_record. fold r. unfold bind at 1, print, emit.
         now rewrite (bind_raise _ _ _ _ _ _ _ (gandi_req_no_key E conf _ _ _ w Hk)). }
       rewrite Hm. split; [reflexivity | eexists; reflexivity]. }
  destruct (request_accepted E (record_url z r)) eqn:Hu.
  2: { left.
       assert (Hm : main_record E conf lip d z r0 w
                    = (Raise ValueErrorRaised, w, [Stdout (repr_record r)])).
       { unfold main_record. fold r. unfold bind at 1, print, emit.
         now rewrite (bind_raise _ _ _ _ _ _ _ (gandi_req_refused E conf _ _ _ w Hk Hu)). }
       rewrite Hm. split; [reflexivity | eexists; reflexivity]. }
  right.
  pose proof (gandi_req_run E conf (record_url z r) PyNone "GET" w Hk Hu) as Hg.
  cbv zeta in Hg. fold (get_request E conf z r) in Hg.
  destruct (reply_log_quiet (record_url z r) (fst (urlopen E w (get_request E conf z r))))
    as (Lp & Ln & Ls).
  set (t1 := reply_log (record_url z r) (fst (urlopen E w (get_request E conf z r)))) in *.
  set (w1 := snd (urlopen E w (get_request E conf z r))) in *.
  assert (Q : sends (Stdout (repr_record r) :: Send (get_request E conf z r) :: t1)
              = [get_request E conf z r]
              /\ puts (Stdout (repr_record r) :: Send (get_request E conf z r) :: t1) = []).
  { cbn [sends puts get_request method]. change ("GET" =? "PUT") with false.
    cbv iota. rewrite Ls, Lp. split; reflexivity. }
  destruct Q as [Qs Qp].
  destruct (reply (fst (urlopen E w (get_request E conf z r)))) as [rd|e].
  2: { assert (Hm : main_record E conf lip d z r0 w
                    = (Raise e, w1,
                       Stdout (repr_record r) :: Send (get_request E conf z r) :: t1)).
       { unfold main_record. fold r. unfold bind at 1, print, emit.
         now rewrite (bind_raise _ _ _ _ _ _ _ Hg). }
       rewrite Hm. unfold trace_of. cbn [snd]. rewrite Qs, Qp. auto. }
  rewrite (main_record_got E conf lip d z r0 w w1 rd _ Hg). fold r.
  rewrite trace_after_events, sends_app, puts_app, Qs, Qp. cbn [app].
  set (R := fun t : list event =>
              sends t = puts t /\ (puts t = [] \/ puts t = [put_request E conf z r])).
  assert (HR : forall t t', sends t = [] -> puts t = [] -> R t' -> R (t ++ t')%list).
  { intros t t' Hs Hp. unfold R. now rewrite sends_app, puts_app, Hs, Hp. }
  assert (H0 : R []) by (unfold R; cbn; auto).
  match goal with |- context [trace_of ?T] => assert (HT : R (trace_of T)) end.
  { apply quiet_bind; auto; [now destruct (truthy rd) | now destruct (truthy rd) |].
    intros _ w2. apply quiet_bind; auto.
    - destruct rd as [|b|n|s|l|kv]; try reflexivity.
      rewrite read_live_dict.
      destruct (py_eq_str (dict_get kv "rrset_name") (name r)).
      + now destruct (dict_lookup kv "rrset_values").
      + now destruct (py_eq_int (dict_get kv "code") 404).
    - destruct rd as [|b|n|s|l|kv]; try reflexivity.
      rewrite read_live_dict.
      destruct (py_eq_str (dict_get kv "rrset_name") (name r)).
      + now destruct (dict_lookup kv "rrset_values").
      + now destruct (py_eq_int (dict_get kv "code") 404).
    - intros [v|] w3; [|exact H0].
      unfold R. rewrite trace_bind_const. apply write_if_changed_requests. }
  destruct HT as [-> HT]. auto.
Qed.

(** X5.  One iteration sends at most two requests: the read of the record
    first and then, at most, one write to the same address. *)
Theorem record_requests_read_then_write (E : Env) (conf : Config)
    (local_ip domain : string) (z : pyval) (r0 : record) (w : World E) :
  let r := resolve local_ip domain r0 in
  let q := sends (trace_of (main_record E conf local_ip domain z r0 w)) in
  q = []
  \/ q = [mkRequest (record_url z r) PyNone (req_headers E conf) "GET"]
  \/ q = [mkRequest (record_url z r) PyNone (req_headers E conf) "GET";
          mkRequest (record_url z r) (put_data r) (req_headers E conf) "PUT"].
Proof.
  intros r q. subst q.
  destruct (main_record_requests E conf local_ip domain z r0 w)
    as [[H _]|[H [Hp|Hp]]]; fold r in H.
  - now left.
  - right; left. now rewrite H, Hp.
  - right; right. now rewrite H, Hp.
Qed.

Lemma main_records_ok_requests (E : Env) (conf : Config) (lip d : string) (z : pyval)
    (rs rs' : list record) (w w' : World E) (t : list event) :
  main_records E conf lip d z rs w = (Ok rs', w', t) ->
  length (sends t) = (length rs + length (puts t))%nat.
Proof.
  revert rs' w w' t. induction rs as [|r rs IH]; intros rs' w w' t H.
  - unfold main_records, ret in H. injection H as _ _ <-. reflexivity.
  - cbn [main_records] in H.
    apply bind_ok in H as (r1 & w1 & t1 & t2 & Hr & H & ->).
    apply bind_ok in H as (rs1 & w2 & t3 & t4 & Hrs & H & ->).
    unfold ret in H. injection H as _ _ <-.
    apply IH in Hrs.
    pose proof (main_record_requests E conf lip d z r w) as Hq. cbv zeta in Hq.
    rewrite Hr in Hq. unfold trace_of, result_of in Hq. cbn [fst snd] in Hq.
    destruct Hq as [[_ [e He]]|[Hs _]]; [discriminate|].
    rewrite !sends_app, !puts_app, !length_app, Hs. cbn [length sends puts app].
    lia.
Qed.

Lemma gandi_req_ok_requests (E : Env) (conf : Config) (u : string) (w w' : World E)
    (v : pyval) (t : list event) :
  gandi_req E conf u PyNone "GET" w = (Ok v, w', t) ->
  length (sends t) = 1%nat /\ puts t = [].
Proof.
  intros H. destruct (gandi_req_ok_trace E conf _ _ _ _ _ _ _ H) as (_ & _ & ->).
  destruct (reply_log_quiet u
    (fst (urlopen E w (mkRequest u PyNone (req_headers E conf) "GET")))) as (Hp & _ & Hs).
  cbn. now rewrite Hp, Hs.
Qed.

Lemma quiet_step_ok (E : Env) {A} (m : M E A) (w w' : World E) (a : A) (t : list event) :
  m w = (Ok a, w', t) ->
  sends (trace_of (m w)) = [] -> puts (trace_of (m w)) = [] ->
  sends t = [] /\ puts t = [].
Proof. intros ->. auto. Qed.

Lemma main_domains_ok_requests (E : Env) (conf : Config) (lip : string)
    (ds ds' : list (string * list record)) (w w' : World E) (t : list event) :
  main_domains E conf lip ds w = (Ok ds', w', t) ->
  length (sends t) = (length ds + count_records ds + length (puts t))%nat.
Proof.
  revert ds' w w' t. induction ds as [|[d rs] ds IH]; intros ds' w w' t H.
  - unfold main_domains, ret in H. injection H as _ _ <-. reflexivity.
  - cbn [main_domains] in H.
    apply bind_ok in H as (dd & w1 & t1 & t2 & Hdd & H & ->).
    apply bind_ok in H as ([] & w2 & t3 & t4 & Has & H & ->).
    apply bind_ok in H as (z & w3 & t5 & t6 & Hz & H & ->).
    apply bind_ok in H as (rs1 & w4 & t7 & t8 & Hrs & H & ->).
    apply bind_ok in H as (ds1 & w5 & t9 & t10 & Hds & H & ->).
    unfold ret in H. injection H as _ _ <-.
    apply gandi_req_ok_requests in Hdd as [Hs1 Hp1].
    assert (t3 = []) as ->.
    { unfold assert in Has. destruct (truthy dd); [|discriminate].
      unfold ret in Has. now injection Has as _ <-. }
    assert (t5 = []) as ->.
    { unfold subscript in Hz. destruct dd as [| | | | |kv]; try discriminate.
      destruct (dict_lookup kv "zone_records_href"); [|discriminate].
      unfold ret in Hz. now injection Hz as _ _ <-. }
    apply main_records_ok_requests in Hrs. apply IH in Hds.
    unfold count_records in *. cbn [map list_sum snd length app].
    rewrite !sends_app, !puts_app, !length_app, Hp1. cbn [length sends puts app].
    simpl list_sum. lia.
Qed.

Ltac ends_raised :=
  intros ->; unfold bind, raise, ret, trace_of, result_of; cbn;
  split; [reflexivity|]; split; [auto | intros ? Hx; discriminate Hx].

Lemma get_local_ip_requests (E : Env) (conf : Config) (w : World E) :
  let x := get_local_ip E conf w in
  puts (trace_of x) = []
  /\ (sends (trace_of x) = [] \/ sends (trace_of x) = [echo_request])
  /\ (forall lip, result_of x = Ok lip -> sends (trace_of x) = [echo_request]).
Proof.
  cbv zeta. remember (get_local_ip E conf w) as x eqn:Hx. revert Hx.
  unfold get_local_ip, assert, shell_output, decoded_text, do_urlopen.
  fold echo_request.
  remember ("ip addr show dev " ++ wan_device conf) as cmd eqn:Hcmd. clear Hcmd.
  destruct (truthy_str (wan_device conf)); [|ends_raised].
  rewrite bind_ret_l.
  destruct (has_nul cmd); [ends_raised|].
  unfold bind at 1. cbv beta.
  destruct (check_output E w cmd) as [[out|] w1]; [|ends_raised].
  cbv beta iota.
  destruct (decode out) as [got|]; [|ends_raised].
  rewrite bind_ret_l.
  destruct (re_search_inet got) as [lip|]; [|ends_raised].
  unfold bind at 1. cbv beta.
  destruct (urlopen E w1 echo_request) as [o w2]. cbv beta iota.
  destruct o as [b|c b|]; [|ends_raised..].
  destruct (decode (raw b)) as [net_ip|]; [|ends_raised].
  rewrite bind_ret_l.
  destruct (negb (lip =? net_ip)).
  - remember ("IP mismatch: " ++ lip ++ " vs. " ++ net_ip) as msg eqn:Hmsg. clear Hmsg.
    unfold bind, print, emit. cbv beta iota.
    destruct (send_notification_run E conf msg w2) as (w3 & ->).
    destruct (notify_shell_quiet conf msg) as (Hp & _ & Hs).
    intros ->.
    destruct (notify_result conf msg) as [[]|e]; unfold ret, trace_of, result_of;
      cbn [fst snd app sends puts method];
      rewrite ?sends_app, ?puts_app, ?Hp, ?Hs;
      change (method echo_request =? "PUT") with false; cbn;
      (split; [reflexivity|]; split; [auto | intros ? Hx; reflexivity]).
  - intros ->. unfold bind, ret, trace_of, result_of. cbn.
    split; [reflexivity|]. split; [auto | reflexivity].
Qed.

Lemma get_local_ip_ok_requests (E : Env) (conf : Config) (w w' : World E)
    (lip : string) (t : list event) :
  get_local_ip E conf w = (Ok lip, w', t) ->
  sends t = [echo_request] /\ puts t = [].
Proof.
  intros H. destruct (get_local_ip_requests E conf w) as (Hp & _ & Hs).
  rewrite H in Hp, Hs. split; [now apply (Hs lip) | exact Hp].
Qed.

Lemma trace_bind_ret {E : Env} {A B} (m : M E A) (g : A -> B) (w : World E) :
  trace_of (bind m (fun a => ret (g a)) w) = trace_of (m w).
Proof.
  unfold bind, ret, trace_of. destruct (m w) as [[[a|e] w1] t1]; cbn; [|reflexivity].
  now rewrite app_nil_r.
Qed.

Lemma zone_of_quiet (E : Env) (conf : Config) (d : string) (w : World E) :
  puts (trace_of (zone_of E conf d w)) = [].
Proof.
  unfold zone_of, get_domain_data. rewrite trace_of_bind.
  set (u := "https://dns.api.gandi.net/api/v5/domains/" ++ d).
  destruct (gandi_req_cases E conf u PyNone "GET" w) as [-> | [-> | (_ & _ & ->)]];
    try reflexivity.
  destruct (reply_log_quiet u
    (fst (urlopen E w (mkRequest u PyNone (req_headers E conf) "GET")))) as (Hp & _ & _).
  assert (Hq : puts (Send (mkRequest u PyNone (req_headers E conf) "GET")
                       :: reply_log u (fst (urlopen E w
                            (mkRequest u PyNone (req_headers E conf) "GET")))) = []).
  { cbn [puts method]. change ("GET" =? "PUT") with false. cbv iota. exact Hp. }
  destruct (reply (fst (urlopen E w (mkRequest u PyNone (req_headers E conf) "GET"))))
    as [dd|e]; [|exact Hq].
  rewrite puts_app, Hq. cbn [app].
  rewrite trace_of_bind. unfold assert.
  destruct (truthy dd); [|reflexivity]. unfold ret at 1. cbn [app].
  unfold subscript. destruct dd as [| | | | |kv]; try reflexivity.
  now destruct (dict_lookup kv "zone_records_href").
Qed.

Lemma main_domains_zone (E : Env) (conf : Config) (lip d : string)
    (rs : list record) (ds : list (string * list record)) (w : World E) :
  main_domains E conf lip ((d, rs) :: ds) w
  = (z <- zone_of E conf d ;;
     rs' <- main_records E conf lip d z rs ;;
     rest' <- main_domains E conf lip ds ;;
     ret ((d, rs') :: rest')) w.
Proof.
  cbn [main_domains]. unfold zone_of.
  rewrite bind_assoc. apply bind_ext. intros dd w1.
  now rewrite bind_assoc.
Qed.

(** The PUTs of the records of a domain go to the zone the loop was given
    and carry the records resolved against the address it was given. *)
Lemma main_records_puts (E : Env) (conf : Config) (lip d : string) (z : pyval)
    (rs : list record) (w : World E) :
  Forall (fun p => exists r0, In r0 rs /\ p = put_request E conf z (resolve lip d r0))
    (puts (trace_of (main_records E conf lip d z rs w))).
Proof.
  revert w. induction rs as [|r rs IH]; intros w; [constructor|].
  cbn [main_records]. rewrite trace_of_bind.
  destruct (main_record_shape E conf lip d z r w) as (res & w1 & t1 & Hm & _ & Hp).
  rewrite Hm.
  assert (H1 : Forall (fun p => exists r0, In r0 (r :: rs)
                                 /\ p = put_request E conf z (resolve lip d r0))
                 (puts t1)).
  { destruct Hp as [[-> _]|[-> _]]; [constructor|].
    constructor; [|constructor]. exists r. split; [now left | reflexivity]. }
  destruct res as [r'|e]; [|exact H1].
  rewrite puts_app. apply Forall_app. split; [exact H1|].
  rewrite trace_bind_ret.
  eapply Forall_impl; [|apply IH].
  intros p (r0 & Hin & ->). exists r0. split; [now right | reflexivity].
Qed.

Lemma main_domains_puts (E : Env) (conf : Config) (lip : string)
    (ds : list (string * list record)) (w : World E) :
  Forall (fun p =>
            exists i domain rs z r0,
              nth_error ds i = Some (domain, rs)
              /\ nth_error (zones_read E conf lip ds w) i = Some (domain, z)
              /\ In r0 rs
              /\ p = put_request E conf z (resolve lip domain r0))
    (puts (trace_of (main_domains E conf lip ds w))).
Proof.
  revert w. induction ds as [|[d rs] ds IH]; intros w; [constructor|].
  rewrite main_domains_zone, trace_of_bind. cbn [zones_read].
  pose proof (zone_of_quiet E conf d w) as Hz. unfold trace_of in Hz.
  destruct (zone_of E conf d w) as [[[z|e] w1] t1]; cbn [snd] in Hz;
    [|rewrite Hz; constructor].
  rewrite puts_app, Hz. cbn [app]. rewrite trace_of_bind.
  pose proof (main_records_puts E conf lip d z rs w1) as Hrs. unfold trace_of in Hrs.
  assert (H0 : Forall (fun p =>
              exists i domain rs0 z0 r0,
                nth_error ((d, rs) :: ds) i = Some (domain, rs0)
                /\ nth_error
                     ((d, z) :: match main_records E conf lip d z rs w1 with
                                | (Ok _, w2, _) => zones_read E conf lip ds w2
                                | (Raise _, _, _) => []
                                end) i = Some (domain, z0)
                /\ In r0 rs0
                /\ p = put_request E conf z0 (resolve lip domain r0))
            (puts (snd (main_records E conf lip d z rs w1)))).
  { eapply Forall_impl; [|exact Hrs].
    intros p (r0 & Hin & ->). exists 0%nat, d, rs, z, r0. cbn. auto. }
  destruct (main_records E conf lip d z rs w1) as [[[rs'|e] w2] t2];
    cbn [snd] in H0; [|exact H0].
  rewrite puts_app. apply Forall_app. split; [exact H0|].
  rewrite trace_bind_ret.
  eapply Forall_impl; [|apply IH].
  intros p (i & domain & rs0 & z0 & r0 & Hd & Hzn & Hin & ->).
  exists (S i), domain, rs0, z0, r0. cbn. auto.
Qed.

(** X2.  Every PUT of a run is for a record of the configuration: it goes
    to the address of that record, resolved against the address that
    [get_local_ip] returned in this run, under the zone that the lookup of
    its domain gave in this run, and carries its name, its type, its
    values and the ttl 1200. *)
Theorem run_puts_only_configured_records (E : Env) (conf : Config) (w : World E) :
  Forall (fun p =>
            exists local_ip w0 t0 i domain rs z r0,
              get_local_ip E conf w = (Ok local_ip, w0, t0)
              /\ nth_error (records conf) i = Some (domain, rs)
              /\ nth_error (zones_read E conf local_ip (records conf) w0) i
                 = Some (domain, z)
              /\ In r0 rs
              /\ let r := resolve local_ip domain r0 in
                 p = mkRequest (record_url z r)
                       (PyDict [("rrset_name", PyStr (name r));
                                ("rrset_type", PyStr (type r));
                                ("rrset_ttl", PyInt 1200);
                                ("rrset_values", pyval_of_val (val r))])
                       (req_headers E conf) "PUT")
    (puts (trace_of (main E conf w))).
Proof.
  unfold main. destruct (negb (truthy_str (wan_device conf))); [constructor|].
  rewrite bind_ret_l, trace_of_bind.
  destruct (get_local_ip_requests E conf w) as (Hp & _).
  unfold trace_of in Hp.
  destruct (get_local_ip E conf w) as [[[lip|e] w0] t0] eqn:Hg; cbn [snd] in Hp;
    [|rewrite Hp; constructor].
  rewrite puts_app, Hp. cbn [app].
  rewrite trace_of_bind. unfold print at 1, emit at 1. cbn [app puts].
  eapply Forall_impl; [|apply main_domains_puts].
  intros p (i & domain & rs & z & r0 & Hd & Hz & Hin & ->).
  exists lip, w0, t0, i, domain, rs, z, r0.
  split; [reflexivity|]. auto.
Qed.

(** X6.  A run that ends normally has made exactly one request to the
    echo service, one lookup for each domain, one read for each record and
    the writes it made: nothing is asked twice. *)
Theorem normal_run_request_count (E : Env) (conf : Config) (w w' : World E)
    (recs : list (string * list record)) (t : list event) :
  main E conf w = (Ok recs, w', t) ->
  length (sends t)
  = (1 + length (records conf) + count_records (records conf) + length (puts t))%nat.
Proof.
  intros H. unfold main in H.
  apply bind_ok in H as ([] & w1 & t1 & t2 & Hd & H & ->).
  assert (t1 = []) as ->.
  { destruct (negb (truthy_str (wan_device conf))).
    - unfold die in Hd. apply bind_ok in Hd as (? & ? & ? & ? & _ & Hd & _).
      discriminate.
    - unfold ret in Hd. now injection Hd as _ <-. }
  apply bind_ok in H as (lip & w2 & t3 & t4 & Hip & H & ->).
  apply bind_ok in H as ([] & w3 & t5 & t6 & Hpr & H & ->).
  unfold print, emit in Hpr. injection Hpr as _ <-.
  apply get_local_ip_ok_requests in Hip as [Hs Hp].
  apply main_domains_ok_requests in H.
  cbn [app]. rewrite !sends_app, !puts_app, !length_app, Hs, Hp.
  cbn [length sends puts app]. lia.
Qed.

(** ** [gandi_req] and the API key *)

(** X7.  A key in the environment wins over the key of the file: with a
    non-empty [ENV_APIKEY], a call whose URL the constructor of the
    request accepts sends exactly one request, and that request carries
    the key of the environment; a call whose URL is refused sends
    nothing. *)
Theorem env_key_overrides_config_key (E : Env) (conf : Config)
    (u : string) (d : pyval) (m k : string) (w : World E) :
  ENV_APIKEY E = Some k ->
  k <> "" ->
  sends (trace_of (gandi_req E conf u d m w))
  = if request_accepted E u
    then [mkRequest u d [("Content-Type", "application/json"); ("X-Api-Key", k)] m]
    else [].
Proof.
  intros He Hk.
  apply String.eqb_neq in Hk.
  assert (Ha : api_key E conf = Some k).
  { unfold api_key, truthy_optstr, truthy_str. now rewrite He, Hk. }
  assert (Ht : truthy_optstr (api_key E conf) = true).
  { rewrite Ha. unfold truthy_optstr, truthy_str. now rewrite Hk. }
  destruct (request_accepted E u) eqn:Hu.
  - rewrite (gandi_req_run E conf u d m w Ht Hu). unfold trace_of. cbn [snd sends].
    unfold req_headers. rewrite Ha.
    now destruct (reply_log_quiet u
      (fst (urlopen E w (mkRequest u d
         [("Content-Type", "application/json"); ("X-Api-Key", k)] m)))) as (_ & _ & ->).
  - now rewrite (gandi_req_refused E conf u d m w Ht Hu).
Qed.

(** X8.  An HTTP error never leaves [gandi_req] as an exception: when the
    request was built and [urlopen] answers it with an HTTP error, the
    call returns the decoded body of the error, or [None] when the body is
    not JSON, after one request and no retry. *)
Theorem gandi_req_http_error_returns_payload (E : Env) (conf : Config)
    (u : string) (d : pyval) (m : string) (w w' : World E) (c : Z) (b : body) :
  truthy_optstr (api_key E conf) = true ->
  request_accepted E u = true ->
  urlopen E w (mkRequest u d (req_headers E conf) m) = (HTTPError c b, w') ->
  exists t,
    gandi_req E conf u d m w
    = (Ok match json_loads b with Decoded j => j | Undecodable _ => PyNone end, w', t)
    /\ sends t = [mkRequest u d (req_headers E conf) m].
Proof.
  intros Hk Ha Hu. rewrite (gandi_req_run E conf u d m w Hk Ha). rewrite Hu.
  cbn [fst snd reply]. eexists. split.
  - destruct (json_loads b); reflexivity.
  - cbn [sends reply_log]. now destruct (json_loads b).
Qed.

(** X9.  With no API key, neither in the environment nor in the file, a
    run with at least one domain never ends normally and never reaches
    the provider: whatever the host does, the run ends in an exception
    and the only request it can have sent is the one to the echo service.
    When the local address was obtained, the run stops at the lookup of
    the first domain with [AssertionError], after exactly that one
    request. *)
Theorem run_without_api_key_stops_at_first_domain (E : Env) (conf : Config)
    (w : World E) (d : string) (rs : list record)
    (ds : list (string * list record)) :
  truthy_optstr (ENV_APIKEY E) = false ->
  truthy_optstr (gandi_api_key conf) = false ->
  records conf = (d, rs) :: ds ->
  (exists e, result_of (main E conf w) = Raise e)
  /\ (sends (trace_of (main E conf w)) = []
      \/ sends (trace_of (main E conf w)) = [echo_request])
  /\ forall local_ip w1 t1,
       get_local_ip E conf w = (Ok local_ip, w1, t1) ->
       main E conf w
       = (Raise AssertionError, w1, (t1 ++ [Stdout ("Local IP: " ++ local_ip)])%list)
       /\ sends (t1 ++ [Stdout ("Local IP: " ++ local_ip)]) = [echo_request].
Proof.
  intros He Hc Hr.
  assert (Hk : truthy_optstr (api_key E conf) = false).
  { unfold api_key. now rewrite He. }
  assert (H3 : forall local_ip w1 t1,
             get_local_ip E conf w = (Ok local_ip, w1, t1) ->
             main E conf w
             = (Raise AssertionError, w1, (t1 ++ [Stdout ("Local IP: " ++ local_ip)])%list)
             /\ sends (t1 ++ [Stdout ("Local IP: " ++ local_ip)]) = [echo_request]).
  { intros local_ip w1 t1 Hg.
    assert (Hd : truthy_str (wan_device conf) = true).
    { destruct (truthy_str (wan_device conf)) eqn:Hd; [reflexivity|].
      unfold get_local_ip, bind, assert in Hg. rewrite Hd in Hg. discriminate. }
    split.
    - rewrite (main_after_local_ip E conf w w1 local_ip t1 Hd Hg), Hr.
      cbn [main_domains]. unfold get_domain_data.
      rewrite (bind_raise _ _ _ _ _ _ _ (gandi_req_no_key E conf _ _ _ w1 Hk)).
      cbn [after_events]. now rewrite app_nil_r.
    - rewrite sends_app. cbn [sends]. rewrite app_nil_r.
      now apply get_local_ip_ok_requests in Hg. }
  split; [|split; [|exact H3]].
  - destruct (get_local_ip E conf w) as [[[lip|e] w1] t1] eqn:Hg.
    + destruct (H3 lip w1 t1 eq_refl) as [Hm _]. rewrite Hm. cbn. eauto.
    + unfold main. destruct (negb (truthy_str (wan_device conf))).
      * unfold die, bind, emit, raise, result_of. cbn. eauto.
      * rewrite bind_ret_l, (bind_raise _ _ _ _ _ _ _ Hg). cbn. eauto.
  - destruct (get_local_ip_requests E conf w) as (_ & Hs & _).
    destruct (get_local_ip E conf w) as [[[lip|e] w1] t1] eqn:Hg.
    + destruct (H3 lip w1 t1 eq_refl) as [Hm Hs']. rewrite Hm.
      right. exact Hs'.
    + unfold main. destruct (negb (truthy_str (wan_device conf))).
      * unfold die, bind, emit, raise, trace_of. cbn. auto.
      * rewrite bind_ret_l, (bind_raise _ _ _ _ _ _ _ Hg). exact Hs.
Qed.

(** ** What ends a run before the records *)

(** X10.  With a configuration whose device name is missing or empty the
    program exits with status 1 and a message on the error stream before
    it does anything else: no command, no request. *)
Theorem missing_wan_device_exits_first (D : Disk) (E : Env) (paths : list string)
    (args_conf : option string) (c : Config) (w : World E) :
  load_global_conf D paths args_conf = Loaded c ->
  truthy_str (wan_device c) = false ->
  main_cli D E paths args_conf w
  = Loaded (Raise (SystemExit 1), w,
            [Stderr "config default.wan_device must be specified"]).
Proof.
  intros Hl Hd. unfold main_cli. rewrite Hl. cbn [load_bind].
  unfold main. rewrite Hd. reflexivity.
Qed.

(** X11.  When the [ip] command runs (the name of the device has no NUL
    character) and prints text (its output is UTF-8) that shows no
    address for the device, the run ends with [AttributeError]; the echo
    service and the provider are never contacted. *)
Theorem no_address_on_device_is_fatal (E : Env) (conf : Config)
    (w w1 : World E) (out got : string) :
  truthy_str (wan_device conf) = true ->
  has_nul (wan_device conf) = false ->
  check_output E w ("ip addr show dev " ++ wan_device conf) = (Some out, w1) ->
  decode out = Some got ->
  re_search_inet got = None ->
  main E conf w
  = (Raise AttributeError, w1, [Shell ("ip addr show dev " ++ wan_device conf)]).
Proof.
  intros Hd Hn Hc Hdec Hre. unfold main. rewrite Hd. cbn [negb].
  rewrite bind_ret_l.
  assert (Hg : get_local_ip E conf w
               = (Raise AttributeError, w1, [Shell ("ip addr show dev " ++ wan_device conf)])).
  { unfold get_local_ip, assert. rewrite Hd, bind_ret_l.
    rewrite <- (ip_command_has_nul conf) in Hn.
    rewrite (bind_run _ _ _ _ _ _ _ (shell_output_run E _ _ _ _ Hn Hc)).
    unfold decoded_text. rewrite Hdec, bind_ret_l, Hre. reflexivity. }
  now rewrite (bind_raise _ _ _ _ _ _ _ Hg).
Qed.

(** X12.  The echo service is needed even though its answer is only
    compared: when the [ip] command ran and printed text that shows an
    address, and the echo service does not answer with a 2xx, the run ends
    with the exception of [urlopen], although the address of the
    interface is known, and the provider is never contacted. *)
Theorem echo_failure_is_fatal (E : Env) (conf : Config)
    (w w1 w2 : World E) (out got local_ip : string) (o : http_outcome) :
  truthy_str (wan_device conf) = true ->
  has_nul (wan_device conf) = false ->
  check_output E w ("ip addr show dev " ++ wan_device conf) = (Some out, w1) ->
  decode out = Some got ->
  re_search_inet got = Some local_ip ->
  urlopen E w1 echo_request = (o, w2) ->
  (forall b, o <> Http2xx b) ->
  main E conf w
  = (Raise match o with HTTPError c _ => HTTPErrorRaised c | _ => URLError end,
     w2,
     [Shell ("ip addr show dev " ++ wan_device conf); Send echo_request]).
Proof.
  intros Hd Hn Hc Hdec Hre Hu Ho. unfold main. rewrite Hd. cbn [negb].
  rewrite bind_ret_l.
  assert (Hg : get_local_ip E conf w
               = (Raise match o with HTTPError c _ => HTTPErrorRaised c | _ => URLError end,
                  w2,
                  [Shell ("ip addr show dev " ++ wan_device conf); Send echo_request])).
  { rewrite (get_local_ip_from_echo E conf w w1 out got local_ip Hd Hn Hc Hdec Hre).
    unfold bind, do_urlopen. fold echo_request. rewrite Hu.
    destruct o as [b|c b|]; [now elim (Ho b) | reflexivity | reflexivity]. }
  now rewrite (bind_raise _ _ _ _ _ _ _ Hg).
Qed.

(** X13.  A domain whose lookup gives a falsy payload, or an object without
    [zone_records_href], ends the run at that domain, with
    [AssertionError] or with [KeyError]: none of its records and none of
    the domains after it is processed. *)
Theorem domain_lookup_failure_ends_run (E : Env) (conf : Config)
    (local_ip d : string) (rs : list record) (ds : list (string * list record))
    (w w1 : World E) (dd : pyval) (t1 : list event) :
  get_domain_data E conf d w = (Ok dd, w1, t1) ->
  truthy dd = false
  \/ (exists kv, dd = PyDict kv /\ dict_lookup kv "zone_records_href" = None) ->
  main_domains E conf local_ip ((d, rs) :: ds) w
  = (Raise (if truthy dd then KeyError "zone_records_href" else AssertionError),
     w1, t1).
Proof.
  intros Hg H. cbn [main_domains]. rewrite (bind_run _ _ _ _ _ _ _ Hg).
  destruct (truthy dd) eqn:Ht.
  - destruct H as [H|(kv & -> & Hl)]; [discriminate|].
    unfold bind at 1, assert. unfold ret at 1.
    unfold bind at 1, subscript. rewrite Hl. unfold raise. cbn [after_events].
    now rewrite app_nil_r.
  - unfold bind at 1, assert. unfold raise. cbn [after_events].
    now rewrite app_nil_r.
Qed.

(** ** The resolution step again *)

(** X14.  Resolving is idempotent: a record that went through lines
    228-233 is left as it is by a second pass with the same address and
    domain. *)
Theorem resolve_idempotent (local_ip domain : string) (r : record) :
  resolve local_ip domain (resolve local_ip domain r)
  = resolve local_ip domain r.
Proof.
  unfold resolve. destruct r as [t n [[|v vs]|]]; cbn;
    destruct (t =? "PTR") eqn:Ht; cbn; rewrite ?Ht; reflexivity.
Qed.

(** X15.  A record that is not a PTR record and comes with at least one
    value is not touched by the resolution step: the address of the host
    never replaces values the file gives. *)
Theorem supplied_values_kept (local_ip domain : string) (r : record)
    (v : string) (vs : list string) :
  type r <> "PTR" ->
  val r = Some (v :: vs) ->
  resolve local_ip domain r = r.
Proof.
  intros Ht Hv. apply String.eqb_neq in Ht. unfold resolve. rewrite Hv. cbn.
  now rewrite Ht.
Qed.

(** ** [print_records] *)

(** X16.  [print_records] only reads: it sends at most two requests, the
    lookup of the domain and then one GET, both without a body. *)
Theorem print_records_only_reads (E : Env) (conf : Config)
    (pformat : pyval -> string) (domain : string) (w : World E) :
  let q := sends (trace_of (print_records E conf pformat domain w)) in
  let lookup := mkRequest ("https://dns.api.gandi.net/api/v5/domains/" ++ domain)
                  PyNone (req_headers E conf) "GET" in
  q = [] \/ q = [lookup]
  \/ exists u, q = [lookup; mkRequest u PyNone (req_headers E conf) "GET"].
Proof.
  intros q lookup. subst q. unfold print_records, get_domain_data.
  assert (Hq : forall u w0,
             sends (trace_of (gandi_req E conf u PyNone "GET" w0)) = []
             \/ sends (trace_of (gandi_req E conf u PyNone "GET" w0))
                = [mkRequest u PyNone (req_headers E conf) "GET"]).
  { intros u w0.
    destruct (gandi_req_cases E conf u PyNone "GET" w0) as [-> | [-> | (_ & _ & ->)]];
      [left; reflexivity | left; reflexivity |].
    right. unfold trace_of. cbn [snd sends].
    now destruct (reply_log_quiet u
      (fst (urlopen E w0 (mkRequest u PyNone (req_headers E conf) "GET")))) as (_ & _ & ->). }
  rewrite trace_of_bind.
  pose proof (Hq ("https://dns.api.gandi.net/api/v5/domains/" ++ domain) w) as H1.
  fold lookup in H1. unfold trace_of in H1.
  destruct (gandi_req E conf ("https://dns.api.gandi.net/api/v5/domains/" ++ domain)
              PyNone "GET" w) as [[[dd|e] w1] t1] eqn:Hg; cbn [snd] in H1;
    [|destruct H1 as [H1|H1]; rewrite H1; auto].
  destruct (gandi_req_ok_requests E conf _ _ _ _ _ Hg) as [Hlen _].
  destruct H1 as [H1|H1]; [rewrite H1 in Hlen; discriminate|].
  rewrite sends_app, H1. cbn [app].
  unfold subscript.
  destruct dd as [| | | | |kv]; try (right; left; reflexivity).
  destruct (dict_lookup kv "zone_records_href") as [z|]; [|right; left; reflexivity].
  rewrite bind_ret_l, trace_of_bind.
  pose proof (Hq (py_str z) w1) as H2. unfold trace_of in H2.
  destruct (gandi_req E conf (py_str z) PyNone "GET" w1) as [[[v|e] w2] t2];
    cbn [snd] in H2.
  - rewrite sends_app. destruct H2 as [H2|H2]; rewrite H2.
    + right; left. reflexivity.
    + right; right. exists (py_str z). reflexivity.
  - destruct H2 as [H2|H2]; rewrite H2.
    + right; left. reflexivity.
    + right; right. exists (py_str z). reflexivity.
Qed.

(** ** The pattern of line 173 *)

Lemma string_app_assoc (a b c : string) : (a ++ b) ++ c = a ++ (b ++ c).
Proof. induction a as [|x a IH]; cbn; [reflexivity | now rewrite IH]. Qed.

Lemma strip_prefix_spec (p s r : string) :
  strip_prefix p s = Some r -> s = p ++ r.
Proof.
  revert s. induction p as [|a p IH]; intros s H.
  - cbn in H. now injection H as ->.
  - destruct s as [|b s]; [discriminate|]. cbn in H.
    destruct (Ascii.eqb a b) eqn:Hab; [|discriminate].
    apply Ascii.eqb_eq in Hab. subst b. cbn. f_equal. now apply IH.
Qed.

Lemma is_digit_not_slash (c : ascii) :
  is_digit c = true -> (c =? "/")%char = false.
Proof.
  intros H. destruct (Ascii.eqb c "/") eqn:Hc; [|reflexivity].
  apply Ascii.eqb_eq in Hc. subst c. discriminate.
Qed.

Lemma take_digits_spec (k : nat) (s d r : string) :
  take_digits k s = (d, r) ->
  s = d ++ r /\ contains_char "/" d = false
  /\ (d = "" \/ exists c d', d = String c d' /\ is_digit c = true).
Proof.
  revert s d r. induction k as [|k IH]; intros s d r H.
  - cbn in H. injection H as <- <-. auto.
  - destruct s as [|c s]; cbn in H; [injection H as <- <-; auto|].
    destruct (is_digit c) eqn:Hc; [|injection H as <- <-; auto].
    destruct (take_digits k s) as [d0 r0] eqn:Ht. injection H as <- <-.
    destruct (IH _ _ _ Ht) as (-> & Hn & _).
    split; [reflexivity|]. split.
    + cbn. now rewrite (is_digit_not_slash c Hc).
    + right. eauto.
Qed.

Lemma match_octet_dot_spec (s a r : string) :
  match_octet_dot s = Some (a, r) ->
  s = a ++ r /\ contains_char "/" a = false
  /\ exists c a', a = String c a' /\ is_digit c = true.
Proof.
  unfold match_octet_dot. intros H.
  destruct (take_digits 3 s) as [d r0] eqn:Ht.
  destruct (take_digits_spec _ _ _ _ Ht) as (-> & Hn & Hd).
  destruct d as [|c d]; [discriminate|].
  destruct r0 as [|x r0]; [discriminate|].
  destruct (Ascii.eqb x ".") eqn:Hx; [|discriminate].
  apply Ascii.eqb_eq in Hx. subst x. injection H as <- <-.
  split; [cbn; f_equal; now rewrite string_app_assoc|]. split.
  - change (contains_char "/" (String c d ++ ".") = false).
    now rewrite contains_char_app, Hn.
  - destruct Hd as [Hd|(c' & d' & Hd & Hc)]; [discriminate|].
    injection Hd as <- <-. cbn. eauto.
Qed.

Lemma take_until_slash_spec (s : string) :
  exists post,
    s = take_until_slash s ++ post
    /\ contains_char "/" (take_until_slash s) = false
    /\ (post = "" \/ exists p, post = String "/" p).
Proof.
  induction s as [|c s (post & Hs & Hn & Hp)].
  - exists "". auto.
  - cbn. destruct (Ascii.eqb c "/") eqn:Hc.
    + apply Ascii.eqb_eq in Hc. subst c. exists (String "/" s). cbn. eauto.
    + exists post. cbn. rewrite Hc, Hn. split; [now f_equal | auto].
Qed.

Lemma match_inet_spec (s g : string) :
  match_inet s = Some g ->
  exists post,
    s = "inet " ++ g ++ post
    /\ contains_char "/" g = false
    /\ (post = "" \/ exists p, post = String "/" p)
    /\ exists c g', g = String c g' /\ is_digit c = true.
Proof.
  unfold match_inet. intros H.
  destruct (strip_prefix "inet " s) as [s1|] eqn:H0; [|discriminate].
  apply strip_prefix_spec in H0. subst s.
  destruct (match_octet_dot s1) as [[a s2]|] eqn:H1; [|discriminate].
  destruct (match_octet_dot s2) as [[b s3]|] eqn:H2; [|discriminate].
  destruct (match_octet_dot s3) as [[c s4]|] eqn:H3; [|discriminate].
  destruct (match_octet_dot_spec _ _ _ H1) as (-> & Ha & (x & a' & -> & Hx)).
  destruct (match_octet_dot_spec _ _ _ H2) as (-> & Hb & _).
  destruct (match_octet_dot_spec _ _ _ H3) as (-> & Hc & _).
  destruct (take_until_slash_spec s4) as (post & Hs & Hn & Hp).
  destruct (take_until_slash s4) as [|y t] eqn:Ht; [discriminate|].
  injection H as <-. exists post. split.
  - rewrite Hs at 1. cbn. do 6 f_equal. now rewrite !string_app_assoc.
  - split; [|split; [assumption|]].
    + change (contains_char "/" (String x a' ++ b ++ c ++ String y t) = false).
      now rewrite !contains_char_app, Ha, Hb, Hc, Hn.
    + eauto.
Qed.

(** X17.  What the pattern captures is the text that stands in the output
    between an occurrence of [inet ] and the next slash, or the end when
    there is no slash after it; it begins with a digit and has no slash. *)
Theorem re_search_inet_capture (s g : string) :
  re_search_inet s = Some g ->
  exists pre post,
    s = pre ++ "inet " ++ g ++ post
    /\ contains_char "/" g = false
    /\ (post = "" \/ exists p, post = String "/" p)
    /\ exists c g', g = String c g' /\ is_digit c = true.
Proof.
  induction s as [|x s IH]; intros H.
  - discriminate.
  - cbn [re_search_inet] in H.
    destruct (match_inet (String x s)) as [g0|] eqn:Hm.
    + injection H as ->. destruct (match_inet_spec _ _ Hm) as (post & Hs & Hrest).
      exists "", post. split; [exact Hs | exact Hrest].
    + destruct (IH H) as (pre & post & -> & Hrest).
      exists (String x pre), post. split; [reflexivity | exact Hrest].
Qed.

(** ** [strip], [upper] and [lower] *)

Lemma rstrip_idempotent (s : string) : rstrip (rstrip s) = rstrip s.
Proof.
  induction s as [|c s IH]; [reflexivity|].
  cbn [rstrip]. destruct (rstrip s) as [|d r] eqn:Hr.
  - destruct (is_space c) eqn:Hc; [reflexivity|]. cbn. now rewrite Hc.
  - change (match rstrip (String d r) with
            | EmptyString => if is_space c then "" else String c ""
            | String _ _ as r0 => String c r0
            end = String c (String d r)).
    now rewrite IH.
Qed.

Lemma rstrip_head (c : ascii) (s : string) :
  rstrip (String c s) = "" \/ exists t, rstrip (String c s) = String c t.
Proof.
  cbn [rstrip]. destruct (rstrip s) as [|d r]; [|eauto].
  destruct (is_space c); eauto.
Qed.

Lemma lstrip_head (s : string) :
  lstrip s = "" \/ exists c t, lstrip s = String c t /\ is_space c = false.
Proof.
  induction s as [|c s IH]; [now left|].
  cbn [lstrip]. destruct (is_space c) eqn:Hc; [exact IH | right; eauto].
Qed.

Lemma strip_idempotent (s : string) : strip (strip s) = strip s.
Proof.
  unfold strip. destruct (lstrip_head s) as [->|(c & t & -> & Hc)]; [reflexivity|].
  destruct (rstrip_head c t) as [->|[u Hu]]; [reflexivity|].
  rewrite Hu. cbn [lstrip]. rewrite Hc. rewrite <- Hu. apply rstrip_idempotent.
Qed.

Lemma upper_char_idempotent (c : ascii) : upper_char (upper_char c) = upper_char c.
Proof.
  destruct c as [[] [] [] [] [] [] [] []]; reflexivity.
Qed.

Lemma lower_char_idempotent (c : ascii) : lower_char (lower_char c) = lower_char c.
Proof.
  destruct c as [[] [] [] [] [] [] [] []]; reflexivity.
Qed.

Lemma upper_idempotent (s : string) : upper (upper s) = upper s.
Proof.
  unfold upper. induction s as [|c s IH]; cbn; [reflexivity|].
  now rewrite upper_char_idempotent, IH.
Qed.

Lemma lower_idempotent (s : string) : lower (lower s) = lower s.
Proof.
  unfold lower. induction s as [|c s IH]; cbn; [reflexivity|].
  now rewrite lower_char_idempotent, IH.
Qed.

(** ** [csv.reader] on lines without quotes *)

Lemma is_comma_eqb (c : ascii) : is_comma c = (c =? ",")%char.
Proof. destruct c as [[] [] [] [] [] [] [] []]; reflexivity. Qed.

Lemma csv_chars_app (st : csv_state) (fields : list string) (field a b : string) :
  csv_chars st fields field (a ++ b)
  = match csv_chars st fields field a with
    | Some (st', fields', field') => csv_chars st' fields' field' b
    | None => None
    end.
Proof.
  revert st fields field. induction a as [|c a IH]; intros st fields field.
  - reflexivity.
  - cbn [append csv_chars].
    destruct st; repeat match goal with
                        | |- context [if ?x then _ else _] => destruct x
                        end; try apply IH; reflexivity.
Qed.

Lemma string_app_nil_r (s : string) : s ++ "" = s.
Proof. induction s as [|c s IH]; cbn; [reflexivity | now rewrite IH]. Qed.

(** The fields of a line without quotes and line ends: the pieces
    between the commas. *)
Lemma csv_chars_plain (s : string) :
  all_chars plain_char s = true ->
  (forall fields field,
     exists st fields' field',
       csv_chars IN_FIELD fields field s = Some (st, fields', field')
       /\ (st = IN_FIELD \/ st = START_FIELD)
       /\ csv_end st fields' field'
          = (fields ++ match split_on "," s with
                       | x :: xs => (field ++ x)%string :: xs
                       | [] => [field]
                       end)%list)
  /\ (forall fields,
        exists st fields' field',
          csv_chars START_FIELD fields "" s = Some (st, fields', field')
          /\ (st = IN_FIELD \/ st = START_FIELD)
          /\ csv_end st fields' field' = (fields ++ split_on "," s)%list).
Proof.
  induction s as [|c s IH]; intros Hp.
  - split.
    + intros fields field. exists IN_FIELD, fields, field. cbn.
      split; [reflexivity|]. split; [auto|]. now rewrite string_app_nil_r.
    + intros fields. exists START_FIELD, fields, "". cbn. auto.
  - cbn [all_chars] in Hp. apply andb_true_iff in Hp as [Hc Hp].
    unfold plain_char in Hc. apply andb_true_iff in Hc as [Hq Hn].
    apply negb_true_iff in Hq, Hn.
    destruct (IH Hp) as [IHin IHstart].
    assert (Hin : forall fields field,
      exists st fields' field',
        csv_chars IN_FIELD fields field (String c s) = Some (st, fields', field')
        /\ (st = IN_FIELD \/ st = START_FIELD)
        /\ csv_end st fields' field'
           = (fields ++ match split_on "," (String c s) with
                        | x :: xs => (field ++ x)%string :: xs
                        | [] => [field]
                        end)%list).
    { intros fields field. cbn [csv_chars split_on]. rewrite Hn.
      rewrite <- is_comma_eqb. destruct (is_comma c).
      - destruct (IHstart (fields ++ [field])%list) as (st & fs & f & -> & Hst & He).
        exists st, fs, f. split; [reflexivity|]. split; [assumption|].
        rewrite He, <- app_assoc, string_app_nil_r. reflexivity.
      - destruct (IHin fields (add_char field c)) as (st & fs & f & -> & Hst & He).
        exists st, fs, f. split; [reflexivity|]. split; [assumption|].
        rewrite He. unfold add_char.
        destruct (split_on "," s) as [|x xs]; [reflexivity|].
        now rewrite string_app_assoc. }
    split; [exact Hin|].
    intros fields. cbn [csv_chars split_on]. rewrite Hn, Hq.
    rewrite <- is_comma_eqb. destruct (is_comma c) eqn:Hcomma.
    + destruct (IHstart (fields ++ [""])%list) as (st & fs & f & -> & Hst & He).
      exists st, fs, f. split; [reflexivity|]. split; [assumption|].
      rewrite He, <- app_assoc. reflexivity.
    + destruct (IHin fields (add_char "" c)) as (st & fs & f & -> & Hst & He).
      exists st, fs, f. split; [reflexivity|]. split; [assumption|].
      rewrite He. unfold add_char. cbn.
      destruct (split_on "," s) as [|x xs]; reflexivity.
Qed.

(** X18.  A line without double quotes and line ends splits at its
    commas, and each piece is stripped of the blanks around it; the empty
    line gives no field at all. *)
Theorem split_csv_line_plain (line : string) :
  all_chars plain_char line = true ->
  split_csv_line line
  = Some (if line =? "" then [] else map strip (split_on "," line)).
Proof.
  intros Hp. destruct line as [|c s]; [reflexivity|].
  cbn [String.eqb]. unfold split_csv_line, csv_row.
  assert (H : csv_chars START_RECORD [] "" (String c s)
              = csv_chars START_FIELD [] "" (String c s)).
  { cbn [all_chars] in Hp. apply andb_true_iff in Hp as [Hc _].
    unfold plain_char in Hc. apply andb_true_iff in Hc as [_ Hn].
    apply negb_true_iff in Hn. cbn [csv_chars]. now rewrite Hn. }
  rewrite H.
  destruct (csv_chars_plain (String c s) Hp) as [_ Hs].
  destruct (Hs []) as (st & fs & f & -> & _ & ->). reflexivity.
Qed.

(** X19.  Every field [split_csv_line] returns is stripped: stripping it
    again changes nothing. *)
Theorem split_csv_line_fields_stripped (line : string) (fields : list string) :
  split_csv_line line = Some fields ->
  Forall (fun f => strip f = f) fields.
Proof.
  unfold split_csv_line. destruct (csv_row line) as [row|]; [|discriminate].
  intros [= <-]. induction row as [|x row IH]; constructor; auto.
  apply strip_idempotent.
Qed.

(** X20.  A line end followed by more text, outside quotes, is an error of
    the CSV reader: a value that continues on a second line cannot be
    split. *)
Theorem split_csv_line_rejects_second_line (a b : string) (n c : ascii) :
  all_chars plain_char a = true ->
  is_newline n = true ->
  is_newline c = false ->
  split_csv_line (a ++ String n (String c b)) = None.
Proof.
  intros Hp Hn Hc. unfold split_csv_line, csv_row. rewrite csv_chars_app.
  assert (H : exists st fs f,
             csv_chars START_RECORD [] "" a = Some (st, fs, f)
             /\ (st = START_RECORD \/ st = IN_FIELD \/ st = START_FIELD)).
  { destruct a as [|x a]; [exists START_RECORD, [], ""; cbn; auto|].
    assert (H : csv_chars START_RECORD [] "" (String x a)
                = csv_chars START_FIELD [] "" (String x a)).
    { cbn [all_chars] in Hp. apply andb_true_iff in Hp as [Hx _].
      unfold plain_char in Hx. apply andb_true_iff in Hx as [_ Hx].
      apply negb_true_iff in Hx. cbn [csv_chars]. now rewrite Hx. }
    rewrite H. destruct (csv_chars_plain (String x a) Hp) as [_ Hs].
    destruct (Hs []) as (st & fs & f & -> & Hst & _). exists st, fs, f.
    split; [reflexivity | tauto]. }
  destruct H as (st & fs & f & -> & [ -> | [ -> | -> ] ]);
    cbn [csv_chars]; rewrite Hn; cbn [csv_chars]; now rewrite Hc.
Qed.

(** ** The loader *)

Lemma dict_set_in {V} (d : list (string * V)) (k : string) (v : V)
    (k' : string) (v' : V) :
  In (k', v') (dict_set d k v) -> (k' = k /\ v' = v) \/ In (k', v') d.
Proof.
  induction d as [|[k0 v0] d IH]; cbn.
  - intros [[= <- <-]|[]]. now left.
  - destruct (k0 =? k) eqn:Hk.
    + apply String.eqb_eq in Hk. subst k0.
      intros [[= <- <-]|H]; [now left | right; now right].
    + intros [H|H]; [right; now left|].
      destruct (IH H) as [?|?]; [now left | right; now right].
Qed.

Lemma dict_set_twice {V} (d : list (string * V)) (k : string) (v1 v2 : V) :
  dict_set (dict_set d k v1) k v2 = dict_set d k v2.
Proof.
  induction d as [|[k0 v0] d IH]; cbn.
  - now rewrite String.eqb_refl.
  - destruct (k0 =? k) eqn:Hk; cbn; rewrite Hk; [reflexivity | now rewrite IH].
Qed.

(** What [parse_record] gives, when it gives a record. *)
Lemma parse_record_loaded (reckey : string) (v : option string) (r : record) :
  parse_record reckey v = Loaded r ->
  exists rectype recname,
    split_csv_line reckey = Some [rectype; recname]
    /\ type r = upper rectype /\ name r = recname
    /\ val r = (if truthy_optstr v
                then split_csv_line match v with Some s => s | None => "" end
                else None).
Proof.
  unfold parse_record.
  destruct (split_csv_line reckey) as [[|t [|n [|x l]]]|]; try discriminate.
  intros H. exists t, n. split; [reflexivity|].
  destruct (truthy_optstr v).
  - destruct (split_csv_line match v with Some s => s | None => "" end) as [vals|];
      [|discriminate].
    injection H as <-. cbn. auto.
  - injection H as <-. cbn. auto.
Qed.

Lemma section_records_loaded (items : list (string * option string))
    (rs : list record) :
  section_records items = Loaded rs ->
  Forall2 (fun item r => parse_record (fst item) (snd item) = Loaded r) items rs.
Proof.
  revert rs. induction items as [|[k v] items IH]; intros rs H.
  - cbn in H. injection H as <-. constructor.
  - cbn [section_records] in H.
    destruct (parse_record k v) as [r| |] eqn:Hr; try discriminate. cbn [load_bind] in H.
    destruct (section_records items) as [rs0| |]; try discriminate.
    cbn [load_bind] in H. injection H as <-. constructor; auto.
Qed.

Lemma parse_record_normal (reckey : string) (v : option string) (r : record) :
  parse_record reckey v = Loaded r -> normal_record r.
Proof.
  intros H. destruct (parse_record_loaded _ _ _ H) as (t & n & Hk & Ht & Hn & Hv).
  apply split_csv_line_fields_stripped in Hk.
  apply Forall_inv_tail in Hk. apply Forall_inv in Hk.
  split; [rewrite Ht; apply upper_idempotent|].
  split; [now rewrite Hn|].
  intros l Hl. rewrite Hl in Hv. destruct (truthy_optstr v); [|discriminate].
  symmetry in Hv. now apply split_csv_line_fields_stripped in Hv.
Qed.

Lemma load_sections_invariant (P : string -> list record -> Prop) (cp : ini)
    (recs out : list (string * list record)) :
  (forall n items rs,
     In (n, items) cp -> (lower n =? "default") = false ->
     section_records items = Loaded rs -> P (lower n) rs) ->
  (forall d rs, In (d, rs) recs -> P d rs) ->
  load_sections cp recs = Loaded out ->
  forall d rs, In (d, rs) out -> P d rs.
Proof.
  revert recs. induction cp as [|[n items] cp IH]; intros recs Hnew Hold H.
  - cbn in H. now injection H as <-.
  - cbn [load_sections] in H. destruct (lower n =? "default") eqn:Hd.
    + apply (IH recs); auto. intros; eapply Hnew; eauto. now right.
    + destruct (section_records items) as [rs0| |] eqn:Hs; try discriminate.
      cbn [load_bind] in H.
      apply (IH (dict_set recs (lower n) rs0)); auto.
      * intros; eapply Hnew; eauto. now right.
      * intros d rs Hin. apply dict_set_in in Hin as [[-> ->]|Hin]; auto.
        apply (Hnew n items); auto. now left.
Qed.

Lemma config_of_ini_records (cp : ini) (c : Config) :
  config_of_ini cp = Loaded c ->
  load_sections cp [] = Loaded (records c).
Proof.
  unfold config_of_ini.
  destruct (cp_get cp "default" "wan_device") as [wan| |]; try discriminate.
  cbn [load_bind]. destruct (load_sections cp []) as [recs| |]; try discriminate.
  cbn [load_bind]. now intros [= <-].
Qed.

(** X21.  In a configuration that loaded, every domain is in lower case
    and is not [default], every record type is in upper case, and every
    record name and value is stripped. *)
Theorem loaded_config_is_normalised (cp : ini) (c : Config) :
  config_of_ini cp = Loaded c ->
  forall d rs,
    In (d, rs) (records c) ->
    lower d = d /\ d <> "default"
    /\ Forall (fun r =>
                 upper (type r) = type r
                 /\ strip (name r) = name r
                 /\ forall l, val r = Some l -> Forall (fun v => strip v = v) l)
         rs.
Proof.
  intros H. apply config_of_ini_records in H.
  apply (load_sections_invariant
           (fun d rs => lower d = d /\ d <> "default" /\ Forall normal_record rs)
           cp [] (records c)); [| intros ? ? [] | exact H].
  intros n items rs _ Hd Hs. split; [apply lower_idempotent|].
  split; [now apply String.eqb_neq|].
  apply section_records_loaded in Hs.
  induction Hs as [|item r items' rs' Hr _ IH]; constructor; auto.
  now apply parse_record_normal in Hr.
Qed.

(** X22.  A configuration loads only if every key of every section other
    than [default] splits into exactly two fields, the type and the name. *)
Theorem loaded_config_keys_have_two_fields (cp : ini) (c : Config) :
  config_of_ini cp = Loaded c ->
  forall n items reckey v,
    In (n, items) cp -> lower n <> "default" -> In (reckey, v) items ->
    exists rectype recname, split_csv_line reckey = Some [rectype; recname].
Proof.
  intros H. apply config_of_ini_records in H. revert H.
  generalize (@nil (string * list record)) as recs. generalize (records c) as out.
  induction cp as [|[n0 items0] cp IH]; intros out recs H n items reckey v Hin Hn Hk.
  - destruct Hin.
  - cbn [load_sections] in H. destruct (lower n0 =? "default") eqn:Hd.
    + destruct Hin as [[= -> ->]|Hin]; [apply String.eqb_eq in Hd; contradiction|].
      eapply IH; eauto.
    + destruct (section_records items0) as [rs0| |] eqn:Hs; try discriminate.
      cbn [load_bind] in H.
      destruct Hin as [[= -> ->]|Hin]; [|eapply IH; eauto].
      apply section_records_loaded in Hs. clear H IH.
      induction Hs as [|item r items' rs' Hr _ IH']; [destruct Hk|].
      destruct Hk as [Hk|Hk]; [subst item|auto].
      cbn [fst snd] in Hr. apply parse_record_loaded in Hr as (t & m & Hr & _).
      eauto.
Qed.

(** X23.  A key whose value is blank gives a record without values, and
    the resolution step then fills in the address of the host, unless the
    record is a PTR record. *)
Theorem blank_value_is_filled_with_local_ip (reckey : string) (v : option string)
    (r : record) (local_ip domain : string) :
  parse_record reckey v = Loaded r ->
  v = None \/ v = Some "" ->
  type r <> "PTR" ->
  val r = None /\ val (resolve local_ip domain r) = Some [local_ip].
Proof.
  intros H Hv Ht.
  destruct (parse_record_loaded _ _ _ H) as (t & n & _ & _ & _ & Hval).
  assert (Hb : truthy_optstr v = false) by (destruct Hv as [->| ->]; reflexivity).
  rewrite Hb in Hval. split; [assumption|].
  unfold resolve. rewrite Hval. cbn [pyval_of_val truthy negb type].
  apply String.eqb_neq in Ht. now rewrite Ht.
Qed.

Lemma load_sections_app (cp1 cp2 : ini) (recs out : list (string * list record)) :
  load_sections (cp1 ++ cp2)%list recs = Loaded out ->
  exists half,
    load_sections cp1 recs = Loaded half /\ load_sections cp2 half = Loaded out.
Proof.
  revert recs. induction cp1 as [|[n items] cp1 IH]; intros recs H.
  - exists recs. auto.
  - cbn [app load_sections] in *. destruct (lower n =? "default"); [now apply IH|].
    destruct (section_records items) as [rs| |]; try discriminate.
    cbn [load_bind] in *. now apply IH.
Qed.

Lemma dict_set_has {V} (d : list (string * V)) (k : string) (v : V) :
  In (k, v) (dict_set d k v).
Proof.
  induction d as [|[k0 v0] d IH]; cbn; [now left|].
  destruct (k0 =? k) eqn:Hk.
  - apply String.eqb_eq in Hk. subst k0. now left.
  - now right.
Qed.

Lemma dict_set_other {V} (d : list (string * V)) (k k' : string) (v v' : V) :
  k <> k' -> In (k, v) d -> In (k, v) (dict_set d k' v').
Proof.
  intros Hne. induction d as [|[k0 v0] d IH]; cbn; [intros []|].
  destruct (k0 =? k') eqn:Hk.
  - apply String.eqb_eq in Hk. subst k0.
    intros [[= <- <-]|H]; [now elim Hne | now right].
  - intros [H|H]; [now left | right; auto].
Qed.

Lemma dict_set_keys {V} (d : list (string * V)) (k : string) (v : V) (k' : string) :
  In k' (map fst (dict_set d k v)) -> k' = k \/ In k' (map fst d).
Proof.
  induction d as [|[k0 v0] d IH]; cbn.
  - intros [<-|[]]. now left.
  - destruct (k0 =? k) eqn:Hk; cbn.
    + intros [<-|H]; right; [now left | now right].
    + intros [<-|H]; [right; now left|].
      destruct (IH H) as [->|H']; [now left | right; now right].
Qed.

Lemma dict_set_nodup {V} (d : list (string * V)) (k : string) (v : V) :
  NoDup (map fst d) -> NoDup (map fst (dict_set d k v)).
Proof.
  induction d as [|[k0 v0] d IH]; cbn; intros H.
  - constructor; [intros [] | constructor].
  - inversion H as [|? ? Hnot Hnd]; subst.
    destruct (k0 =? k) eqn:Hk; cbn; [now constructor|].
    constructor; [|now apply IH].
    intros Hin. apply dict_set_keys in Hin as [->|Hin]; [|contradiction].
    now rewrite String.eqb_refl in Hk.
Qed.

Lemma load_sections_nodup (cp : ini) (recs out : list (string * list record)) :
  load_sections cp recs = Loaded out ->
  NoDup (map fst recs) -> NoDup (map fst out).
Proof.
  revert recs. induction cp as [|[n items] cp IH]; intros recs H Hnd.
  - cbn in H. now injection H as <-.
  - cbn [load_sections] in H. destruct (lower n =? "default"); [now apply (IH recs)|].
    destruct (section_records items) as [rs| |]; try discriminate.
    cbn [load_bind] in H. apply (IH _ H). now apply dict_set_nodup.
Qed.

(** A domain keeps its records across the sections that have another
    name. *)
Lemma load_sections_keeps (cp : ini) (recs out : list (string * list record))
    (k : string) (v : list record) :
  load_sections cp recs = Loaded out ->
  (forall s, In s cp -> lower (fst s) <> k) ->
  In (k, v) recs -> In (k, v) out.
Proof.
  revert recs. induction cp as [|[n items] cp IH]; intros recs H Hother Hin.
  - cbn in H. now injection H as <-.
  - cbn [load_sections] in H.
    assert (Hcp : forall s, In s cp -> lower (fst s) <> k)
      by (intros s Hs; apply Hother; now right).
    destruct (lower n =? "default"); [now apply (IH recs)|].
    destruct (section_records items) as [rs| |]; try discriminate.
    cbn [load_bind] in H. apply (IH _ H Hcp).
    apply dict_set_other; [|assumption].
    intros Heq. apply (Hother (n, items)); [now left | now symmetry].
Qed.

Lemma nodup_keys_functional {V} (d : list (string * V)) (k : string) (v1 v2 : V) :
  NoDup (map fst d) -> In (k, v1) d -> In (k, v2) d -> v1 = v2.
Proof.
  induction d as [|[k0 v0] d IH]; cbn; intros Hnd H1 H2; [destruct H1|].
  inversion Hnd as [|? ? Hnot Hnd']; subst.
  destruct H1 as [E1|H1]; destruct H2 as [E2|H2].
  - congruence.
  - injection E1 as -> ->. elim Hnot. exact (in_map fst _ _ H2).
  - injection E2 as -> ->. elim Hnot. exact (in_map fst _ _ H1).
  - auto.
Qed.

(** X24.  When the file loads, a domain has the records of the last
    section that bears its name, whatever the case of the letters:
    wherever two sections whose names differ only in case stand in the
    file, the configuration lists the domain with the records of the keys
    of the later one and with no others, provided no section after it has
    that name again. *)
Theorem later_section_replaces_same_domain (pre mid post : ini) (n1 n2 : string)
    (items1 items2 : list (string * option string)) (c : Config) :
  config_of_ini (pre ++ (n1, items1) :: mid ++ (n2, items2) :: post)%list = Loaded c ->
  lower n1 = lower n2 ->
  lower n2 <> "default" ->
  (forall s, In s post -> lower (fst s) <> lower n2) ->
  exists rs2,
    section_records items2 = Loaded rs2
    /\ In (lower n2, rs2) (records c)
    /\ forall rs, In (lower n1, rs) (records c) -> rs = rs2.
Proof.
  intros H Hn Hd Hpost. apply config_of_ini_records in H.
  assert (Hnd : NoDup (map fst (records c))).
  { apply (load_sections_nodup _ _ _ H). constructor. }
  change (pre ++ (n1, items1) :: mid ++ (n2, items2) :: post)%list
    with (pre ++ ((n1, items1) :: mid) ++ (n2, items2) :: post)%list in H.
  rewrite app_assoc in H.
  apply load_sections_app in H as (half & _ & H).
  cbn [load_sections] in H. apply String.eqb_neq in Hd. rewrite Hd in H.
  destruct (section_records items2) as [rs2| |]; try discriminate.
  cbn [load_bind] in H. exists rs2. split; [reflexivity|].
  assert (Hin : In (lower n2, rs2) (records c)).
  { apply (load_sections_keeps _ _ _ _ _ H Hpost). apply dict_set_has. }
  split; [exact Hin|].
  intros rs Hrs. rewrite Hn in Hrs.
  exact (nodup_keys_functional _ _ _ _ Hnd Hrs Hin).
Qed.

(** X25.  A configuration loads only if the parsed file has a section
    [default] with a key [wan_device]; the notify script and the API key
    may be missing and are then [None]. *)
Theorem wan_device_is_required (cp : ini) (c : Config) :
  config_of_ini cp = Loaded c ->
  (exists items v,
     ini_section cp "default" = Some items
     /\ item_lookup items "wan_device" = Some v
     /\ wan_device c = match v with Some s => s | None => "" end)
  /\ notify_script c = cp_get_fallback cp "default" "notify_script"
  /\ gandi_api_key c = cp_get_fallback cp "default" "gandi_api_key".
Proof.
  unfold config_of_ini, cp_get at 1.
  destruct (ini_section cp "default") as [items|]; [|discriminate].
  destruct (item_lookup items "wan_device") as [v|] eqn:Hv; [|discriminate].
  cbn [load_bind]. destruct (load_sections cp []) as [recs| |]; try discriminate.
  cbn [load_bind]. intros [= <-]. cbn [wan_device notify_script gandi_api_key].
  split; [|split; reflexivity]. exists items, v. auto.
Qed.

Lemma dict_set_fresh {V} (d : list (string * V)) (k : string) (v : V) :
  ~ In k (map fst d) -> dict_set d k v = (d ++ [(k, v)])%list.
Proof.
  induction d as [|[k0 v0] d IH]; cbn; intros H; [reflexivity|].
  destruct (k0 =? k) eqn:Hk.
  - apply String.eqb_eq in Hk. tauto.
  - f_equal. apply IH. tauto.
Qed.

Lemma load_sections_fresh (cp : ini) (recs out : list (string * list record)) :
  load_sections cp recs = Loaded out ->
  NoDup (map (fun s => lower (fst s)) (domain_sections cp)) ->
  (forall s, In s (domain_sections cp) -> ~ In (lower (fst s)) (map fst recs)) ->
  exists new,
    out = (recs ++ new)%list
    /\ Forall2 (fun s drs => fst drs = lower (fst s)
                            /\ section_records (snd s) = Loaded (snd drs))
         (domain_sections cp) new.
Proof.
  revert recs. induction cp as [|[n items] cp IH]; intros recs H Hnd Hfresh.
  - cbn in H. injection H as <-. exists []. rewrite app_nil_r. split; [reflexivity|constructor].
  - cbn [load_sections] in H. unfold domain_sections in *. cbn [filter fst] in *.
    destruct (lower n =? "default") eqn:Hd; cbn [negb] in *.
    + now apply IH.
    + destruct (section_records items) as [rs| |] eqn:Hs; try discriminate.
      cbn [load_bind] in H. cbn [map fst] in Hnd. inversion Hnd as [|? ? Hnotin Hnd']; subst.
      rewrite dict_set_fresh in H by (apply (Hfresh (n, items)); now left).
      destruct (IH _ H Hnd') as (new & -> & Hnew).
      * intros s Hin Hc. rewrite map_app, in_app_iff in Hc. cbn in Hc.
        destruct Hc as [Hc|[Hc|[]]].
        -- apply (Hfresh s); [now right | assumption].
        -- apply Hnotin. rewrite Hc. now apply (in_map (fun s => lower (fst s))).
      * exists ((lower n, rs) :: new). rewrite <- app_assoc. split; [reflexivity|].
        constructor; auto.
Qed.

(** X26.  When no two sections have the same name up to the case of the
    letters, the domains of a loaded configuration are the sections other
    than [default], in the order of the file, and the records of a domain
    are the keys of its section, in their order. *)
Theorem one_domain_per_section_in_order (cp : ini) (c : Config) :
  config_of_ini cp = Loaded c ->
  NoDup (map (fun s => lower (fst s)) (domain_sections cp)) ->
  Forall2 (fun s drs =>
             fst drs = lower (fst s)
             /\ Forall2 (fun item r => parse_record (fst item) (snd item) = Loaded r)
                  (snd s) (snd drs))
    (domain_sections cp) (records c).
Proof.
  intros H Hnd. apply config_of_ini_records in H.
  assert (Hfresh : forall s, In s (domain_sections cp) ->
                             ~ In (lower (fst s)) (map fst (@nil (string * list record))))
    by (intros s _ []).
  destruct (load_sections_fresh cp [] (records c) H Hnd Hfresh) as (new & -> & Hnew).
  cbn [app]. eapply Forall2_impl; [|exact Hnew].
  intros s drs [Hn Hs]. split; [assumption | now apply section_records_loaded].
Qed.

(** ** The search for the configuration file (lines 202-214) *)

Lemma search_config_none (D : Disk) (paths : list string) (cur : Config) (f : bool) :
  (forall q, In q paths -> path_exists D q = false) ->
  search_config D paths cur f = Loaded (cur, f).
Proof.
  induction paths as [|p paths IH]; intros H; [reflexivity|].
  cbn [search_config]. rewrite (H p) by now left.
  apply IH. intros q Hq. apply H. now right.
Qed.

Lemma search_config_skip (D : Disk) (pre rest : list string) (cur : Config) (f : bool) :
  (forall q, In q pre -> path_exists D q = true ->
             exists c, get_config D None (Some q) = Loaded c) ->
  exists cur' f', search_config D (pre ++ rest) cur f = search_config D rest cur' f'.
Proof.
  revert cur f. induction pre as [|p pre IH]; intros cur f H; [cbn; eauto|].
  cbn [app search_config]. destruct (path_exists D p) eqn:Hp.
  - destruct (H p (or_introl eq_refl) Hp) as [c ->]. cbn [load_bind].
    apply IH. intros q Hq. apply H. now right.
  - apply IH. intros q Hq. apply H. now right.
Qed.

(** X27.  The loop over the search path has no [break]: every file that
    exists is loaded, and the configuration of the run is the one of the
    last file that exists, so that the file under [/etc] wins over the
    one under the home directory and over the one of the environment. *)
Theorem last_existing_file_wins (D : Disk) (pre post : list string) (p : string) :
  path_exists D p = true ->
  (forall q, In q post -> path_exists D q = false) ->
  (forall q, In q pre -> path_exists D q = true ->
             exists c, get_config D None (Some q) = Loaded c) ->
  load_global_conf D (pre ++ p :: post) None = get_config D None (Some p).
Proof.
  intros Hp Hpost Hpre. unfold load_global_conf. cbn [truthy_optstr].
  destruct (search_config_skip D pre (p :: post) empty_config false Hpre)
    as (cur & f & ->).
  cbn [search_config]. rewrite Hp.
  destruct (get_config D None (Some p)) as [c| |]; cbn [load_bind]; try reflexivity.
  now rewrite (search_config_none D post c true Hpost).
Qed.

(** X28.  A file of the search path that exists and does not load ends the
    run there, even when a file further down the path would load. *)
Theorem broken_file_stops_search (D : Disk) (pre post : list string) (p : string) :
  path_exists D p = true ->
  (forall c, get_config D None (Some p) <> Loaded c) ->
  (forall q, In q pre -> path_exists D q = true ->
             exists c, get_config D None (Some q) = Loaded c) ->
  load_global_conf D (pre ++ p :: post) None = get_config D None (Some p).
Proof.
  intros Hp Hbad Hpre. unfold load_global_conf. cbn [truthy_optstr].
  destruct (search_config_skip D pre (p :: post) empty_config false Hpre)
    as (cur & f & ->).
  cbn [search_config]. rewrite Hp.
  destruct (get_config D None (Some p)) as [c| |]; cbn [load_bind]; try reflexivity.
  now elim (Hbad c).
Qed.

(** X29.  When no file of the search path exists and no file is named on
    the command line, the program exits with status 1 and a message that
    lists the paths; nothing of the run happens. *)
Theorem no_config_file_exits (D : Disk) (E : Env) (paths : list string)
    (w : World E) :
  (forall q, In q paths -> path_exists D q = false) ->
  main_cli D E paths None w
  = Died ("no config file found in " ++ join ", " paths).
Proof.
  intros H. unfold main_cli, load_global_conf. cbn [truthy_optstr].
  now rewrite (search_config_none D paths empty_config false H).
Qed.

(** ** The further properties on example hosts and files *)

Lemma run_without_script_runs_only_ip_witness :
  Forall (fun c => c = "ip addr show dev enp2s0")
    (shells (trace_of (main (Demo.world Demo.not_found Demo.created "9.9.9.9")
                         DemoConfig.silent_config tt))).
Proof.
  exact (run_without_script_runs_only_ip
           (Demo.world Demo.not_found Demo.created "9.9.9.9")
           DemoConfig.silent_config tt eq_refl).
Defined.

Lemma normal_run_request_count_witness :
  length (sends (trace_of (main (Demo.world Demo.not_found Demo.created "1.2.3.4")
                             (Demo.config [Demo.rec_at; Demo.rec_mail]) tt)))
  = 5%nat.
Proof.
  assert (H : main (Demo.world Demo.not_found Demo.created "1.2.3.4")
                (Demo.config [Demo.rec_at; Demo.rec_mail]) tt
              = (Ok [("example.com", [mkRecord "A" "@" (Some ["1.2.3.4"]);
                                      mkRecord "A" "mail" (Some ["1.2.3.4"])])],
                 tt,
                 trace_of (main (Demo.world Demo.not_found Demo.created "1.2.3.4")
                             (Demo.config [Demo.rec_at; Demo.rec_mail]) tt)))
    by (vm_compute; reflexivity).
  rewrite (normal_run_request_count _ _ _ _ _ _ H). reflexivity.
Defined.

Lemma env_key_overrides_config_key_witness :
  sends (trace_of (gandi_req DemoConfig.keyed_host (Demo.config [Demo.rec_at])
                     Demo.domain_url PyNone "GET" tt))
  = [mkRequest Demo.domain_url PyNone
       [("Content-Type", "application/json");
        ("X-Api-Key", "key-of-the-environment")] "GET"].
Proof.
  assert (H : "key-of-the-environment" <> "") by discriminate.
  exact (env_key_overrides_config_key DemoConfig.keyed_host
           (Demo.config [Demo.rec_at]) Demo.domain_url PyNone "GET"
           "key-of-the-environment" tt eq_refl H).
Defined.

Lemma gandi_req_http_error_returns_payload_witness :
  result_of (gandi_req (Demo.world Demo.forbidden Demo.created "1.2.3.4")
               (Demo.config [Demo.rec_at]) (Demo.zone ++ "/@/A") PyNone "GET" tt)
  = Ok (PyDict [("code", PyInt 403);
                ("message", PyStr "Access to the resource is denied");
                ("object", PyStr "HTTPForbidden");
                ("cause", PyStr "Forbidden")]).
Proof.
  destruct (gandi_req_http_error_returns_payload
              (Demo.world Demo.forbidden Demo.created "1.2.3.4")
              (Demo.config [Demo.rec_at]) (Demo.zone ++ "/@/A") PyNone "GET"
              tt tt _ _ eq_refl eq_refl eq_refl) as (t & H & _).
  rewrite H. reflexivity.
Defined.

Lemma run_without_api_key_stops_at_first_domain_witness :
  result_of (main (Demo.world Demo.not_found Demo.created "1.2.3.4")
               DemoConfig.keyless_config tt)
  = Raise AssertionError.
Proof.
  destruct (proj2 (proj2 (run_without_api_key_stops_at_first_domain
                            (Demo.world Demo.not_found Demo.created "1.2.3.4")
                            DemoConfig.keyless_config tt
                            "example.com" [Demo.rec_at] []
                            eq_refl eq_refl eq_refl))
              "1.2.3.4" tt _ eq_refl) as [H _].
  rewrite H. reflexivity.
Defined.

Lemma missing_wan_device_exits_first_witness :
  main_cli DemoConfig.nameless (Demo.world Demo.not_found Demo.created "1.2.3.4")
    (CONFIG_SEARCH_PATH None DemoConfig.home_path) None tt
  = Loaded (Raise (SystemExit 1), tt,
            [Stderr "config default.wan_device must be specified"]).
Proof.
  exact (missing_wan_device_exits_first DemoConfig.nameless
           (Demo.world Demo.not_found Demo.created "1.2.3.4")
           (CONFIG_SEARCH_PATH None DemoConfig.home_path) None
           (mkConfig "" None [] None) tt eq_refl eq_refl).
Defined.

Lemma no_address_on_device_is_fatal_witness :
  main (Demo.host [] (Some "Device does not exist.")) (Demo.config [Demo.rec_at]) tt
  = (Raise AttributeError, tt, [Shell "ip addr show dev enp2s0"]).
Proof.
  exact (no_address_on_device_is_fatal
           (Demo.host [] (Some "Device does not exist.")) (Demo.config [Demo.rec_at])
           tt tt "Device does not exist." "Device does not exist."
           eq_refl eq_refl eq_refl eq_refl eq_refl).
Defined.

Lemma echo_failure_is_fatal_witness :
  main (Demo.host [] (Some Demo.ip_addr_show)) (Demo.config [Demo.rec_at]) tt
  = (Raise URLError, tt, [Shell "ip addr show dev enp2s0"; Send echo_request]).
Proof.
  assert (H : forall b, UrlopenRaises <> Http2xx b) by (intros b; discriminate).
  exact (echo_failure_is_fatal
           (Demo.host [] (Some Demo.ip_addr_show)) (Demo.config [Demo.rec_at])
           tt tt tt Demo.ip_addr_show Demo.ip_addr_show "1.2.3.4" UrlopenRaises
           eq_refl eq_refl eq_refl eq_refl eq_refl eq_refl H).
Defined.

Lemma domain_lookup_failure_ends_run_witness :
  result_of (main_domains
               (Demo.host [("GET", Demo.domain_url, Demo.bad_gateway)]
                  (Some Demo.ip_addr_show))
               (Demo.config [Demo.rec_at]) "1.2.3.4"
               [("example.com", [Demo.rec_at])] tt)
  = Raise AssertionError.
Proof.
  rewrite (domain_lookup_failure_ends_run
             (Demo.host [("GET", Demo.domain_url, Demo.bad_gateway)]
                (Some Demo.ip_addr_show))
             (Demo.config [Demo.rec_at]) "1.2.3.4" "example.com" [Demo.rec_at] []
             tt tt PyNone _ eq_refl (or_introl eq_refl)).
  reflexivity.
Defined.

Lemma supplied_values_kept_witness :
  resolve "1.2.3.4" "example.com" Demo.rec_mx = Demo.rec_mx.
Proof.
  assert (H : type Demo.rec_mx <> "PTR") by discriminate.
  exact (supplied_values_kept "1.2.3.4" "example.com" Demo.rec_mx
           "10 mx1.example.net." ["20 mx2.example.net."] H eq_refl).
Defined.

Lemma re_search_inet_capture_witness :
  re_search_inet Demo.ip_addr_show = Some "1.2.3.4"
  /\ exists pre post,
       Demo.ip_addr_show = pre ++ "inet " ++ "1.2.3.4" ++ post
       /\ contains_char "/" "1.2.3.4" = false
       /\ (post = "" \/ exists p, post = String "/" p)
       /\ exists c g', "1.2.3.4" = String c g' /\ is_digit c = true.
Proof.
  split; [reflexivity|].
  exact (re_search_inet_capture Demo.ip_addr_show "1.2.3.4" eq_refl).
Defined.

Lemma split_csv_line_plain_witness :
  all_chars plain_char "10 one-val.com., 20 other-val.com." = true
  /\ split_csv_line "10 one-val.com., 20 other-val.com."
     = Some ["10 one-val.com."; "20 other-val.com."].
Proof.
  split; [reflexivity|].
  exact (split_csv_line_plain "10 one-val.com., 20 other-val.com." eq_refl).
Defined.

Lemma split_csv_line_fields_stripped_witness :
  split_csv_line " A , @ " = Some ["A"; "@"]
  /\ Forall (fun f => strip f = f) ["A"; "@"].
Proof.
  split; [reflexivity|].
  exact (split_csv_line_fields_stripped " A , @ " ["A"; "@"] eq_refl).
Defined.

Lemma split_csv_line_rejects_second_line_witness :
  split_csv_line ("v=spf1 mx" ++ String (ascii_of_nat 10) (String "-" "all")) = None.
Proof.
  exact (split_csv_line_rejects_second_line "v=spf1 mx" "all" (ascii_of_nat 10) "-"
           eq_refl eq_refl eq_refl).
Defined.

Lemma loaded_config_is_normalised_witness :
  config_of_ini DemoConfig.docstring_ini = Loaded DemoConfig.docstring_config
  /\ forall d rs,
       In (d, rs) (records DemoConfig.docstring_config) ->
       lower d = d /\ d <> "default"
       /\ Forall (fun r =>
                    upper (type r) = type r
                    /\ strip (name r) = name r
                    /\ forall l, val r = Some l -> Forall (fun v => strip v = v) l)
            rs.
Proof.
  split; [reflexivity|].
  exact (loaded_config_is_normalised DemoConfig.docstring_ini
           DemoConfig.docstring_config eq_refl).
Defined.

Lemma loaded_config_keys_have_two_fields_witness :
  exists rectype recname, split_csv_line "mx, @" = Some [rectype; recname].
Proof.
  apply (loaded_config_keys_have_two_fields DemoConfig.docstring_ini
           DemoConfig.docstring_config eq_refl "foobar.org"
           [("a, @", None); ("a, mail", None);
            ("cname, bmon", Some "some-host.lan.");
            ("mx, @", Some "10 one-val.com., 20 other-val.com.")]
           "mx, @" (Some "10 one-val.com., 20 other-val.com.")).
  - right; right; left; reflexivity.
  - vm_compute; discriminate.
  - right; right; right; left; reflexivity.
Defined.

Lemma blank_value_is_filled_with_local_ip_witness :
  parse_record "a, @" None = Loaded (mkRecord "A" "@" None)
  /\ val (resolve "1.2.3.4" "foobar.org" (mkRecord "A" "@" None)) = Some ["1.2.3.4"].
Proof.
  assert (H : type (mkRecord "A" "@" None) <> "PTR") by discriminate.
  split; [reflexivity|].
  exact (proj2 (blank_value_is_filled_with_local_ip "a, @" None (mkRecord "A" "@" None)
                  "1.2.3.4" "foobar.org" eq_refl (or_introl eq_refl) H)).
Defined.

Lemma later_section_replaces_same_domain_witness :
  exists rs2,
    section_records [("mx, @", Some "10 a., 20 b.")] = Loaded rs2
    /\ In ("foo.org", rs2) (records DemoConfig.twice_config)
    /\ forall rs, In ("foo.org", rs) (records DemoConfig.twice_config) -> rs = rs2.
Proof.
  assert (Hd : lower "foo.ORG" <> "default") by (vm_compute; discriminate).
  assert (Hpost : forall s : string * list (string * option string),
             In s [("bar.net", [("a, www", None)])] ->
             lower (fst s) <> lower "foo.ORG").
  { intros s [<-|[]]. vm_compute. discriminate. }
  exact (later_section_replaces_same_domain
           [("DEFAULT", []); ("default", [("wan_device", Some "eth0")])]
           [("example.com", [("a, @", None)])]
           [("bar.net", [("a, www", None)])]
           "Foo.org" "foo.ORG" [("a, @", None)]
           [("mx, @", Some "10 a., 20 b.")]
           DemoConfig.twice_config eq_refl eq_refl Hd Hpost).
Defined.

Lemma wan_device_is_required_witness :
  (exists items v,
     ini_section DemoConfig.docstring_ini "default" = Some items
     /\ item_lookup items "wan_device" = Some v
     /\ wan_device DemoConfig.docstring_config = match v with Some s => s | None => "" end)
  /\ notify_script DemoConfig.docstring_config
     = cp_get_fallback DemoConfig.docstring_ini "default" "notify_script"
  /\ gandi_api_key DemoConfig.docstring_config
     = cp_get_fallback DemoConfig.docstring_ini "default" "gandi_api_key".
Proof.
  exact (wan_device_is_required DemoConfig.docstring_ini DemoConfig.docstring_config
           eq_refl).
Defined.

Lemma one_domain_per_section_in_order_witness :
  map fst (records DemoConfig.docstring_config) = ["foobar.org"; "hmmmm.com"]
  /\ Forall2 (fun s drs =>
                fst drs = lower (fst s)
                /\ Forall2 (fun item r => parse_record (fst item) (snd item) = Loaded r)
                     (snd s) (snd drs))
       (domain_sections DemoConfig.docstring_ini)
       (records DemoConfig.docstring_config).
Proof.
  assert (H : NoDup (map (fun s => lower (fst s))
                       (domain_sections DemoConfig.docstring_ini))).
  { vm_compute. constructor; [intros [H|[]]; discriminate|].
    constructor; [intros []|constructor]. }
  split; [reflexivity|].
  exact (one_domain_per_section_in_order DemoConfig.docstring_ini
           DemoConfig.docstring_config eq_refl H).
Defined.

Lemma last_existing_file_wins_witness :
  load_global_conf DemoConfig.both
    (CONFIG_SEARCH_PATH None DemoConfig.home_path) None
  = get_config DemoConfig.both None (Some DemoConfig.etc_path).
Proof.
  assert (Hpost : forall q, In q (@nil string) -> path_exists DemoConfig.both q = false)
    by (intros q []).
  assert (Hpre : forall q, In q [DemoConfig.home_path] ->
                   path_exists DemoConfig.both q = true ->
                   exists c, get_config DemoConfig.both None (Some q) = Loaded c).
  { intros q [<-|[]] _. exists DemoConfig.docstring_config. reflexivity. }
  exact (last_existing_file_wins DemoConfig.both [DemoConfig.home_path] []
           DemoConfig.etc_path eq_refl Hpost Hpre).
Defined.

Lemma broken_file_stops_search_witness :
  load_global_conf DemoConfig.broken_home
    (CONFIG_SEARCH_PATH None DemoConfig.home_path) None
  = LoadRaised ReadError.
Proof.
  assert (Hbad : forall c, get_config DemoConfig.broken_home None
                             (Some DemoConfig.home_path) <> Loaded c)
    by (intros c; vm_compute; discriminate).
  assert (Hpre : forall q, In q (@nil string) ->
                   path_exists DemoConfig.broken_home q = true ->
                   exists c, get_config DemoConfig.broken_home None (Some q) = Loaded c)
    by (intros q []).
  exact (broken_file_stops_search DemoConfig.broken_home [] [DemoConfig.etc_path]
           DemoConfig.home_path eq_refl Hbad Hpre).
Defined.

Lemma no_config_file_exits_witness :
  main_cli DemoConfig.bare (Demo.world Demo.not_found Demo.created "1.2.3.4")
    (CONFIG_SEARCH_PATH (Some "/srv/ddns.ini") DemoConfig.home_path) None tt
  = Died "no config file found in /srv/ddns.ini, /home/ddns/.config/gandi-ddns.ini, /etc/gandi-ddns/config.ini".
Proof.
  exact (no_config_file_exits DemoConfig.bare
           (Demo.world Demo.not_found Demo.created "1.2.3.4")
           (CONFIG_SEARCH_PATH (Some "/srv/ddns.ini") DemoConfig.home_path) tt
           (fun q _ => eq_refl)).
Defined.
